(** * vsxploit: the observe-match-react loop of [main.py]

    A shallow embedding of [main.py]: the control-sequence stripper
    ([strip_ansi_codes]), the remote log updater ([update_github_file]),
    the two interaction drivers ([run_and_detect_windows],
    [run_and_detect_unix]), the resolver of the binary
    ([download_vscode_server]) and the entry point, followed by the
    properties of the specification that concern them.

    Text is modelled as a list of characters; a character is a code
    point below 256 (the check mark of three console messages stands
    as the three bytes of its UTF-8 form).  Console output, HTTP
    requests and input sent to the child are recorded, in order, in
    the [output] of a [world]; failures are Python exceptions, carried
    by [result].  The YAML documents are taken well-typed: a match text
    is a string or [None], an action a string, and the keys that
    [main.py] reads with [config[...]] are present. *)

From Stdlib Require Import Ascii String.
From Stdlib Require Import List Bool NArith ZArith Lia.
From Stdlib Require Import DecimalString.
Import ListNotations.

(** ** Text *)

Definition str := list ascii.

(** A literal of the source. *)
Definition lit (s : string) : str := list_ascii_of_string s.
Arguments lit s%_string.

Definition ord (c : ascii) : N := N_of_ascii c.
Definition chr (n : N) : ascii := ascii_of_N n.

Definition ESC : ascii := "027"%char.   (* \x1B *)
Definition BEL : ascii := "007"%char.   (* \a   *)
Definition LF  : ascii := "010"%char.   (* \n   *)
Definition CR  : ascii := "013"%char.   (* \r   *)

(** ** The Python string operations the program uses *)

Module Py.

Definition between (lo hi : N) (c : ascii) : bool :=
  ((lo <=? ord c) && (ord c <=? hi))%N.

(** [str.isspace] on one character: the ASCII white space
    (TAB, LF, VT, FF, CR, FS, GS, RS, US, SPACE), NEL and NBSP. *)
Definition isspace (c : ascii) : bool :=
  between 9 13 c || between 28 32 c || (ord c =? 133)%N || (ord c =? 160)%N.

(** [str.lower] on one character: [A-Z] and the upper-case letters of
    Latin-1 (U+00C0..U+00DE without the multiplication sign U+00D7). *)
Definition lower_char (c : ascii) : ascii :=
  if between 65 90 c || (between 192 222 c && negb (ord c =? 215)%N)
  then chr (ord c + 32) else c.

Definition lower (s : str) : str := map lower_char s.

Fixpoint dropwhile (p : ascii -> bool) (s : str) : str :=
  match s with
  | [] => []
  | c :: t => if p c then dropwhile p t else s
  end.

Definition lstrip_by (p : ascii -> bool) (s : str) : str := dropwhile p s.
Definition rstrip_by (p : ascii -> bool) (s : str) : str :=
  rev (dropwhile p (rev s)).

(** [s.strip()] *)
Definition strip (s : str) : str := rstrip_by isspace (lstrip_by isspace s).

Definition mem (chars : str) (c : ascii) : bool :=
  existsb (Ascii.eqb c) chars.

(** [s.strip(chars)]: [chars] is a set of characters, removed from
    both ends. *)
Definition strip_chars (chars s : str) : str :=
  rstrip_by (mem chars) (lstrip_by (mem chars) s).

(** [s.startswith(prefix)] *)
Fixpoint startswith (prefix s : str) : bool :=
  match prefix, s with
  | [], _ => true
  | _ :: _, [] => false
  | p :: ps, c :: cs => Ascii.eqb p c && startswith ps cs
  end.

(** [sub in s] *)
Fixpoint contains (sub s : str) : bool :=
  startswith sub s ||
  match s with
  | [] => false
  | _ :: t => contains sub t
  end.

(** [a == b] on strings *)
Fixpoint eqb (a b : str) : bool :=
  match a, b with
  | [], [] => true
  | x :: a', y :: b' => Ascii.eqb x y && eqb a' b'
  | _, _ => false
  end.

(** [not s] on a string *)
Definition is_empty (s : str) : bool :=
  match s with [] => true | _ :: _ => false end.

(** The leftmost occurrence of [sep] in [s]: what is before it and
    what is after it. *)
Fixpoint partition (sep s : str) : option (str * str) :=
  if startswith sep s then Some ([], skipn (length sep) s)
  else match s with
       | [] => None
       | c :: t =>
         match partition sep t with
         | Some (before, after) => Some (c :: before, after)
         | None => None
         end
       end.

(** [s.split(sep, 1)] for a non-empty [sep] *)
Definition split1 (sep s : str) : list str :=
  match partition sep s with
  | Some (before, after) => [before; after]
  | None => [s]
  end.

(** [str(n)] for an integer *)
Definition str_of_int (n : Z) : str :=
  lit (NilZero.string_of_int (Z.to_int n)).

End Py.

(** ** The fragment of Python's [re] that [ansi_escape] is written in

    A backtracking matcher: alternatives are tried left to right, [?]
    and [*] are greedy, [*?] is lazy, and the first way to match the
    whole pattern wins. *)

Module Re.

(** Sets of characters: what a single position of the pattern accepts. *)
Inductive cset :=
| Char (c : ascii)            (* a literal character          *)
| Range (lo hi : ascii)       (* lo-hi inside [...]           *)
| Union (a b : cset)          (* juxtaposition inside [...]   *)
| Compl (a : cset)            (* [^...]                       *)
| Dot.                        (* . : anything but a newline   *)

Fixpoint accepts (cs : cset) (c : ascii) : bool :=
  match cs with
  | Char x => Ascii.eqb c x
  | Range lo hi => Py.between (ord lo) (ord hi) c
  | Union a b => accepts a c || accepts b c
  | Compl a => negb (accepts a c)
  | Dot => negb (Ascii.eqb c LF)
  end.

Inductive regex :=
| One (cs : cset)             (* one character of the set     *)
| Opt (cs : cset)             (* cs?                          *)
| Star (cs : cset)            (* cs*                          *)
| LazyStar (cs : cset)        (* cs*?                         *)
| Seq (r1 r2 : regex)         (* r1 r2                        *)
| Alt (r1 r2 : regex).        (* r1|r2                        *)

Definition orelse (a b : option str) : option str :=
  match a with Some _ => a | None => b end.

(** [cs*] then [k]: as many characters as possible, giving them back
    one at a time while [k] fails. *)
Fixpoint star (cs : cset) (k : str -> option str) (s : str) : option str :=
  match s with
  | c :: t => if accepts cs c then orelse (star cs k t) (k s) else k s
  | [] => k s
  end.

(** [cs*?] then [k]: as few characters as possible. *)
Fixpoint lazy_star (cs : cset) (k : str -> option str) (s : str) : option str :=
  match k s with
  | Some r => Some r
  | None =>
    match s with
    | c :: t => if accepts cs c then lazy_star cs k t else None
    | [] => None
    end
  end.

(** [rmatch r k s]: match [r] at the start of [s], then [k] on what
    follows; the result is what is left of [s] after the whole match. *)
Fixpoint rmatch (r : regex) (k : str -> option str) (s : str) : option str :=
  match r with
  | One cs =>
    match s with
    | c :: t => if accepts cs c then k t else None
    | [] => None
    end
  | Opt cs =>
    match s with
    | c :: t => if accepts cs c then orelse (k t) (k s) else k s
    | [] => k s
    end
  | Star cs => star cs k s
  | LazyStar cs => lazy_star cs k s
  | Seq r1 r2 => rmatch r1 (rmatch r2 k) s
  | Alt r1 r2 => orelse (rmatch r1 k s) (rmatch r2 k s)
  end.

(** The least number of characters a match of [r] takes. *)
Fixpoint min_len (r : regex) : nat :=
  match r with
  | One _ => 1
  | Opt _ | Star _ | LazyStar _ => 0
  | Seq r1 r2 => min_len r1 + min_len r2
  | Alt r1 r2 => Nat.min (min_len r1) (min_len r2)
  end.

(** [pattern.match(s)]: the number of characters matched at the
    start of [s]. *)
Definition match_len (r : regex) (s : str) : option nat :=
  match rmatch r Some s with
  | Some rest => Some (length s - length rest)
  | None => None
  end.

(** [pattern.sub('', s)] for a pattern that matches no empty text
    ([min_len] is not 0), [skip] characters of a match still to be
    dropped.  The scan goes left to right; where the pattern matches,
    the characters of the match are dropped and the scan resumes
    behind them; elsewhere the character is kept. *)
Fixpoint sub_skip (r : regex) (skip : nat) (s : str) : str :=
  match s with
  | [] => []
  | c :: t =>
    match skip with
    | S n => sub_skip r n t
    | O =>
      match match_len r s with
      | Some (S n) => sub_skip r n t
      | _ => c :: sub_skip r 0 t
      end
    end
  end.

Definition sub_empty (r : regex) (s : str) : str := sub_skip r 0 s.

End Re.

(** ** ANSI code remover (main.py, lines 83-87) *)

Module Ansi.
Import Re.

Definition lit1 (c : ascii) : regex := One (Char c).

(** [\x1B[@-Z\\-_]] *)
Definition two_char : regex :=
  Seq (lit1 ESC) (One (Union (Range "@" "Z") (Range "\" "_"))).

(** [\x1B\[0?[0-9;]*[a-zA-Z]] *)
Definition csi : regex :=
  Seq (lit1 ESC) (Seq (lit1 "[") (Seq (Opt (Char "0"))
    (Seq (Star (Union (Range "0" "9") (Char ";")))
         (One (Union (Range "a" "z") (Range "A" "Z")))))).

(** [\x1B\][^\a]*(\a|\x1B\\)] *)
Definition osc : regex :=
  Seq (lit1 ESC) (Seq (lit1 "]") (Seq (Star (Compl (Char BEL)))
    (Alt (lit1 BEL) (Seq (lit1 ESC) (lit1 "\"))))).

(** [\x1B[P^_].*?\x1B\\] *)
Definition dcs : regex :=
  Seq (lit1 ESC) (Seq (One (Union (Char "P") (Union (Char "^") (Char "_"))))
    (Seq (LazyStar Dot) (Seq (lit1 ESC) (lit1 "\")))).

(** [(?:two_char|csi|osc|dcs)] *)
Definition ansi_escape : regex := Alt two_char (Alt csi (Alt osc dcs)).

End Ansi.

Definition strip_ansi_codes (text : str) : str :=
  Re.sub_empty Ansi.ansi_escape text.

(** ** Exceptions, effects and the world *)

Inductive exn :=
| IndexError                  (* list index out of range                  *)
| EOF (msg : str)             (* pexpect.EOF                              *)
| KeyboardInterrupt           (* not a subclass of Exception              *)
| Error (msg : str).          (* any other Exception; [msg] is its str()  *)

(** What [except Exception] catches. *)
Definition is_Exception (e : exn) : bool :=
  match e with KeyboardInterrupt => false | _ => true end.

(** [str(e)] *)
Definition str_exn (e : exn) : str :=
  match e with
  | IndexError => lit "list index out of range"
  | EOF msg => msg
  | KeyboardInterrupt => []
  | Error msg => msg
  end.

Inductive result (A : Type) :=
| Ok (a : A)
| Raise (e : exn).
Arguments Ok {A} a.
Arguments Raise {A} e.

(** The response of the remote: its status and the two fields of its
    JSON body that the program reads. *)
Record response := {
  status_code : Z;
  json_sha : str;               (* response.json()["sha"]     *)
  json_content : str            (* response.json()["content"] *)
}.

Record headers := {
  Authorization : str;
  Accept : str
}.

(** The JSON body of the write. *)
Record put_data := {
  data_message : str;
  data_content : str;
  data_sha : str;
  data_branch : str
}.

(** Everything the program does to the outside, one constructor per
    kind of statement. *)
Inductive event :=
| Print (line : str)                    (* print(line)                             *)
| DebugPrint (message : str)            (* print(f"[DEBUG] {timestamp} - {message}") *)
| HttpGet (url : str) (h : headers)     (* requests.get(url, headers=h)            *)
| HttpPut (url : str) (h : headers) (data : put_data)
                                        (* requests.put(url, headers=h, json=data) *)
| Popen (argv : list str)               (* subprocess.Popen(argv, ...)             *)
| Spawn (command : str)                 (* pexpect.spawn(command, ...)             *)
| StdinWrite (s : str)                  (* process.stdin.write(s)                  *)
| StdinFlush                            (* process.stdin.flush()                   *)
| Send (s : str)                        (* child.send(s)                           *)
| Sleep.                                (* time.sleep(0.2)                         *)

(** The remote answers the requests of a session one after the other:
    [network] holds the answers still to come, each a response or the
    exception the request raises; with none left the request cannot
    connect.  [output] is what has been done so far, oldest first. *)
Record world := {
  network : list (result response);
  output : list event
}.

Definition M (A : Type) : Type := world -> result A * world.

Definition ret {A} (a : A) : M A := fun w => (Ok a, w).

Definition bind {A B} (m : M A) (f : A -> M B) : M B :=
  fun w =>
    match m w with
    | (Ok a, w') => f a w'
    | (Raise e, w') => (Raise e, w')
    end.

Definition raise {A} (e : exn) : M A := fun w => (Raise e, w).

Definition lift {A} (r : result A) : M A := fun w => (r, w).

Declare Scope py_scope.
Delimit Scope py_scope with py.
Notation "x <- m ;; k" := (bind m (fun x => k))
  (at level 61, m at next level, right associativity) : py_scope.
Notation "m ;; k" := (bind m (fun _ => k))
  (at level 61, right associativity) : py_scope.
Open Scope py_scope.

Definition emit (ev : event) : M unit :=
  fun w => (Ok tt, {| network := network w; output := output w ++ [ev] |}).

Definition print (line : str) : M unit := emit (Print line).

(** [try: m  except <those e with handles e> as e: handler e] *)
Definition try_except {A} (m : M A) (handles : exn -> bool)
    (handler : exn -> M A) : M A :=
  fun w =>
    match m w with
    | (Ok a, w') => (Ok a, w')
    | (Raise e, w') => if handles e then handler e w' else (Raise e, w')
    end.

(** [for x in l: body x] *)
Fixpoint for_each {A} (l : list A) (body : A -> M unit) : M unit :=
  match l with
  | [] => ret tt
  | x :: rest => body x ;; for_each rest body
  end.

(** [l[i]] *)
Definition item {A} (l : list A) (i : nat) : M A :=
  match nth_error l i with
  | Some x => ret x
  | None => raise IndexError
  end.

(** [d.get(key, default)], the key being absent when the field is [None]. *)
Definition dict_get {A} (field : option A) (default : A) : A :=
  match field with Some v => v | None => default end.

(** A request: it is recorded, then answered by the head of [network]. *)
Definition request (ev : event) : M response :=
  fun w =>
    match network w with
    | r :: rest => (r, {| network := rest; output := output w ++ [ev] |})
    | [] => (Raise (Error (lit "Connection refused")),
             {| network := []; output := output w ++ [ev] |})
    end.

(** The outcome of starting the child ([subprocess.Popen],
    [pexpect.spawn]): the child runs, or the call raises an exception
    (an [OSError], an [ExceptionPexpect]) with the message [msg]. *)
Definition launch (failure : option str) : M unit :=
  match failure with
  | Some msg => raise (Error msg)
  | None => ret tt
  end.

(** ** Configuration (config.yaml and detector.yaml) *)

Record settings := {
  debug : option bool;
  github_token : str;
  repo_owner : str;
  repo_name : str;
  branch : str;
  target_file : str;
  commit_id : str;
  quality : option str
}.

(** One entry of the list under [detect].  A field is [None] when its
    key is absent; [key_match] is [Some None] when the key is there
    with the value [None]. *)
Record detector := {
  key_match : option (option str);
  key_upload : option bool;
  key_action : option (list str)
}.

Record rule_set := {
  key_detect : option (list detector)
}.

(** [base64] and the UTF-8 codec are the library's:
    [b64decode_text c] is [base64.b64decode(c).decode(errors='ignore')],
    [b64encode_text s] is [base64.b64encode(s.encode()).decode()]. *)
Record codec := {
  b64decode_text : str -> result str;
  b64encode_text : str -> str
}.

(** The [headers] and the [url] of [update_github_file] (lines 136-140). *)
Definition api_headers (token : str) : headers :=
  {| Authorization := lit "token " ++ token;
     Accept := lit "application/vnd.github.v3+json" |}.

Definition api_url (repo_owner repo_name branch target_file : str) : str :=
  lit "https://api.github.com/repos/" ++ repo_owner ++ lit "/" ++ repo_name
  ++ lit "/contents/" ++ target_file ++ lit "?ref=" ++ branch.

(** The requests among the events. *)
Definition is_request (ev : event) : bool :=
  match ev with
  | HttpGet _ _ | HttpPut _ _ _ => true
  | _ => false
  end.

Definition requests_of (evs : list event) : list event := filter is_request evs.

(** [w] with [evs] done after what was done before. *)
Definition log (evs : list event) (w : world) : world :=
  {| network := network w; output := output w ++ evs |}.

(** A rule matches a text: it has a match text, which is not empty and
    occurs in the text. *)
Definition rule_matches (text : str) (d : detector) : bool :=
  match dict_get (key_match d) None with
  | Some k => negb (Py.is_empty k) && Py.contains k text
  | None => false
  end.

Section Program.

Variable base64 : codec.
Variable config : settings.
Variable detectors : rule_set.

(** *** Debugging setup (lines 35-38) *)

Definition debug_print (message : str) : M unit :=
  if dict_get (debug config) false then emit (DebugPrint message) else ret tt.

(** What [debug_print message] adds to the output. *)
Definition debug_events (message : str) : list event :=
  if dict_get (debug config) false then [DebugPrint message] else [].

(** *** GitHub updater (lines 135-168) *)

Definition update_github_file
    (message token repo_owner repo_name branch target_file : str) : M unit :=
  let headers := api_headers token in
  let url := api_url repo_owner repo_name branch target_file in
  debug_print (lit "Fetching file from GitHub: " ++ url) ;;
  response <- request (HttpGet url headers) ;;
  if negb (status_code response =? 200)%Z then
    print (lit "[!] GitHub GET failed: " ++ Py.str_of_int (status_code response))
  else
    let sha := json_sha response in
    old_content <- lift (b64decode_text base64 (json_content response)) ;;
    let new_content := old_content ++ [LF] ++ Py.strip message ++ [LF] in
    let b64_content := b64encode_text base64 new_content in
    let data := {| data_message := lit "Auto-detected: " ++ Py.strip message;
                   data_content := b64_content;
                   data_sha := sha;
                   data_branch := branch |} in
    debug_print (lit "Updating GitHub file with new content") ;;
    print (lit "[+] Updating GitHub file: " ++ url) ;;
    put <- request (HttpPut url headers data) ;;
    if ((status_code put =? 200) || (status_code put =? 201))%Z then
      print (lit "[✓] GitHub file updated successfully.") ;;
      debug_print (lit "GitHub file updated successfully at " ++ url)
    else
      print (lit "[!] GitHub PUT failed: " ++ Py.str_of_int (status_code put)) ;;
      debug_print (lit "GitHub PUT failed with status: "
                   ++ Py.str_of_int (status_code put)).

(** The call of both drivers (lines 191-198 and 243-250). *)
Definition upload_line (message : str) : M unit :=
  update_github_file message (github_token config) (repo_owner config)
    (repo_name config) (branch config) (target_file config).

(** [f"{keyword}"] *)
Definition format_keyword (keyword : option str) : str :=
  match keyword with Some k => k | None => lit "None" end.

(** [keyword and keyword in text] *)
Definition keyword_in (keyword : option str) (text : str) : bool :=
  match keyword with
  | Some k => negb (Py.is_empty k) && Py.contains k text
  | None => false
  end.

(** *** Main loop for Windows (lines 171-210) *)

(** One round of [for action in actions] (lines 200-210). *)
Definition react_windows (action : str) : M unit :=
  debug_print (lit "Processing action: " ++ action) ;;
  (if Py.eqb (Py.lower action) (lit "enter") then
     emit (StdinWrite [LF]) ;;
     emit StdinFlush ;;
     debug_print (lit "Sent Enter")
   else if Py.startswith (lit "string:") (Py.lower action) then
     value <- item (Py.split1 (lit "string:") action) 1 ;;
     emit (StdinWrite value) ;;
     emit StdinFlush ;;
     debug_print (lit "Sent string: " ++ value)
   else ret tt) ;;
  emit Sleep.

(** What a matching rule sets off (lines 188-210). *)
Definition apply_windows (cleaned : str) (detector : detector) : M unit :=
  let keyword := dict_get (key_match detector) None in
  let upload := dict_get (key_upload detector) false in
  let actions := dict_get (key_action detector) [] in
  print (lit "[✓] Detected match: " ++ format_keyword keyword) ;;
  debug_print (lit "Detected match for keyword: " ++ format_keyword keyword) ;;
  (if upload then upload_line cleaned else ret tt) ;;
  for_each actions react_windows.

(** One round of [for detector in detectors.get("detect", [])]
    (lines 184-210). *)
Definition detect_windows (cleaned : str) (detector : detector) : M unit :=
  let keyword := dict_get (key_match detector) None in
  if keyword_in keyword cleaned then apply_windows cleaned detector
  else ret tt.

(** The [while True] loop; [stdout] is what the successive calls of
    [process.stdout.readline()] give, [''] once it is used up. *)
Fixpoint loop_windows (stdout : list (result str)) : M unit :=
  match stdout with
  | [] => ret tt                                  (* not line: break *)
  | read :: rest =>
    line <- lift read ;;
    if Py.is_empty line then ret tt               (* not line: break *)
    else
      let cleaned := strip_ansi_codes (Py.strip line) in
      print (lit "[>] " ++ cleaned) ;;
      for_each (dict_get (key_detect detectors) []) (detect_windows cleaned) ;;
      loop_windows rest
  end.

(** [subprocess.Popen] (line 173); [failure] is the message of the
    exception that starting the child raises, if it does. *)
Definition run_and_detect_windows (cli_bin : str) (failure : option str)
    (stdout : list (result str)) : M unit :=
  print (lit "[+] Starting VSCode tunnel...") ;;
  emit (Popen [cli_bin; lit "tunnel"]) ;;
  launch failure ;;
  loop_windows stdout.

(** *** Main loop for Linux/Darwin (lines 213-291) *)

(** The value that lines 222-224 and 239-241 compute. *)
Definition cleaned_of (line : str) : str :=
  let cleaned_line := strip_ansi_codes line in
  if Py.startswith (lit "^[[B") cleaned_line
  then Py.strip_chars (lit "^[[B") cleaned_line
  else cleaned_line.

(** Lines 222-225 and 239-242: the cleaned line, without the residue
    of a cursor movement at its front. *)
Definition clean_line (line : str) : M str :=
  let cleaned_line := strip_ansi_codes line in
  if Py.startswith (lit "^[[B") cleaned_line then
    let cleaned_line := Py.strip_chars (lit "^[[B") cleaned_line in
    debug_print (lit "Debug cleaned line: " ++ cleaned_line) ;;
    ret cleaned_line
  else ret cleaned_line.

(** One round of [for action in actions] (lines 252-281). *)
Definition react_unix (action : str) : M unit :=
  debug_print (lit "Processing action: " ++ action) ;;
  (if Py.eqb (Py.lower action) (lit "enter") then
     print (lit "[>] Sending Enter") ;;
     emit (Send [CR]) ;;
     debug_print (lit "Sent Enter (\r)")
   else if Py.eqb (Py.lower action) (lit "down") then
     print (lit "[>] Sending Down") ;;
     emit (Send (ESC :: lit "[B")) ;;
     debug_print (lit "Sent Down (\x1b[B])")
   else if Py.eqb (Py.lower action) (lit "up") then
     print (lit "[>] Sending Up") ;;
     emit (Send (ESC :: lit "[A")) ;;
     debug_print (lit "Sent Up (\x1b[A])")
   else if Py.eqb (Py.lower action) (lit "left") then
     print (lit "[>] Sending Left") ;;
     emit (Send (ESC :: lit "[D")) ;;
     debug_print (lit "Sent Left (\x1b[D])")
   else if Py.eqb (Py.lower action) (lit "right") then
     print (lit "[>] Sending Right") ;;
     emit (Send (ESC :: lit "[C")) ;;
     debug_print (lit "Sent Right (\x1b[C])")
   else if Py.startswith (lit "string:") (Py.lower action) then
     text <- item (Py.split1 (lit "string:") action) 1 ;;
     print (lit "[>] Sending string: " ++ text) ;;
     emit (Send text) ;;
     debug_print (lit "Sent string: " ++ text)
   else
     print (lit "[!] Unknown action: " ++ action) ;;
     debug_print (lit "Unknown action: " ++ action)) ;;
  emit Sleep.

(** What a matching rule sets off (lines 236-281). *)
Definition apply_unix (line : str) (detector : detector) : M unit :=
  let keyword := dict_get (key_match detector) None in
  let upload := dict_get (key_upload detector) false in
  let actions := dict_get (key_action detector) [] in
  print (lit "[✓] Detected match: " ++ format_keyword keyword) ;;
  debug_print (lit "Detected match for keyword: " ++ format_keyword keyword) ;;
  (if upload then
     cleaned_line <- clean_line line ;;
     upload_line cleaned_line
   else ret tt) ;;
  for_each actions react_unix.

(** One round of [for detector in detectors.get("detect", [])]
    (lines 232-281). *)
Definition detect_unix (line : str) (detector : detector) : M unit :=
  let keyword := dict_get (key_match detector) None in
  if keyword_in keyword line then apply_unix line detector
  else ret tt.

(** The body of the [try] (lines 220-281); [expect] is what
    [child.expect([r'.+'])] gives: [child.after] or an exception. *)
Definition iteration_unix (expect : result str) : M unit :=
  after <- lift expect ;;
  let line := Py.strip after in
  cleaned_print_line <- clean_line line ;;
  if Py.is_empty line then ret tt                 (* continue *)
  else
    print (lit "[>] " ++ cleaned_print_line) ;;
    for_each (dict_get (key_detect detectors) []) (detect_unix line).

(** The three [except] clauses (lines 283-291); each ends in [break]. *)
Definition except_unix (e : exn) : M unit :=
  match e with
  | EOF _ => print (lit "[!] Process ended")
  | KeyboardInterrupt => print (lit "[X] Interrupted by user")
  | _ => print (lit "[!] Exception: " ++ str_exn e)
  end.

(** The [while True] loop; [expects] is what the successive calls of
    [child.expect] give, [pexpect.EOF] once it is used up. *)
Fixpoint loop_unix (expects : list (result str)) : M unit :=
  match expects with
  | [] => except_unix (EOF [])
  | expect :: rest =>
    fun w =>
      match iteration_unix expect w with
      | (Ok _, w') => loop_unix rest w'
      | (Raise e, w') => except_unix e w'
      end
  end.

(** [pexpect.spawn] (line 215) stands before the [try]: what it
    raises leaves the function. *)
Definition run_and_detect_unix (cli_bin : str) (failure : option str)
    (expects : list (result str)) : M unit :=
  debug_print (lit "Starting VSCode tunnel with binary " ++ cli_bin) ;;
  emit (Spawn (cli_bin ++ lit " tunnel")) ;;
  launch failure ;;
  print (lit "[+] Starting VSCode tunnel...") ;;
  loop_unix expects.

End Program.

(** ** Binary resolution (main.py, lines 41-132) *)

Module Resolver.

(** What the [platform] module tells. *)
Record platform := {
  system : str;                 (* platform.system()          *)
  machine : str;                (* platform.machine()         *)
  bitness : str                 (* platform.architecture()[0] *)
}.

(** The keys of config.yaml that the resolver reads with
    [config[...]]. *)
Record paths_settings := {
  extracted_path : str;
  extracted_bin : str;
  download_url_format : str
}.

(** A regular file: what it holds and its permission bits. *)
Record file := {
  content : str;
  mode : N
}.

(** The regular files of the machine, by path; the entry nearest the
    head is the file as it is now. *)
Definition files := list (str * file).

Fixpoint lookup (path : str) (d : files) : option file :=
  match d with
  | [] => None
  | (p, f) :: rest => if Py.eqb p path then Some f else lookup path rest
  end.

(** [os.path.isfile(path)] *)
Definition isfile (path : str) (d : files) : bool :=
  match lookup path d with Some _ => true | None => false end.

Definition store (path : str) (f : file) (d : files) : files := (path, f) :: d.

(** The answer to the download: the status line, the address answered
    for, and what [iter_content] gives, chunk by chunk. *)
Record download := {
  dl_status : Z;
  dl_reason : str;
  dl_url : str;
  dl_chunks : list (result str)
}.

(** The functions of [os.path], [tempfile], [str], [zipfile] and
    [tarfile], taken as the library has them.  [unpack zip archive
    base_dir] is what [extractall] writes for the archive read (its
    bytes, if the file is there): each file with the path it lands on,
    or the exception that opening or decoding the archive raises.  A
    path names the file it spells. *)
Record library := {
  expanduser : str -> str;
  join : str -> str -> str;
  gettempdir : str;
  format_url : str -> str -> str -> str -> result str;
                                (* fmt.format(commit_id=, platform_path=, quality=) *)
  new_file_mode : N;            (* 0o666 without the bits of the umask *)
  no_such_file : str -> str;    (* str() of the FileNotFoundError for a path *)
  unpack : bool -> option str -> str -> result (list (str * file))
}.

(** The machine the resolver runs on: the console of the session, the
    files, the directories made, the addresses requested so far, and
    what the download server answers. *)
Record site := {
  console : world;
  disk : files;
  made_dirs : list str;
  requested : list str;
  server : result download
}.

Definition R (A : Type) : Type := site -> result A * site.

Definition rret {A} (a : A) : R A := fun s => (Ok a, s).

Definition rbind {A B} (m : R A) (f : A -> R B) : R B :=
  fun s =>
    match m s with
    | (Ok a, s') => f a s'
    | (Raise e, s') => (Raise e, s')
    end.

Definition rraise {A} (e : exn) : R A := fun s => (Raise e, s).

Definition rlift {A} (r : result A) : R A := fun s => (r, s).

(** [try: m  except <those e with handles e> as e: handler e] *)
Definition rtry_except {A} (m : R A) (handles : exn -> bool)
    (handler : exn -> R A) : R A :=
  fun s =>
    match m s with
    | (Ok a, s') => (Ok a, s')
    | (Raise e, s') => if handles e then handler e s' else (Raise e, s')
    end.

Declare Scope site_scope.
Notation "x <- m ;; k" := (rbind m (fun x => k))
  (at level 61, m at next level, right associativity) : site_scope.
Notation "m ;; k" := (rbind m (fun _ => k))
  (at level 61, right associativity) : site_scope.

(** A piece of the program that only uses the console. *)
Definition on_console {A} (m : M A) : R A :=
  fun s =>
    let (r, w) := m (console s) in
    (r, {| console := w; disk := disk s; made_dirs := made_dirs s;
           requested := requested s; server := server s |}).

Definition with_disk (d : files) (s : site) : site :=
  {| console := console s; disk := d; made_dirs := made_dirs s;
     requested := requested s; server := server s |}.

(** [os.path.isfile(path)] *)
Definition os_path_isfile (path : str) : R bool :=
  fun s => (Ok (isfile path (disk s)), s).

(** [os.makedirs(path, exist_ok=True)], taken to succeed. *)
Definition os_makedirs (path : str) : R unit :=
  fun s => (Ok tt, {| console := console s; disk := disk s;
                      made_dirs := made_dirs s ++ [path];
                      requested := requested s; server := server s |}).

(** [requests.get(url, stream=True, timeout=30)] *)
Definition requests_get (url : str) : R download :=
  fun s => (server s, {| console := console s; disk := disk s;
                         made_dirs := made_dirs s;
                         requested := requested s ++ [url];
                         server := server s |}).

(** [r.raise_for_status()] *)
Definition raise_for_status (r : download) : R unit :=
  if ((400 <=? dl_status r) && (dl_status r <? 500))%Z then
    rraise (Error (Py.str_of_int (dl_status r) ++ lit " Client Error: "
                   ++ dl_reason r ++ lit " for url: " ++ dl_url r))
  else if ((500 <=? dl_status r) && (dl_status r <? 600))%Z then
    rraise (Error (Py.str_of_int (dl_status r) ++ lit " Server Error: "
                   ++ dl_reason r ++ lit " for url: " ++ dl_url r))
  else rret tt.

(** The file at [path] as it is, or as a new one would be. *)
Definition current (lib : library) (path : str) (d : files) : file :=
  match lookup path d with
  | Some f => f
  | None => {| content := []; mode := new_file_mode lib |}
  end.

(** [open(path, "wb")]: the file is there and empty. *)
Definition open_wb (lib : library) (path : str) : R unit :=
  fun s => (Ok tt, with_disk (store path {| content := [];
                                             mode := mode (current lib path (disk s)) |}
                                (disk s)) s).

(** [f.write(chunk)] on the file opened at [path] *)
Definition write (lib : library) (path : str) (chunk : str) : R unit :=
  fun s => (Ok tt, with_disk (store path
                                {| content := content (current lib path (disk s)) ++ chunk;
                                   mode := mode (current lib path (disk s)) |}
                                (disk s)) s).

(** [for x in l: body x], each [x] being a value or the exception
    that getting it raises. *)
Fixpoint rfor_each {A} (l : list (result A)) (body : A -> R unit) : R unit :=
  match l with
  | [] => rret tt
  | Ok x :: rest => rbind (body x) (fun _ => rfor_each rest body)
  | Raise e :: _ => rraise e
  end.

(** [ZipFile(archive_path).extractall(base_dir)] when [zip], else
    [tarfile.open(archive_path, "r:gz").extractall(path=base_dir)] *)
Definition extractall (lib : library) (zip : bool) (archive_path base_dir : str)
    : R unit :=
  fun s =>
    match unpack lib zip (option_map content (lookup archive_path (disk s)))
            base_dir with
    | Raise e => (Raise e, s)
    | Ok members =>
      (Ok tt, with_disk (fold_left (fun d m => store (fst m) (snd m) d)
                           members (disk s)) s)
    end.

(** [os.chmod(path, bits)] *)
Definition os_chmod (lib : library) (path : str) (bits : N) : R unit :=
  fun s =>
    match lookup path (disk s) with
    | Some f => (Ok tt, with_disk (store path {| content := content f;
                                                  mode := bits |} (disk s)) s)
    | None => (Raise (Error (no_such_file lib path)), s)
    end.

Section Resolve.

Variable config : settings.
Variable paths : paths_settings.
Variable lib : library.
Variable host : platform.

Local Open Scope py_scope.

(** *** Platform-specific download path (lines 41-61) *)

Definition get_platform_download_path : M str :=
  let system := system host in
  let machine := Py.lower (machine host) in
  let bitness := bitness host in
  debug_print config (lit "Resolving platform download path: " ++ system
                      ++ lit " " ++ machine ++ lit " " ++ bitness) ;;
  if Py.eqb system (lit "Windows") then
    ret (lit "cli-win32-x64")
  else if Py.eqb system (lit "Linux") then
    if existsb (Py.eqb machine) [lit "x86_64"; lit "amd64"] then
      ret (lit "cli-alpine-x64")
    else if existsb (Py.eqb machine) [lit "arm64"; lit "aarch64"] then
      ret (if Py.contains (lit "64") bitness then lit "cli-alpine-arm64"
           else lit "cli-linux-armhf")
    else if existsb (Py.eqb machine) [lit "armv7l"; lit "armv8l"] then
      ret (lit "cli-linux-armhf")
    else
      raise (Error (lit "Unsupported Linux architecture: " ++ machine))
  else if Py.eqb system (lit "Darwin") then
    ret (if Py.contains (lit "arm") machine then lit "cli-darwin-arm64"
         else lit "cli-darwin-x64")
  else
    raise (Error (lit "Unsupported OS: " ++ system)).

(** *** Paths (lines 63-80): base directory, binary, archive *)

Definition get_paths (commit_id : str) : M (str * str * str) :=
  let system := system host in
  debug_print config (lit "Resolving paths for commit " ++ commit_id
                      ++ lit " on " ++ system) ;;
  if Py.eqb system (lit "Windows") then
    let base_dir := expanduser lib (extracted_path paths) in
    let cli_bin := join lib base_dir (extracted_bin paths ++ lit ".exe") in
    let archive_path := join lib (gettempdir lib)
                          (lit "vscode-cli-" ++ commit_id ++ lit ".zip") in
    ret (base_dir, cli_bin, archive_path)
  else if existsb (Py.eqb system) [lit "Linux"; lit "Darwin"] then
    let base_dir :=
      if Py.eqb system (lit "Linux") then expanduser lib (extracted_path paths)
      else expanduser lib (lit "~/Library/Application Support/vscode-server") in
    let cli_bin := join lib base_dir (extracted_bin paths) in
    let archive_path := join lib (gettempdir lib)
                          (lit "vscode-cli-" ++ commit_id ++ lit ".tar.gz") in
    ret (base_dir, cli_bin, archive_path)
  else
    raise (Error (lit "Unsupported OS for path setup")).

Local Open Scope site_scope.

(** *** Downloader and extractor (lines 90-132) *)

(** Lines 113-132: the archive is saved; it is extracted and the
    binary looked for. *)
Definition extract_and_check (base_dir cli_bin archive_path : str) : R str :=
  on_console (print (lit "[+] Saved archive to " ++ archive_path)) ;;
  on_console (debug_print config (lit "File downloaded to: " ++ archive_path)) ;;
  on_console (debug_print config (lit "Starting extraction to " ++ base_dir)) ;;
  on_console (print (lit "[+] Extracting archive to " ++ base_dir)) ;;
  extractall lib (Py.eqb (system host) (lit "Windows")) archive_path base_dir ;;
  extracted <- os_path_isfile cli_bin ;;
  if negb extracted then
    rraise (Error (lit "[!] Extraction failed: " ++ cli_bin ++ lit " not found"))
  else
    (if negb (Py.eqb (system host) (lit "Windows"))
     then os_chmod lib cli_bin 493      (* 0o755 *)
     else rret tt) ;;
    on_console (print (lit "[✓] VSCode CLI ready at " ++ cli_bin)) ;;
    on_console (debug_print config (lit "VSCode CLI extracted to: " ++ cli_bin)) ;;
    rret cli_bin.

(** Lines 99-132: the binary is not there yet. *)
Definition fetch_and_extract
    (platform_path base_dir cli_bin archive_path commit_id quality : str)
    : R str :=
  os_makedirs base_dir ;;
  url <- (fun s => (format_url lib (download_url_format paths) commit_id
                      platform_path quality, s)) ;;
  on_console (debug_print config (lit "Starting download from URL: " ++ url)) ;;
  on_console (print (lit "[+] Downloading CLI from: " ++ url)) ;;
  r <- requests_get url ;;
  raise_for_status r ;;
  open_wb lib archive_path ;;
  rfor_each (dl_chunks r) (write lib archive_path) ;;
  extract_and_check base_dir cli_bin archive_path.

Definition download_vscode_server (commit_id quality : str) : R str :=
  platform_path <- on_console get_platform_download_path ;;
  found <- on_console (get_paths commit_id) ;;
  let '(base_dir, cli_bin, archive_path) := found in
  on_console (debug_print config (lit "Checking if VSCode CLI exists at " ++ cli_bin)) ;;
  there <- os_path_isfile cli_bin ;;
  if there then
    on_console (print (lit "[✓] VSCode CLI already exists at " ++ cli_bin)) ;;
    rret cli_bin
  else
    fetch_and_extract platform_path base_dir cli_bin archive_path commit_id quality.

End Resolve.

End Resolver.

(** ** Main entry (lines 31-32 and 294-303) *)

(** What the run depends on besides the machine it starts on: the
    platform and the library; the two YAML documents as [load_yaml]
    gives them, of config.yaml the keys that the session reads and the
    keys that the resolver reads; the message of the exception that
    starting the child raises, if it does; and what the successive
    reads of the child's output give. *)
Record host := {
  platform : Resolver.platform;
  library : Resolver.library;
  load_config : result (settings * Resolver.paths_settings);
                                        (* load_yaml("config.yaml")   *)
  load_detectors : result rule_set;     (* load_yaml("detector.yaml") *)
  start_error : option str;
  child_output : list (result str)
}.

(** The [try] of the entry point (lines 296-300): the binary is
    resolved on the machine, the driver runs on its console. *)
Definition main_try (base64 : codec) (h : host) (config : settings)
    (paths : Resolver.paths_settings) (detectors : rule_set)
    : Resolver.R unit :=
  Resolver.rbind
    (Resolver.download_vscode_server config paths (library h) (platform h)
       (commit_id config) (dict_get (quality config) (lit "stable")))
    (fun cli =>
       Resolver.on_console
         (if Py.eqb (Resolver.system (platform h)) (lit "Windows") then
            run_and_detect_windows base64 config detectors cli
              (start_error h) (child_output h)
          else
            run_and_detect_unix base64 config detectors cli
              (start_error h) (child_output h))).

(** Its [except Exception as e] (lines 301-303). *)
Definition main_except (config : settings) (e : exn) : M unit :=
  print (lit "[X] Fatal Error: " ++ str_exn e) ;;
  debug_print config (lit "Fatal error: " ++ str_exn e).

(** The module, top to bottom. *)
Definition main (base64 : codec) (h : host) : Resolver.R unit :=
  Resolver.rbind (Resolver.rlift (load_config h)) (fun loaded =>
  Resolver.rbind (Resolver.rlift (load_detectors h)) (fun detectors =>
  Resolver.rtry_except
    (main_try base64 h (fst loaded) (snd loaded) detectors) is_Exception
    (fun e => Resolver.on_console (main_except (fst loaded) e)))).

(** The exit code of the interpreter: 0 when the module ran to its
    end, not 0 when an exception left it. *)
Inductive exit_code := ExitZero | ExitNonZero.

Definition exit_code_of {A} (r : result A) : exit_code :=
  match r with Ok _ => ExitZero | Raise _ => ExitNonZero end.

Definition run (base64 : codec) (h : host) (s : Resolver.site)
    : exit_code * Resolver.site :=
  let (r, s') := main base64 h s in (exit_code_of r, s').

(** ** Notions used by the properties *)

(** The actions each driver recognises (lines 201-205 and 253-273). *)
Definition recognised_windows (action : str) : bool :=
  Py.eqb (Py.lower action) (lit "enter")
  || Py.startswith (lit "string:") (Py.lower action).

Definition recognised_unix (action : str) : bool :=
  Py.eqb (Py.lower action) (lit "enter")
  || Py.eqb (Py.lower action) (lit "down")
  || Py.eqb (Py.lower action) (lit "up")
  || Py.eqb (Py.lower action) (lit "left")
  || Py.eqb (Py.lower action) (lit "right")
  || Py.startswith (lit "string:") (Py.lower action).

(** The named keys of the pseudo-terminal driver (lines 253-272): the
    name, the line printed, the characters sent, the debug message. *)
Definition named_keys : list (str * (str * str * str)) :=
  [ (lit "enter", (lit "[>] Sending Enter", [CR], lit "Sent Enter (\r)"));
    (lit "down", (lit "[>] Sending Down", ESC :: lit "[B", lit "Sent Down (\x1b[B])"));
    (lit "up", (lit "[>] Sending Up", ESC :: lit "[A", lit "Sent Up (\x1b[A])"));
    (lit "left", (lit "[>] Sending Left", ESC :: lit "[D", lit "Sent Left (\x1b[D])"));
    (lit "right", (lit "[>] Sending Right", ESC :: lit "[C", lit "Sent Right (\x1b[C])")) ].

(** A result that, if it is a failure, is one [except Exception]
    catches. *)
Definition no_interrupt {A} (r : result A) : Prop :=
  match r with
  | Ok _ => True
  | Raise e => is_Exception e = true
  end.

(** A computation that raises nothing but such failures, as long as
    the remote does not either. *)
Definition contained {A} (m : M A) : Prop :=
  forall w, Forall no_interrupt (network w) ->
    no_interrupt (fst (m w)) /\ Forall no_interrupt (network (snd (m w))).

(** No part of the text is an escape sequence of the pattern. *)
Definition sequence_free (s : str) : Prop :=
  forall before from, s = before ++ from ->
    Re.match_len Ansi.ansi_escape from = None.

(** ** Further notions *)

(** The characters between the introducer and the final letter of
    the sequences that [Ansi.csi] matches, and that letter. *)
Definition csi_parameter (c : ascii) : bool :=
  Re.accepts (Re.Union (Re.Range "0" "9") (Re.Char ";")) c.

Definition csi_final (c : ascii) : bool :=
  Re.accepts (Re.Union (Re.Range "a" "z") (Re.Range "A" "Z")) c.

(** The second character of the sequences that [Ansi.two_char] matches. *)
Definition two_char_final (c : ascii) : bool :=
  Re.accepts (Re.Union (Re.Range "@" "Z") (Re.Range "\" "_")) c.

(** [a] is [b] with some of its characters taken out. *)
Inductive thinned : str -> str -> Prop :=
| thinned_nil : thinned [] []
| thinned_keep (c : ascii) (a b : str) : thinned a b -> thinned (c :: a) (c :: b)
| thinned_drop (c : ascii) (a b : str) : thinned a b -> thinned a (c :: b).

(** The pauses among the events. *)
Definition is_pause (ev : event) : bool :=
  match ev with Sleep => true | _ => false end.

Definition pauses (evs : list event) : nat := length (filter is_pause evs).

(** No rule of the list forwards to the remote log. *)
Definition never_forwards (rules : list detector) : Prop :=
  Forall (fun d => dict_get (key_upload d) false = false) rules.

(** A computation that leaves the remote alone: no request is made
    and no answer is used up. *)
Definition stays_offline {A} (m : M A) : Prop :=
  forall w, network (snd (m w)) = network w
            /\ requests_of (output (snd (m w))) = requests_of (output w).

(** The names under which the command-line binary is published. *)
Definition published_paths : list str :=
  [lit "cli-win32-x64"; lit "cli-alpine-x64"; lit "cli-alpine-arm64";
   lit "cli-linux-armhf"; lit "cli-darwin-arm64"; lit "cli-darwin-x64"].

(** The platforms the resolver knows: Windows and Darwin whatever the
    machine, Linux on six machine names. *)
Definition supported (p : Resolver.platform) : bool :=
  Py.eqb (Resolver.system p) (lit "Windows")
  || Py.eqb (Resolver.system p) (lit "Darwin")
  || (Py.eqb (Resolver.system p) (lit "Linux")
      && existsb (Py.eqb (Py.lower (Resolver.machine p)))
           [lit "x86_64"; lit "amd64"; lit "arm64"; lit "aarch64";
            lit "armv7l"; lit "armv8l"]).

(** The three paths of [get_paths] on a supported platform. *)
Definition base_dir_of (lib : Resolver.library) (ps : Resolver.paths_settings)
    (p : Resolver.platform) : str :=
  Resolver.expanduser lib
    (if Py.eqb (Resolver.system p) (lit "Windows")
        || Py.eqb (Resolver.system p) (lit "Linux")
     then Resolver.extracted_path ps
     else lit "~/Library/Application Support/vscode-server").

Definition cli_bin_of (lib : Resolver.library) (ps : Resolver.paths_settings)
    (p : Resolver.platform) : str :=
  Resolver.join lib (base_dir_of lib ps p)
    (if Py.eqb (Resolver.system p) (lit "Windows")
     then Resolver.extracted_bin ps ++ lit ".exe"
     else Resolver.extracted_bin ps).

Definition archive_of (lib : Resolver.library) (p : Resolver.platform)
    (commit_id : str) : str :=
  Resolver.join lib (Resolver.gettempdir lib)
    (lit "vscode-cli-" ++ commit_id
     ++ (if Py.eqb (Resolver.system p) (lit "Windows")
         then lit ".zip" else lit ".tar.gz")).

(** The status is one that [raise_for_status] raises for. *)
Definition error_status (status : Z) : bool :=
  ((400 <=? status) && (status <? 600))%Z.

(** What the resolver has printed when it looks for the binary. *)
Definition prelude_events (cfg : settings) (lib : Resolver.library)
    (ps : Resolver.paths_settings) (p : Resolver.platform) (commit_id : str)
    : list event :=
  debug_events cfg
    (lit "Resolving platform download path: " ++ Resolver.system p
     ++ lit " " ++ Py.lower (Resolver.machine p) ++ lit " " ++ Resolver.bitness p)
  ++ debug_events cfg (lit "Resolving paths for commit " ++ commit_id
                       ++ lit " on " ++ Resolver.system p)
  ++ debug_events cfg (lit "Checking if VSCode CLI exists at "
                       ++ cli_bin_of lib ps p).

(** [s] with the console [w]. *)
Definition with_console (w : world) (s : Resolver.site) : Resolver.site :=
  {| Resolver.console := w; Resolver.disk := Resolver.disk s;
     Resolver.made_dirs := Resolver.made_dirs s;
     Resolver.requested := Resolver.requested s;
     Resolver.server := Resolver.server s |}.

(** A control sequence of the pattern at the front of a text: ESC and
    a character of [@-Z\-_], or ESC, an opening bracket, digits and
    semicolons, and a letter. *)
Inductive sequence_at : str -> Prop :=
| sequence_two_char (c : ascii) (rest : str) :
    two_char_final c = true -> sequence_at (ESC :: c :: rest)
| sequence_csi (params : str) (final : ascii) (rest : str) :
    forallb csi_parameter params = true -> csi_final final = true ->
    sequence_at (ESC :: "["%char :: params ++ final :: rest).

(** The pattern matches at the front of the text; it matches
    somewhere in the text. *)
Definition sequence_here (s : str) : bool :=
  match Re.match_len Ansi.ansi_escape s with Some _ => true | None => false end.

Fixpoint has_sequence (s : str) : bool :=
  sequence_here s ||
  match s with
  | [] => false
  | _ :: t => has_sequence t
  end.



(** The match texts that the drivers have printed as detected, oldest
    first: the print of line 188 and of line 236 is the first
    statement of every application of a rule. *)
Definition detection (ev : event) : option str :=
  match ev with
  | Print line =>
    if Py.startswith (lit "[✓] Detected match: ") line
    then Some (skipn (length (lit "[✓] Detected match: ")) line)
    else None
  | _ => None
  end.

Fixpoint detected (evs : list event) : list str :=
  match evs with
  | [] => []
  | ev :: rest =>
    match detection ev with
    | Some k => k :: detected rest
    | None => detected rest
    end
  end.

(** The rule matches the text and forwards it. *)
Definition forwards (text : str) (d : detector) : bool :=
  rule_matches text d && dict_get (key_upload d) false.

(** An action whose payload can be taken: it is no [string:] action,
    or the lower-case "string:" occurs in it. *)
Definition sendable (action : str) : bool :=
  negb (Py.startswith (lit "string:") (Py.lower action))
  || Py.contains (lit "string:") action.

(** The actions of the rule can all be carried out. *)
Definition reacts (d : detector) : bool :=
  forallb sendable (dict_get (key_action d) []).

(** The fetch of [upload_line], and the warning printed for an answer
    that is not 200. *)
Definition fetch_of (cfg : settings) : event :=
  HttpGet (api_url (repo_owner cfg) (repo_name cfg) (branch cfg)
             (target_file cfg))
    (api_headers (github_token cfg)).

Definition warning_of (r : response) : event :=
  Print (lit "[!] GitHub GET failed: " ++ Py.str_of_int (status_code r)).

Definition failed (r : response) : bool := negb (status_code r =? 200)%Z.

(** The write of [upload_line] for the line [message], after the
    fetch was answered with [r]. *)
Definition write_of (base64 : codec) (cfg : settings) (message : str)
    (r : response) : event :=
  let old := match b64decode_text base64 (json_content r) with
             | Ok old => old
             | Raise _ => []
             end in
  HttpPut (api_url (repo_owner cfg) (repo_name cfg) (branch cfg)
             (target_file cfg))
    (api_headers (github_token cfg))
    {| data_message := lit "Auto-detected: " ++ Py.strip message;
       data_content :=
         b64encode_text base64 (old ++ [LF] ++ Py.strip message ++ [LF]);
       data_sha := json_sha r;
       data_branch := branch cfg |}.

(** What the remote answers to one update: it refuses the fetch, with
    a status that is not 200; or it gives the document, with the
    status 200 and a content that decodes, and answers the write. *)
Inductive exchange :=
| Refused (r : response)
| Fetched (r put : response).

Definition answers_of (x : exchange) : list (result response) :=
  match x with
  | Refused r => [Ok r]
  | Fetched r put => [Ok r; Ok put]
  end.

Definition goes (base64 : codec) (x : exchange) : bool :=
  match x with
  | Refused r => failed r
  | Fetched r _ =>
    (status_code r =? 200)%Z
    && match b64decode_text base64 (json_content r) with
       | Ok _ => true
       | Raise _ => false
       end
  end.

(** The requests of the update in which the exchange takes place: the
    fetch, and the write when the fetch was not refused. *)
Definition requests_in (base64 : codec) (cfg : settings) (message : str)
    (x : exchange) : list event :=
  match x with
  | Refused _ => [fetch_of cfg]
  | Fetched r _ => [fetch_of cfg; write_of base64 cfg message r]
  end.

(** The refusal of the fetch is among what was printed. *)
Definition warned (evs : list event) (x : exchange) : Prop :=
  match x with
  | Refused r => In (warning_of r) evs
  | Fetched _ _ => True
  end.

(** What the pseudo-terminal driver prints when [e] ends its loop
    (lines 283-291). *)
Definition ending (e : exn) : str :=
  match e with
  | EOF _ => lit "[!] Process ended"
  | KeyboardInterrupt => lit "[X] Interrupted by user"
  | _ => lit "[!] Exception: " ++ str_exn e
  end.

(** Console output that is print and nothing else. *)
Definition is_print (ev : event) : bool :=
  match ev with
  | Print _ | DebugPrint _ => true
  | _ => false
  end.

(** A computation that does nothing to the outside but print. *)
Definition prints_only {A} (m : M A) : Prop :=
  forall w, exists evs, snd (m w) = log evs w /\ forallb is_print evs = true.

Definition prints_only_on_console {A} (m : Resolver.R A) : Prop :=
  forall s, exists evs,
    Resolver.console (snd (m s)) = log evs (Resolver.console s)
    /\ forallb is_print evs = true.

(** The resolver as the entry point calls it (line 297). *)
Definition resolve (h : host) (cfg : settings) (ps : Resolver.paths_settings)
    : Resolver.R str :=
  Resolver.download_vscode_server cfg ps (library h) (platform h)
    (commit_id cfg) (dict_get (quality cfg) (lit "stable")).

(** The platform is Windows: the pipe driver runs. *)
Definition on_windows (h : host) : bool :=
  Py.eqb (Resolver.system (platform h)) (lit "Windows").

(** A computation that prints no detection. *)
Definition undetected {A} (m : M A) : Prop :=
  forall w, detected (output (snd (m w))) = detected (output w).


(** ** Fixtures for the concrete runs below *)

(** A codec that leaves the text as it is. *)
Definition plain : codec :=
  {| b64decode_text := fun s => Ok s; b64encode_text := fun s => s |}.

(** A configuration with debugging off. *)
Definition quiet : settings :=
  {| debug := None; github_token := lit "t0ken"; repo_owner := lit "owner";
     repo_name := lit "repo"; branch := lit "main";
     target_file := lit "log.txt"; commit_id := lit "abc123";
     quality := None |}.

(** The world at the start of a session with the remote out of reach. *)
Definition offline : world := {| network := []; output := [] |}.

(** A rule with all three keys. *)
Definition rule (matchText : str) (upload : bool) (actions : list str)
    : detector :=
  {| key_match := Some (Some matchText); key_upload := Some upload;
     key_action := Some actions |}.

(** A rule without a usable match text: the key is absent, or its
    value is [None] or the empty string. *)
Definition no_match_text (d : detector) : Prop :=
  key_match d = None \/ key_match d = Some None \/ key_match d = Some (Some []).

(** ** A site to run the resolver on *)

(** The library as it acts on a POSIX host, with archives of one
    member: an archive unpacks to the file [code] of the base
    directory, which holds the bytes of the archive. *)
Definition posix : Resolver.library :=
  {| Resolver.expanduser :=
       fun path => match path with
                   | "~"%char :: rest => lit "/home/user" ++ rest
                   | _ => path
                   end;
     Resolver.join := fun a b => a ++ lit "/" ++ b;
     Resolver.gettempdir := lit "/tmp";
     Resolver.format_url :=
       fun fmt commit_id platform_path quality =>
         Ok (fmt ++ commit_id ++ lit "/" ++ platform_path ++ lit "/" ++ quality);
     Resolver.new_file_mode := 420;      (* 0o644 *)
     Resolver.no_such_file :=
       fun path => lit "[Errno 2] No such file or directory: " ++ path;
     Resolver.unpack :=
       fun _ archive base_dir =>
         match archive with
         | Some bytes =>
           Ok [(base_dir ++ lit "/code",
                {| Resolver.content := bytes; Resolver.mode := 420 |})]
         | None => Raise (Error (lit "no archive"))
         end |}.

Definition linux_x64 : Resolver.platform :=
  {| Resolver.system := lit "Linux"; Resolver.machine := lit "x86_64";
     Resolver.bitness := lit "64bit" |}.

Definition riscv : Resolver.platform :=
  {| Resolver.system := lit "Linux"; Resolver.machine := lit "riscv64";
     Resolver.bitness := lit "64bit" |}.

Definition user_paths : Resolver.paths_settings :=
  {| Resolver.extracted_path := lit "~/.vscode-server";
     Resolver.extracted_bin := lit "code";
     Resolver.download_url_format :=
       lit "https://update.code.visualstudio.com/commit:" |}.

(** A site with the files [d], where the server answers [r]. *)
Definition site_of (d : Resolver.files) (r : result Resolver.download)
    : Resolver.site :=
  {| Resolver.console := offline; Resolver.disk := d;
     Resolver.made_dirs := []; Resolver.requested := [];
     Resolver.server := r |}.

(** The answer with the status and the chunks given. *)
Definition answer (status : Z) (reason : str) (chunks : list (result str))
    : Resolver.download :=
  {| Resolver.dl_status := status; Resolver.dl_reason := reason;
     Resolver.dl_url := lit "https://update.code.visualstudio.com/commit:abc/cli-alpine-x64/stable";
     Resolver.dl_chunks := chunks |}.

(** Hosts with the two documents loaded and the child as given:
    Linux on x86_64, and Windows. *)
Definition linux_host (rules : rule_set) (failure : option str)
    (child : list (result str)) : host :=
  {| platform := linux_x64; library := posix;
     load_config := Ok (quiet, user_paths);
     load_detectors := Ok rules;
     start_error := failure;
     child_output := child |}.

Definition windows_host (rules : rule_set) (child : list (result str)) : host :=
  {| platform := {| Resolver.system := lit "Windows";
                    Resolver.machine := lit "AMD64";
                    Resolver.bitness := lit "64bit" |};
     library := posix;
     load_config := Ok (quiet, user_paths);
     load_detectors := Ok rules;
     start_error := None;
     child_output := child |}.

(** The files of a machine on which the binary is in place at [path]. *)
Definition installed (path : str) : Resolver.files :=
  [(path, {| Resolver.content := lit "binary"; Resolver.mode := 493 |})].

(** ** Properties *)

(** *** Text *)

Lemma str_eqb_eq (a b : str) : Py.eqb a b = true -> a = b.
Proof.
  revert b. induction a as [|x a IH]; intros [|y b] H; try discriminate H.
  - reflexivity.
  - cbn [Py.eqb] in H. apply andb_prop in H as [Hxy Hab].
    apply Ascii.eqb_eq in Hxy. subst y. f_equal. now apply IH.
Qed.

Lemma startswith_app (p t : str) : Py.startswith p (p ++ t) = true.
Proof.
  induction p as [|c p IH]; [reflexivity|].
  cbn [app Py.startswith]. now rewrite Ascii.eqb_refl, IH.
Qed.

Lemma skipn_length_app (p t : str) : skipn (length p) (p ++ t) = t.
Proof. induction p as [|c p IH]; [reflexivity | exact IH]. Qed.

Lemma str_eqb_refl (a : str) : Py.eqb a a = true.
Proof.
  induction a as [|c a IH]; [reflexivity|].
  cbn [Py.eqb]. now rewrite Ascii.eqb_refl, IH.
Qed.

(** *** The stripper *)

Lemma match_starts_with_ESC (c : ascii) (t : str) :
  c <> ESC -> Re.rmatch Ansi.ansi_escape Some (c :: t) = None.
Proof.
  intros Hc. apply Ascii.eqb_neq in Hc.
  unfold Ansi.ansi_escape, Ansi.two_char, Ansi.csi, Ansi.osc, Ansi.dcs, Ansi.lit1.
  cbn [Re.rmatch Re.accepts]. rewrite Hc. reflexivity.
Qed.

Lemma sub_skip_clean (s : str) :
  ~ In ESC s -> Re.sub_skip Ansi.ansi_escape 0 s = s.
Proof.
  induction s as [|c t IH]; intros Hs; [reflexivity|].
  cbn [Re.sub_skip]. unfold Re.match_len.
  rewrite match_starts_with_ESC.
  - rewrite IH; [reflexivity|]. intros Hin. apply Hs. now right.
  - intros ->. apply Hs. now left.
Qed.

(** Text without ESC is left as it is. *)
Lemma strip_clean_text (s : str) :
  ~ In ESC s -> strip_ansi_codes s = s.
Proof. apply sub_skip_clean. Qed.

(** Whatever a match leaves is what its continuation was given: a
    final part of the text, [min_len] characters on at least. *)
Lemma star_continues (cs : Re.cset) (k : str -> option str) (s rest : str) :
  Re.star cs k s = Some rest ->
  exists p s', s = p ++ s' /\ k s' = Some rest.
Proof.
  revert rest. induction s as [|c t IH]; intros rest; cbn [Re.star].
  - intros H. now exists [], [].
  - destruct (Re.accepts cs c).
    + unfold Re.orelse. destruct (Re.star cs k t) as [r|] eqn:E.
      * intros [= <-]. destruct (IH r eq_refl) as (p & s' & -> & Hk).
        now exists (c :: p), s'.
      * intros H. now exists [], (c :: t).
    + intros H. now exists [], (c :: t).
Qed.

Lemma lazy_star_continues (cs : Re.cset) (k : str -> option str) (s rest : str) :
  Re.lazy_star cs k s = Some rest ->
  exists p s', s = p ++ s' /\ k s' = Some rest.
Proof.
  revert rest. induction s as [|c t IH]; intros rest; cbn [Re.lazy_star].
  - destruct (k []) eqn:E; [|discriminate]. intros [= <-]. now exists [], [].
  - destruct (k (c :: t)) eqn:E.
    + intros [= <-]. now exists [], (c :: t).
    + destruct (Re.accepts cs c); [|discriminate].
      intros H. destruct (IH rest H) as (p & s' & -> & Hk).
      now exists (c :: p), s'.
Qed.

Lemma rmatch_continues (r : Re.regex) :
  forall (k : str -> option str) (s rest : str),
    Re.rmatch r k s = Some rest ->
    exists p s', s = p ++ s' /\ Re.min_len r <= length p /\ k s' = Some rest.
Proof.
  induction r as [cs|cs|cs|cs|r1 IH1 r2 IH2|r1 IH1 r2 IH2];
    intros k s rest; cbn [Re.rmatch Re.min_len].
  - destruct s as [|c t]; [discriminate|].
    destruct (Re.accepts cs c); [|discriminate].
    intros H. exists [c], t. cbn. auto.
  - destruct s as [|c t]; [intros H; exists [], []; cbn; auto|].
    destruct (Re.accepts cs c); [|intros H; exists [], (c :: t); cbn; auto].
    unfold Re.orelse. destruct (k t) eqn:E.
    + intros [= <-]. exists [c], t. cbn. auto.
    + intros H. exists [], (c :: t). cbn. auto.
  - intros H. destruct (star_continues _ _ _ _ H) as (p & s' & -> & Hk).
    exists p, s'. repeat split; [lia | exact Hk].
  - intros H. destruct (lazy_star_continues _ _ _ _ H) as (p & s' & -> & Hk).
    exists p, s'. repeat split; [lia | exact Hk].
  - intros H. destruct (IH1 _ _ _ H) as (p1 & s1 & -> & L1 & H1).
    destruct (IH2 _ _ _ H1) as (p2 & s2 & -> & L2 & H2).
    exists (p1 ++ p2), s2. rewrite app_assoc, length_app.
    repeat split; [lia | exact H2].
  - unfold Re.orelse. destruct (Re.rmatch r1 k s) eqn:E.
    + intros [= <-]. destruct (IH1 _ _ _ E) as (p & s' & -> & L & Hk).
      exists p, s'. repeat split; [lia | exact Hk].
    + intros H. destruct (IH2 _ _ _ H) as (p & s' & -> & L & Hk).
      exists p, s'. repeat split; [lia | exact Hk].
Qed.

(** A match of [ansi_escape] takes ESC and one more character at
    least: the pattern matches no empty text, and [match_len] is the
    length of the match. *)
Lemma ansi_escape_match (s : str) (n : nat) :
  Re.match_len Ansi.ansi_escape s = Some n ->
  2 <= n <= length s /\ exists t, s = ESC :: t.
Proof.
  unfold Re.match_len.
  destruct (Re.rmatch Ansi.ansi_escape Some s) as [rest|] eqn:E; [|discriminate].
  intros [= <-].
  destruct (rmatch_continues _ _ _ _ E) as (p & s' & -> & L & [= ->]).
  change (Re.min_len Ansi.ansi_escape) with 2 in L.
  rewrite length_app. split; [lia|].
  destruct p as [|c p]; [cbn in L; lia|].
  destruct (Ascii.eqb_spec c ESC) as [->|Hc].
  - now exists (p ++ rest).
  - cbn [app] in E. now rewrite match_starts_with_ESC in E.
Qed.

Lemma sub_skip_length (r : Re.regex) (s : str) :
  forall n, length (Re.sub_skip r n s) <= length s - Nat.min n (length s).
Proof.
  induction s as [|c t IH]; intros n; cbn [Re.sub_skip length]; [lia|].
  destruct n as [|n].
  - destruct (Re.match_len r (c :: t)) as [[|m]|]; cbn [length].
    + specialize (IH 0). lia.
    + specialize (IH m). lia.
    + specialize (IH 0). lia.
  - specialize (IH n). lia.
Qed.

(** The stripper leaves a text as it is exactly when the text holds no
    escape sequence. *)
Lemma strip_fixed_iff_sequence_free (s : str) :
  strip_ansi_codes s = s <-> sequence_free s.
Proof.
  unfold strip_ansi_codes, Re.sub_empty, sequence_free. split.
  - induction s as [|c t IH]; intros Hs before from E.
    + destruct before; [|discriminate E]. cbn in E. now subst from.
    + cbn [Re.sub_skip] in Hs.
      destruct (Re.match_len Ansi.ansi_escape (c :: t)) as [[|m]|] eqn:Em.
      * apply ansi_escape_match in Em. lia.
      * pose proof (sub_skip_length Ansi.ansi_escape t m) as L.
        rewrite Hs in L. cbn [length] in L. lia.
      * injection Hs as Hs. destruct before as [|b before].
        -- cbn in E. now subst from.
        -- injection E as _ E. now apply (IH Hs before).
  - induction s as [|c t IH]; intros Hs; [reflexivity|].
    cbn [Re.sub_skip]. rewrite (Hs [] (c :: t) eq_refl).
    f_equal. apply IH. intros before from E.
    apply (Hs (c :: before)). now rewrite E.
Qed.

(** Stripping twice is stripping once exactly when the first pass
    leaves no escape sequence. *)
Lemma strip_twice_iff (x : str) :
  strip_ansi_codes (strip_ansi_codes x) = strip_ansi_codes x
  <-> sequence_free (strip_ansi_codes x).
Proof. apply strip_fixed_iff_sequence_free. Qed.

(** C2, as stated, fails: one pass over ESC ESC [ 0 m A removes the
    sequence ESC [ 0 m and leaves ESC A, which a second pass removes. *)
Lemma strip_twice_differs :
  strip_ansi_codes (strip_ansi_codes (ESC :: ESC :: lit "[0mA"))
  <> strip_ansi_codes (ESC :: ESC :: lit "[0mA").
Proof. vm_compute. discriminate. Qed.

(** *** The monad *)

Lemma bind_ext {A B} (m1 m2 : M A) (f1 f2 : A -> M B) (w : world) :
  m1 w = m2 w -> (forall a w', f1 a w' = f2 a w') ->
  bind m1 f1 w = bind m2 f2 w.
Proof.
  intros Hm Hf. unfold bind. rewrite Hm.
  destruct (m2 w) as [[a|e] w']; [apply Hf | reflexivity].
Qed.

Lemma bind_ok {A B} (m : M A) (f : A -> M B) (w w' : world) (a : A) :
  m w = (Ok a, w') -> bind m f w = f a w'.
Proof. intros H. unfold bind. now rewrite H. Qed.

Lemma bind_raise {A B} (m : M A) (f : A -> M B) (w w' : world) (e : exn) :
  m w = (Raise e, w') -> bind m f w = (Raise e, w').
Proof. intros H. unfold bind. now rewrite H. Qed.

Lemma for_each_app {A} (l1 l2 : list A) (body : A -> M unit) (w : world) :
  for_each (l1 ++ l2) body w = (for_each l1 body ;; for_each l2 body) w.
Proof.
  revert w. induction l1 as [|x l1 IH]; intros w; cbn [for_each app].
  - reflexivity.
  - unfold bind in *. destruct (body x w) as [[[]|e] w1]; [|reflexivity].
    apply IH.
Qed.

Lemma for_each_ext {A} (l : list A) (f g : A -> M unit) (w : world) :
  (forall x w', f x w' = g x w') -> for_each l f w = for_each l g w.
Proof.
  intros H. revert w. induction l as [|x l IH]; intros w; cbn [for_each].
  - reflexivity.
  - apply bind_ext; [apply H | intros _ w'; apply IH].
Qed.

(** A loop whose body is guarded by a test is the loop, over the
    elements that pass the test, of the guarded part. *)
Lemma for_each_filter {A} (p : A -> bool) (f : A -> M unit) (l : list A)
    (w : world) :
  for_each l (fun x => if p x then f x else ret tt) w
  = for_each (filter p l) f w.
Proof.
  revert w. induction l as [|x l IH]; intros w; cbn [for_each filter].
  - reflexivity.
  - destruct (p x); cbn [for_each].
    + apply bind_ext; [reflexivity | intros _ w'; apply IH].
    + unfold bind, ret. apply IH.
Qed.

(** *** Running the primitives *)

Lemma log_nil (w : world) : log [] w = w.
Proof. destruct w. unfold log. cbn. now rewrite app_nil_r. Qed.

Lemma log_log (a b : list event) (w : world) : log b (log a w) = log (a ++ b) w.
Proof. unfold log. cbn. now rewrite app_assoc. Qed.

Lemma emit_run (ev : event) (w : world) : emit ev w = (Ok tt, log [ev] w).
Proof. reflexivity. Qed.

Lemma print_run (line : str) (w : world) :
  print line w = (Ok tt, log [Print line] w).
Proof. reflexivity. Qed.

Lemma debug_print_run (cfg : settings) (message : str) (w : world) :
  debug_print cfg message w = (Ok tt, log (debug_events cfg message) w).
Proof.
  unfold debug_print, debug_events.
  destruct (dict_get (debug cfg) false); [reflexivity|].
  now rewrite log_nil.
Qed.

Lemma request_run (ev : event) (w : world) (r : result response)
    (rest : list (result response)) :
  network w = r :: rest ->
  request ev w = (r, {| network := rest; output := output w ++ [ev] |}).
Proof. intros H. unfold request. now rewrite H. Qed.

Lemma requests_of_app (a b : list event) :
  requests_of (a ++ b) = requests_of a ++ requests_of b.
Proof. apply filter_app. Qed.

Lemma requests_of_debug (cfg : settings) (message : str) :
  requests_of (debug_events cfg message) = [].
Proof. unfold debug_events. now destruct (dict_get (debug cfg) false). Qed.

(** Runs a straight-line piece of the program on a world. *)
Ltac run :=
  unfold bind, ret, raise, lift;
  repeat (first [ rewrite debug_print_run | rewrite print_run
                | rewrite emit_run | rewrite log_log ];
          cbn beta iota).

(** *** Rule evaluation *)

Lemma evaluation_windows (base64 : codec) (cfg : settings)
    (rules : list detector) (text : str) (w : world) :
  for_each rules (detect_windows base64 cfg text) w
  = for_each (filter (rule_matches text) rules) (apply_windows base64 cfg text) w.
Proof.
  rewrite <- for_each_filter. apply for_each_ext. intros d w'. reflexivity.
Qed.

Lemma evaluation_unix (base64 : codec) (cfg : settings)
    (rules : list detector) (text : str) (w : world) :
  for_each rules (detect_unix base64 cfg text) w
  = for_each (filter (rule_matches text) rules) (apply_unix base64 cfg text) w.
Proof.
  rewrite <- for_each_filter. apply for_each_ext. intros d w'. reflexivity.
Qed.

(** What is printed as detected. *)

Lemma detected_app (a b : list event) :
  detected (a ++ b) = detected a ++ detected b.
Proof.
  induction a as [|ev a IH]; [reflexivity|].
  cbn [app detected]. destruct (detection ev); cbn [app]; now rewrite IH.
Qed.

Lemma detected_debug (cfg : settings) (message : str) :
  detected (debug_events cfg message) = [].
Proof. unfold debug_events. now destruct (dict_get (debug cfg) false). Qed.


Lemma undetected_ret {A} (a : A) : undetected (ret a).
Proof. intros w. reflexivity. Qed.

Lemma undetected_lift {A} (r : result A) : undetected (lift r).
Proof. intros w. reflexivity. Qed.

Lemma undetected_raise {A} (e : exn) : undetected (@raise A e).
Proof. intros w. reflexivity. Qed.


Lemma undetected_emit (ev : event) : detection ev = None -> undetected (emit ev).
Proof.
  intros Hev w. cbn [emit snd output]. rewrite detected_app.
  cbn [detected]. rewrite Hev. apply app_nil_r.
Qed.

Lemma undetected_debug_print (cfg : settings) (message : str) :
  undetected (debug_print cfg message).
Proof.
  unfold debug_print. destruct (dict_get (debug cfg) false);
    [now apply undetected_emit | apply undetected_ret].
Qed.

Lemma undetected_request (ev : event) :
  detection ev = None -> undetected (request ev).
Proof.
  intros Hev w. unfold request.
  destruct (network w); cbn [snd output]; rewrite detected_app;
    cbn [detected]; rewrite Hev; apply app_nil_r.
Qed.

Lemma undetected_item {A} (l : list A) (i : nat) : undetected (item l i).
Proof.
  unfold item. destruct (nth_error l i);
    [apply undetected_ret | apply undetected_raise].
Qed.


Create HintDb undetected.
#[local] Hint Resolve undetected_ret undetected_lift undetected_raise
  undetected_debug_print undetected_item : undetected.
#[local] Hint Extern 1 (undetected (emit _)) =>
  apply undetected_emit; reflexivity : undetected.
#[local] Hint Extern 1 (undetected (print _)) =>
  apply undetected_emit; reflexivity : undetected.
#[local] Hint Extern 1 (undetected (request _)) =>
  apply undetected_request; reflexivity : undetected.















(** The line under evaluation in the pipe driver is the cleaned line. *)
Lemma pipe_driver_evaluates_cleaned_line (base64 : codec) (cfg : settings)
    (rules : rule_set) (line : str) (more : list (result str)) (w : world) :
  Py.is_empty line = false ->
  loop_windows base64 cfg rules (Ok line :: more) w
  = (let cleaned := strip_ansi_codes (Py.strip line) in
     print (lit "[>] " ++ cleaned) ;;
     for_each (filter (rule_matches cleaned) (dict_get (key_detect rules) []))
       (apply_windows base64 cfg cleaned) ;;
     loop_windows base64 cfg rules more) w.
Proof.
  intros Hline. cbn [loop_windows]. unfold lift. unfold bind at 1.
  rewrite Hline. cbv zeta.
  apply bind_ext; [reflexivity|]. intros _ w1.
  apply bind_ext; [apply evaluation_windows | reflexivity].
Qed.

(** In the pseudo-terminal driver it is the line as read, without the
    white space around it; the cleaned line is what is printed. *)
Lemma pty_driver_evaluates_line_as_read (base64 : codec) (cfg : settings)
    (rules : rule_set) (after : str) (w : world) :
  Py.is_empty (Py.strip after) = false ->
  iteration_unix base64 cfg rules (Ok after) w
  = (let line := Py.strip after in
     cleaned_print_line <- clean_line cfg line ;;
     print (lit "[>] " ++ cleaned_print_line) ;;
     for_each (filter (rule_matches line) (dict_get (key_detect rules) []))
       (apply_unix base64 cfg line)) w.
Proof.
  intros Hline. unfold iteration_unix, lift. unfold bind at 1.
  rewrite Hline. cbv zeta.
  apply bind_ext; [reflexivity|]. intros cleaned w1.
  apply bind_ext; [reflexivity|]. intros _ w2. apply evaluation_unix.
Qed.

(** A rule without a usable match text does nothing, whatever the line. *)
Lemma no_match_text_skipped (base64 : codec) (cfg : settings) (d : detector)
    (text : str) (w : world) :
  no_match_text d ->
  detect_windows base64 cfg text d w = (Ok tt, w)
  /\ detect_unix base64 cfg text d w = (Ok tt, w).
Proof.
  intros [H|[H|H]]; unfold detect_windows, detect_unix; rewrite H;
    split; reflexivity.
Qed.

Lemma for_each_without {A} (l1 l2 : list A) (x : A) (body : A -> M unit)
    (w : world) :
  (forall w', body x w' = (Ok tt, w')) ->
  for_each (l1 ++ x :: l2) body w = for_each (l1 ++ l2) body w.
Proof.
  intros Hx. rewrite !for_each_app. apply bind_ext; [reflexivity|].
  intros _ w'. cbn [for_each]. unfold bind at 1. now rewrite Hx.
Qed.

Lemma loop_windows_without (base64 : codec) (cfg : settings)
    (before after : list detector) (d : detector) (stdout : list (result str))
    (w : world) :
  no_match_text d ->
  loop_windows base64 cfg {| key_detect := Some (before ++ d :: after) |} stdout w
  = loop_windows base64 cfg {| key_detect := Some (before ++ after) |} stdout w.
Proof.
  intros Hd. revert w.
  induction stdout as [|read rest IH]; intros w; cbn [loop_windows].
  - reflexivity.
  - apply bind_ext; [reflexivity|]. intros line w1.
    destruct (Py.is_empty line); [reflexivity|].
    apply bind_ext; [reflexivity|]. intros _ w2.
    apply bind_ext; [|intros _ w3; apply IH].
    cbn [key_detect dict_get]. apply for_each_without.
    intros w'. now apply no_match_text_skipped.
Qed.

Lemma loop_unix_without (base64 : codec) (cfg : settings)
    (before after : list detector) (d : detector) (expects : list (result str))
    (w : world) :
  no_match_text d ->
  loop_unix base64 cfg {| key_detect := Some (before ++ d :: after) |} expects w
  = loop_unix base64 cfg {| key_detect := Some (before ++ after) |} expects w.
Proof.
  intros Hd. revert w.
  induction expects as [|expect rest IH]; intros w; cbn [loop_unix].
  - reflexivity.
  - assert (E : iteration_unix base64 cfg
                  {| key_detect := Some (before ++ d :: after) |} expect w
                = iteration_unix base64 cfg
                  {| key_detect := Some (before ++ after) |} expect w).
    { unfold iteration_unix.
      apply bind_ext; [reflexivity|]. intros line w1.
      apply bind_ext; [reflexivity|]. intros cleaned w2.
      destruct (Py.is_empty (Py.strip line)); [reflexivity|].
      apply bind_ext; [reflexivity|]. intros _ w3.
      cbn [key_detect dict_get]. apply for_each_without.
      intros w'. now apply no_match_text_skipped. }
    rewrite E.
    destruct (iteration_unix base64 cfg {| key_detect := Some (before ++ after) |}
                expect w) as [[[]|e] w']; [apply IH | reflexivity].
Qed.

(** C9: in both drivers a rule whose match field is missing, [None] or
    the empty string never matches: on every line it is skipped without
    upload or reaction, and a whole session runs exactly as it does
    with the rule taken out of the rule set. *)
Theorem rule_without_match_text_never_fires (base64 : codec) (cfg : settings)
    (before after : list detector) (d : detector) (cli_bin : str)
    (failure : option str) (child : list (result str)) (text : str) (w : world)
    (Hd : no_match_text d) :
  detect_windows base64 cfg text d w = (Ok tt, w)
  /\ detect_unix base64 cfg text d w = (Ok tt, w)
  /\ run_and_detect_windows base64 cfg
       {| key_detect := Some (before ++ d :: after) |} cli_bin failure child w
     = run_and_detect_windows base64 cfg
       {| key_detect := Some (before ++ after) |} cli_bin failure child w
  /\ run_and_detect_unix base64 cfg
       {| key_detect := Some (before ++ d :: after) |} cli_bin failure child w
     = run_and_detect_unix base64 cfg
       {| key_detect := Some (before ++ after) |} cli_bin failure child w.
Proof.
  destruct (no_match_text_skipped base64 cfg d text w Hd) as [Hw Hu].
  repeat split; [exact Hw | exact Hu | |].
  - unfold run_and_detect_windows.
    apply bind_ext; [reflexivity|]. intros _ w1.
    apply bind_ext; [reflexivity|]. intros _ w2.
    apply bind_ext; [reflexivity|]. intros _ w3.
    now apply loop_windows_without.
  - unfold run_and_detect_unix.
    apply bind_ext; [reflexivity|]. intros _ w1.
    apply bind_ext; [reflexivity|]. intros _ w2.
    apply bind_ext; [reflexivity|]. intros _ w3.
    apply bind_ext; [reflexivity|]. intros _ w4.
    now apply loop_unix_without.
Qed.

Lemma rule_without_match_text_never_fires_witness :
  let d := {| key_match := Some (Some []); key_upload := Some true;
              key_action := Some [lit "enter"] |} in
  let text := lit "Allow extension? (y/n)" in
  Py.contains [] text = true
  /\ detect_windows plain quiet text d offline = (Ok tt, offline)
  /\ detect_unix plain quiet text d offline = (Ok tt, offline).
Proof.
  intros d text. split; [reflexivity|].
  pose proof (@rule_without_match_text_never_fires plain quiet
                [rule (lit "Allow") false [lit "string:y"]] [] d
                (lit "code") None [Ok text] text offline) as H.
  destruct H as (Hw & Hu & _).
  - right. right. reflexivity.
  - split; assumption.
Defined.

(** *** The remote log updater *)

Lemma fetch_failed_run (base64 : codec) (cfg : settings)
    (message token owner name br file : str) (w : world)
    (r : response) (rest : list (result response)) :
  network w = Ok r :: rest ->
  status_code r <> 200%Z ->
  update_github_file base64 cfg message token owner name br file w
  = (Ok tt,
     {| network := rest;
        output := output w
          ++ debug_events cfg (lit "Fetching file from GitHub: "
                               ++ api_url owner name br file)
          ++ [HttpGet (api_url owner name br file) (api_headers token);
              Print (lit "[!] GitHub GET failed: "
                     ++ Py.str_of_int (status_code r))] |}).
Proof.
  intros Hnet Hstatus. unfold update_github_file.
  erewrite bind_ok by apply debug_print_run.
  erewrite bind_ok by (apply request_run; cbn [log network]; exact Hnet).
  apply Z.eqb_neq in Hstatus. rewrite Hstatus. cbn [negb].
  rewrite print_run. unfold log. cbn [network output].
  now rewrite <- !app_assoc.
Qed.

(** The update when the fetch and the write are answered. *)
Lemma update_written_returns (base64 : codec) (cfg : settings)
    (message token owner name br file : str) (w : world)
    (r put : response) (rest : list (result response)) (old : str) :
  network w = Ok r :: Ok put :: rest ->
  status_code r = 200%Z ->
  b64decode_text base64 (json_content r) = Ok old ->
  exists evs,
    update_github_file base64 cfg message token owner name br file w
    = (Ok tt, {| network := rest; output := output w ++ evs |})
    /\ requests_of evs
       = [HttpGet (api_url owner name br file) (api_headers token);
          HttpPut (api_url owner name br file) (api_headers token)
            {| data_message := lit "Auto-detected: " ++ Py.strip message;
               data_content :=
                 b64encode_text base64 (old ++ [LF] ++ Py.strip message ++ [LF]);
               data_sha := json_sha r;
               data_branch := br |}].
Proof.
  intros Hnet Hstatus Hdecode. unfold update_github_file.
  erewrite bind_ok by apply debug_print_run.
  erewrite bind_ok by (apply request_run; cbn [log network]; exact Hnet).
  rewrite Hstatus. cbn [Z.eqb Pos.eqb negb].
  erewrite bind_ok by (unfold lift; rewrite Hdecode; reflexivity).
  erewrite bind_ok by apply debug_print_run.
  erewrite bind_ok by apply print_run.
  erewrite bind_ok by (apply request_run; reflexivity).
  unfold log. cbn [network output].
  destruct ((status_code put =? 200)%Z || (status_code put =? 201)%Z);
    run; unfold log; cbn [network output]; rewrite <- !app_assoc;
    (eexists; split; [reflexivity|]);
    rewrite !requests_of_app, !requests_of_debug; reflexivity.
Qed.

(** C5, as stated, fails: with the document "a" fetched and the line
    "b" forwarded, the content written is "a", a newline, "b", a
    newline, not "b" and a newline appended to "a". *)
Lemma written_content_has_leading_newline :
  let r := {| status_code := 200; json_sha := lit "v1"; json_content := lit "a" |} in
  let w := {| network := [Ok r]; output := [] |} in
  let w' := snd (update_github_file plain quiet (lit "b") (lit "t0ken")
                   (lit "owner") (lit "repo") (lit "main") (lit "log.txt") w) in
  (exists url h d, In (HttpPut url h d) (output w')
                   /\ data_content d = lit "a" ++ [LF] ++ lit "b" ++ [LF])
  /\ ~ (exists url h d, In (HttpPut url h d) (output w')
                        /\ data_content d = lit "a" ++ lit "b" ++ [LF]).
Proof.
  cbv zeta. split.
  - do 3 eexists. split; [vm_compute; right; right; left; reflexivity|].
    reflexivity.
  - intros (url & h & d & Hin & Hd). vm_compute in Hin.
    repeat (destruct Hin as [Hin|Hin]; [try discriminate Hin|]);
      [|exact Hin].
    injection Hin as _ _ <-. vm_compute in Hd. discriminate Hd.
Qed.

(** C5, amended: when the fetch answers 200 with content that decodes
    to [old], the update makes exactly one write after it; the content
    written is [old], a newline, the line without its leading and
    trailing white space, and a newline, and the write carries the
    [sha] of that fetch. *)
Theorem update_writes_fetched_plus_line (base64 : codec) (cfg : settings)
    (message token owner name br file : str) (w : world)
    (r : response) (rest : list (result response)) (old : str)
    (Hnet : network w = Ok r :: rest)
    (Hstatus : status_code r = 200%Z)
    (Hdecode : b64decode_text base64 (json_content r) = Ok old) :
  let url := api_url owner name br file in
  let new_content := old ++ [LF] ++ Py.strip message ++ [LF] in
  let data := {| data_message := lit "Auto-detected: " ++ Py.strip message;
                 data_content := b64encode_text base64 new_content;
                 data_sha := json_sha r;
                 data_branch := br |} in
  let w' := snd (update_github_file base64 cfg message token owner name br file w) in
  requests_of (output w')
  = requests_of (output w)
    ++ [HttpGet url (api_headers token); HttpPut url (api_headers token) data].
Proof.
  intros url new_content data w'. subst w'.
  unfold update_github_file.
  erewrite bind_ok by apply debug_print_run.
  erewrite bind_ok by (apply request_run; cbn [log network]; exact Hnet).
  rewrite Hstatus. cbn [Z.eqb Pos.eqb negb].
  erewrite bind_ok by (unfold lift; rewrite Hdecode; reflexivity).
  erewrite bind_ok by apply debug_print_run.
  erewrite bind_ok by apply print_run.
  fold url new_content data.
  set (w1 := log _ (log _ _)).
  assert (Hw1 : requests_of (output w1)
                = requests_of (output w) ++ [HttpGet url (api_headers token)]).
  { unfold w1, log. cbn [output network].
    rewrite !requests_of_app, !requests_of_debug. cbn. now rewrite !app_nil_r. }
  assert (Hnet1 : network w1 = rest) by reflexivity.
  unfold bind, request. rewrite Hnet1.
  destruct rest as [|[put|e] rest'].
  - cbn [snd output]. rewrite requests_of_app, Hw1, <- app_assoc. reflexivity.
  - destruct ((status_code put =? 200)%Z || (status_code put =? 201)%Z);
      rewrite print_run, debug_print_run; cbn [snd log output network];
      rewrite !requests_of_app, Hw1, requests_of_debug, <- !app_assoc;
      reflexivity.
  - cbn [snd output]. rewrite requests_of_app, Hw1, <- app_assoc. reflexivity.
Qed.

Lemma update_writes_fetched_plus_line_witness :
  let r := {| status_code := 200; json_sha := lit "v1"; json_content := lit "a" |} in
  let ok := {| status_code := 200; json_sha := lit "v2"; json_content := [] |} in
  let w := {| network := [Ok r; Ok ok]; output := [] |} in
  let w' := snd (update_github_file plain quiet (lit " b ") (lit "t0ken")
                   (lit "owner") (lit "repo") (lit "main") (lit "log.txt") w) in
  requests_of (output w')
  = [HttpGet (api_url (lit "owner") (lit "repo") (lit "main") (lit "log.txt"))
       (api_headers (lit "t0ken"));
     HttpPut (api_url (lit "owner") (lit "repo") (lit "main") (lit "log.txt"))
       (api_headers (lit "t0ken"))
       {| data_message := lit "Auto-detected: b";
          data_content := lit "a" ++ [LF] ++ lit "b" ++ [LF];
          data_sha := lit "v1";
          data_branch := lit "main" |}].
Proof.
  intros r ok w w'.
  exact (@update_writes_fetched_plus_line plain quiet (lit " b ") (lit "t0ken")
           (lit "owner") (lit "repo") (lit "main") (lit "log.txt") w r [Ok ok]
           (lit "a") eq_refl eq_refl eq_refl).
Defined.

(** *** The cleanup of the line *)

Lemma clean_line_run (cfg : settings) (line : str) (w : world) :
  clean_line cfg line w
  = (Ok (cleaned_of line),
     log (if Py.startswith (lit "^[[B") (strip_ansi_codes line)
          then debug_events cfg (lit "Debug cleaned line: " ++ cleaned_of line)
          else []) w).
Proof.
  unfold clean_line, cleaned_of.
  destruct (Py.startswith (lit "^[[B") (strip_ansi_codes line)).
  - erewrite bind_ok by apply debug_print_run. reflexivity.
  - unfold ret. now rewrite log_nil.
Qed.

(** The cleanup of the line cannot raise. *)
Lemma clean_line_never_raises (cfg : settings) (line : str) (w : world) :
  fst (clean_line cfg line w) = Ok (cleaned_of line).
Proof. now rewrite clean_line_run. Qed.

(** *** Reactions *)

(** An action that reads [string:...] in lower case is none of the
    named keys. *)
Lemma string_action_not_a_key (action : str) (name : str) :
  Py.startswith (lit "string:") (Py.lower action) = true ->
  Py.startswith (lit "string:") name = false ->
  Py.eqb (Py.lower action) name = false.
Proof.
  intros H Hname. destruct (Py.eqb (Py.lower action) name) eqn:E; [|reflexivity].
  apply str_eqb_eq in E. rewrite E in H. congruence.
Qed.

(** [("string:" + text).split("string:", 1)] is [["", text]]. *)
Lemma partition_prefix (sep text : str) :
  Py.partition sep (sep ++ text) = Some ([], text).
Proof.
  destruct (sep ++ text) eqn:E; cbn [Py.partition];
    rewrite <- E, startswith_app, skipn_length_app; reflexivity.
Qed.

(** There is nothing to split at exactly when [sep] does not occur. *)
Lemma partition_none (sep s : str) :
  Py.partition sep s = None <-> Py.contains sep s = false.
Proof.
  induction s as [|c t IH]; cbn [Py.partition Py.contains].
  - destruct (Py.startswith sep []); cbn; split; congruence.
  - destruct (Py.startswith sep (c :: t)); cbn [orb].
    + split; congruence.
    + destruct (Py.partition sep t) as [[b a]|].
      * split; [congruence|]. intros H. apply IH in H. congruence.
      * split; [intros _; now apply IH | reflexivity].
Qed.

(** What is sent for a [string:] action in the pseudo-terminal driver
    and in the pipe driver, by what [split] finds. *)
Lemma react_string_run (cfg : settings) (action : str) (w : world) :
  Py.startswith (lit "string:") (Py.lower action) = true ->
  react_unix cfg action w
  = match Py.partition (lit "string:") action with
    | Some (_, text) =>
      (Ok tt, log (debug_events cfg (lit "Processing action: " ++ action)
                   ++ [Print (lit "[>] Sending string: " ++ text); Send text]
                   ++ debug_events cfg (lit "Sent string: " ++ text)
                   ++ [Sleep]) w)
    | None =>
      (Raise IndexError,
       log (debug_events cfg (lit "Processing action: " ++ action)) w)
    end
  /\
  react_windows cfg action w
  = match Py.partition (lit "string:") action with
    | Some (_, value) =>
      (Ok tt, log (debug_events cfg (lit "Processing action: " ++ action)
                   ++ [StdinWrite value; StdinFlush]
                   ++ debug_events cfg (lit "Sent string: " ++ value)
                   ++ [Sleep]) w)
    | None =>
      (Raise IndexError,
       log (debug_events cfg (lit "Processing action: " ++ action)) w)
    end.
Proof.
  intros H. unfold react_unix, react_windows.
  rewrite !(string_action_not_a_key action _ H) by reflexivity.
  rewrite H. unfold Py.split1.
  destruct (Py.partition (lit "string:") action) as [[before text]|];
    cbn [item nth_error]; split; run; reflexivity.
Qed.

(** C10, as stated, fails: the prefix of "String:string:y" is
    [string:] only without regard to case, yet no index fails and the
    text "y" is sent, in both drivers. *)
Lemma mixed_case_prefix_can_send :
  let action := lit "String:string:y" in
  Py.startswith (lit "string:") (Py.lower action) = true
  /\ Py.startswith (lit "string:") action = false
  /\ react_unix quiet action offline
     = (Ok tt, log [Print (lit "[>] Sending string: y"); Send (lit "y"); Sleep]
                   offline)
  /\ react_windows quiet action offline
     = (Ok tt, log [StdinWrite (lit "y"); StdinFlush; Sleep] offline).
Proof. cbv zeta. repeat split; reflexivity. Qed.

(** Evaluates the tests of [react_unix] and [react_windows] on a name. *)
Ltac decide_tests :=
  repeat match goal with
         | |- context [Py.eqb ?a ?b] =>
           let v := eval vm_compute in (Py.eqb a b) in
           match v with
           | true => change (Py.eqb a b) with true
           | false => change (Py.eqb a b) with false
           end
         end;
  cbn iota.

(** A named key is recognised whatever the case of its letters. *)
Lemma named_key_run (cfg : settings) (action : str) (w : world)
    (name line keys sent : str) :
  In (name, (line, keys, sent)) named_keys ->
  Py.lower action = name ->
  react_unix cfg action w
  = (Ok tt, log (debug_events cfg (lit "Processing action: " ++ action)
                 ++ [Print line; Send keys]
                 ++ debug_events cfg sent ++ [Sleep]) w).
Proof.
  intros Hin Hname. unfold react_unix. rewrite Hname. clear Hname.
  unfold named_keys in Hin. cbn [In] in Hin.
  repeat (destruct Hin as [[= <- <- <- <-]|Hin];
          [decide_tests; run; reflexivity|]).
  destruct Hin.
Qed.

Lemma enter_run_windows (cfg : settings) (action : str) (w : world) :
  Py.lower action = lit "enter" ->
  react_windows cfg action w
  = (Ok tt, log (debug_events cfg (lit "Processing action: " ++ action)
                 ++ [StdinWrite [LF]; StdinFlush]
                 ++ debug_events cfg (lit "Sent Enter") ++ [Sleep]) w).
Proof.
  intros Hname. unfold react_windows. rewrite Hname.
  decide_tests. run. reflexivity.
Qed.

(** C10, amended: reactions are recognised without regard to case,
    and the payload of a [string:] action is what follows the first
    lower-case "string:" in the action as written.  An action equal to
    "string:" followed by a text sends exactly that text.  An action
    recognised as a [string:] action that nowhere contains the
    lower-case "string:" (such as "String:y") raises the out-of-bounds
    error and sends nothing; one that contains it further on sends
    what follows it. *)
Theorem string_action_payload (cfg : settings) (action : str) (w : world) :
  (forall name line keys sent,
     In (name, (line, keys, sent)) named_keys ->
     Py.lower action = name ->
     react_unix cfg action w
     = (Ok tt, log (debug_events cfg (lit "Processing action: " ++ action)
                    ++ [Print line; Send keys]
                    ++ debug_events cfg sent ++ [Sleep]) w))
  /\
  (Py.lower action = lit "enter" ->
   react_windows cfg action w
   = (Ok tt, log (debug_events cfg (lit "Processing action: " ++ action)
                  ++ [StdinWrite [LF]; StdinFlush]
                  ++ debug_events cfg (lit "Sent Enter") ++ [Sleep]) w))
  /\
  (Py.startswith (lit "string:") (Py.lower action) = true ->
   (forall text, action = lit "string:" ++ text ->
      react_unix cfg action w
      = (Ok tt, log (debug_events cfg (lit "Processing action: " ++ action)
                     ++ [Print (lit "[>] Sending string: " ++ text); Send text]
                     ++ debug_events cfg (lit "Sent string: " ++ text)
                     ++ [Sleep]) w)
      /\ react_windows cfg action w
      = (Ok tt, log (debug_events cfg (lit "Processing action: " ++ action)
                     ++ [StdinWrite text; StdinFlush]
                     ++ debug_events cfg (lit "Sent string: " ++ text)
                     ++ [Sleep]) w))
   /\
   (Py.contains (lit "string:") action = false ->
      react_unix cfg action w
      = (Raise IndexError,
         log (debug_events cfg (lit "Processing action: " ++ action)) w)
      /\ react_windows cfg action w
      = (Raise IndexError,
         log (debug_events cfg (lit "Processing action: " ++ action)) w))
   /\
   (forall before text,
      Py.partition (lit "string:") action = Some (before, text) ->
      react_unix cfg action w
      = (Ok tt, log (debug_events cfg (lit "Processing action: " ++ action)
                     ++ [Print (lit "[>] Sending string: " ++ text); Send text]
                     ++ debug_events cfg (lit "Sent string: " ++ text)
                     ++ [Sleep]) w)
      /\ react_windows cfg action w
      = (Ok tt, log (debug_events cfg (lit "Processing action: " ++ action)
                     ++ [StdinWrite text; StdinFlush]
                     ++ debug_events cfg (lit "Sent string: " ++ text)
                     ++ [Sleep]) w))).
Proof.
  split; [|split].
  - intros name line keys sent. apply named_key_run.
  - apply enter_run_windows.
  - intros Hstring.
    pose proof (react_string_run cfg action w Hstring) as [Hu Hw].
    rewrite Hu, Hw. split; [|split].
    + intros text ->. now rewrite partition_prefix.
    + intros H. apply partition_none in H. now rewrite H.
    + intros before text H. now rewrite H.
Qed.

Lemma string_action_payload_witness :
  react_unix quiet (lit "String:y") offline = (Raise IndexError, offline)
  /\ react_windows quiet (lit "String:y") offline = (Raise IndexError, offline)
  /\ react_unix quiet (lit "string:y") offline
     = (Ok tt, log [Print (lit "[>] Sending string: y"); Send (lit "y"); Sleep]
                   offline)
  /\ react_unix quiet (lit "ENTER") offline
     = (Ok tt, log [Print (lit "[>] Sending Enter"); Send [CR]; Sleep] offline).
Proof.
  pose proof (string_action_payload quiet (lit "String:y") offline)
    as (_ & _ & Hmixed).
  pose proof (string_action_payload quiet (lit "string:y") offline)
    as (_ & _ & Hlower).
  pose proof (string_action_payload quiet (lit "ENTER") offline)
    as (Hkey & _ & _).
  destruct (Hmixed eq_refl) as (_ & Hnone & _).
  destruct (Hlower eq_refl) as (Hexact & _ & _).
  destruct (Hnone eq_refl) as [Hu Hw].
  destruct (Hexact (lit "y") eq_refl) as [Hy _].
  split; [exact Hu | split; [exact Hw | split; [exact Hy|]]].
  apply (Hkey (lit "enter") _ _ (lit "Sent Enter (\r)")); [left|]; reflexivity.
Defined.

(** In the pseudo-terminal driver an action that is not recognised is
    reported and skipped; the pause follows and nothing is raised. *)
Lemma unknown_reaction_unix (cfg : settings) (action : str) (w : world) :
  recognised_unix action = false ->
  react_unix cfg action w
  = (Ok tt, log (debug_events cfg (lit "Processing action: " ++ action)
                 ++ [Print (lit "[!] Unknown action: " ++ action)]
                 ++ debug_events cfg (lit "Unknown action: " ++ action)
                 ++ [Sleep]) w).
Proof.
  unfold recognised_unix. intros H.
  repeat (apply orb_false_elim in H as [H ?]).
  unfold react_unix.
  repeat match goal with E : _ = false |- _ => rewrite E; clear E end.
  run. reflexivity.
Qed.

(** In the pipe driver it is skipped without a word: but for the debug
    line written for every action, only the pause is left. *)
Lemma unknown_reaction_windows (cfg : settings) (action : str) (w : world) :
  recognised_windows action = false ->
  react_windows cfg action w
  = (Ok tt, log (debug_events cfg (lit "Processing action: " ++ action)
                 ++ [Sleep]) w).
Proof.
  unfold recognised_windows. intros H.
  apply orb_false_elim in H as [H1 H2].
  unfold react_windows. rewrite H1, H2. run. reflexivity.
Qed.

(** The reactions that follow an unrecognised one are carried out. *)
Lemma reactions_after_unknown (cfg : settings) (action : str)
    (others : list str) (w : world) :
  (recognised_unix action = false ->
   for_each (action :: others) (react_unix cfg) w
   = for_each others (react_unix cfg) (snd (react_unix cfg action w)))
  /\
  (recognised_windows action = false ->
   for_each (action :: others) (react_windows cfg) w
   = for_each others (react_windows cfg) (snd (react_windows cfg action w))).
Proof.
  split; intros H; cbn [for_each]; unfold bind.
  - now rewrite (unknown_reaction_unix cfg action w H).
  - now rewrite (unknown_reaction_windows cfg action w H).
Qed.

(** C4 at the failing input: the rule ["teleport", "enter"] matches
    the line.  The pipe driver, debugging off, pauses, sends Enter and
    pauses: nothing reports "teleport".  The pseudo-terminal driver
    prints the diagnostic. *)
Theorem pipe_driver_silent_on_unknown_reaction :
  let rules := {| key_detect :=
                    Some [rule (lit "Allow extension") false
                            [lit "teleport"; lit "enter"]] |} in
  let line := lit "Allow extension? (y/n)" in
  run_and_detect_windows plain quiet rules (lit "code") None [Ok (line ++ [LF])] offline
  = (Ok tt,
     log [Print (lit "[+] Starting VSCode tunnel...");
          Popen [lit "code"; lit "tunnel"];
          Print (lit "[>] Allow extension? (y/n)");
          Print (lit "[✓] Detected match: Allow extension");
          Sleep;
          StdinWrite [LF]; StdinFlush; Sleep] offline)
  /\
  run_and_detect_unix plain quiet rules (lit "code") None [Ok line] offline
  = (Ok tt,
     log [Spawn (lit "code tunnel");
          Print (lit "[+] Starting VSCode tunnel...");
          Print (lit "[>] Allow extension? (y/n)");
          Print (lit "[✓] Detected match: Allow extension");
          Print (lit "[!] Unknown action: teleport"); Sleep;
          Print (lit "[>] Sending Enter"); Send [CR]; Sleep;
          Print (lit "[!] Process ended")] offline).
Proof. cbv zeta. split; vm_compute; reflexivity. Qed.

(** *** The loop after a failed fetch *)

(** The reactions that can be carried out return, and reach no
    remote. *)
Lemma react_windows_returns (cfg : settings) (action : str) (w : world) :
  sendable action = true ->
  exists evs,
    react_windows cfg action w = (Ok tt, log evs w) /\ requests_of evs = [].
Proof.
  intros Hs. unfold sendable in Hs.
  destruct (Py.eqb (Py.lower action) (lit "enter")) eqn:Henter.
  - apply str_eqb_eq in Henter. eexists.
    split; [now apply enter_run_windows|].
    rewrite !requests_of_app, !requests_of_debug. reflexivity.
  - destruct (Py.startswith (lit "string:") (Py.lower action)) eqn:Hstring.
    + cbn [negb orb] in Hs.
      destruct (react_string_run cfg action w Hstring) as [_ Hw].
      destruct (Py.partition (lit "string:") action) as [[before value]|] eqn:P.
      * eexists. split; [exact Hw|].
        rewrite !requests_of_app, !requests_of_debug. reflexivity.
      * apply partition_none in P. congruence.
    + eexists. split.
      * apply unknown_reaction_windows. unfold recognised_windows.
        now rewrite Henter, Hstring.
      * rewrite !requests_of_app, !requests_of_debug. reflexivity.
Qed.

Lemma react_unix_returns (cfg : settings) (action : str) (w : world) :
  sendable action = true ->
  exists evs,
    react_unix cfg action w = (Ok tt, log evs w) /\ requests_of evs = [].
Proof.
  intros Hs. unfold sendable in Hs.
  assert (Hkey : forall name line keys sent,
            In (name, (line, keys, sent)) named_keys ->
            Py.eqb (Py.lower action) name = true ->
            exists evs,
              react_unix cfg action w = (Ok tt, log evs w)
              /\ requests_of evs = []).
  { intros name line keys sent Hin Hname. apply str_eqb_eq in Hname.
    eexists. split; [exact (named_key_run cfg action w name line keys sent Hin Hname)|].
    rewrite !requests_of_app, !requests_of_debug. reflexivity. }
  destruct (Py.eqb (Py.lower action) (lit "enter")) eqn:Henter;
    [eapply Hkey; [left; reflexivity | exact Henter]|].
  destruct (Py.eqb (Py.lower action) (lit "down")) eqn:Hdown;
    [eapply Hkey; [right; left; reflexivity | exact Hdown]|].
  destruct (Py.eqb (Py.lower action) (lit "up")) eqn:Hup;
    [eapply Hkey; [right; right; left; reflexivity | exact Hup]|].
  destruct (Py.eqb (Py.lower action) (lit "left")) eqn:Hleft;
    [eapply Hkey; [right; right; right; left; reflexivity | exact Hleft]|].
  destruct (Py.eqb (Py.lower action) (lit "right")) eqn:Hright;
    [eapply Hkey; [right; right; right; right; left; reflexivity | exact Hright]|].
  clear Hkey.
  destruct (Py.startswith (lit "string:") (Py.lower action)) eqn:Hstring.
  - cbn [negb orb] in Hs.
    destruct (react_string_run cfg action w Hstring) as [Hu _].
    destruct (Py.partition (lit "string:") action) as [[before text]|] eqn:P.
    + eexists. split; [exact Hu|].
      rewrite !requests_of_app, !requests_of_debug. reflexivity.
    + apply partition_none in P. congruence.
  - eexists. split.
    + apply unknown_reaction_unix. unfold recognised_unix.
      now rewrite Henter, Hdown, Hup, Hleft, Hright, Hstring.
    + rewrite !requests_of_app, !requests_of_debug. reflexivity.
Qed.

Lemma for_each_returns {A} (can : A -> bool) (body : A -> M unit) :
  (forall x w, can x = true ->
     exists evs, body x w = (Ok tt, log evs w) /\ requests_of evs = []) ->
  forall (l : list A) (w : world),
    forallb can l = true ->
    exists evs, for_each l body w = (Ok tt, log evs w) /\ requests_of evs = [].
Proof.
  intros Hbody. induction l as [|x l IH]; intros w Hl; cbn [for_each].
  - exists []. split; [unfold ret; now rewrite log_nil | reflexivity].
  - cbn [forallb] in Hl. apply andb_prop in Hl as [Hx Hl].
    destruct (Hbody x w Hx) as (e1 & H1 & R1).
    destruct (IH (log e1 w) Hl) as (e2 & H2 & R2).
    exists (e1 ++ e2). split.
    + erewrite bind_ok by exact H1. now rewrite H2, log_log.
    + now rewrite requests_of_app, R1, R2.
Qed.

(** The update in which an exchange takes place returns. *)
Lemma upload_line_exchange (base64 : codec) (cfg : settings) (message : str)
    (w : world) (x : exchange) (rest : list (result response)) :
  network w = answers_of x ++ rest -> goes base64 x = true ->
  exists evs,
    upload_line base64 cfg message w
    = (Ok tt, {| network := rest; output := output w ++ evs |})
    /\ requests_of evs = requests_in base64 cfg message x
    /\ warned evs x.
Proof.
  intros Hnet Hgoes. unfold upload_line.
  destruct x as [r|r put]; cbn [answers_of goes app] in *.
  - eexists. split; [|split].
    + apply fetch_failed_run; [exact Hnet|].
      unfold failed in Hgoes. apply Z.eqb_neq.
      now destruct (status_code r =? 200)%Z.
    + rewrite !requests_of_app, requests_of_debug. reflexivity.
    + cbn [warned]. apply in_or_app. right. right. now left.
  - apply andb_prop in Hgoes as [Hstatus Hdecode].
    apply Z.eqb_eq in Hstatus.
    destruct (b64decode_text base64 (json_content r)) as [old|] eqn:Hold;
      [|discriminate Hdecode].
    destruct (update_written_returns base64 cfg message (github_token cfg)
                (repo_owner cfg) (repo_name cfg) (branch cfg) (target_file cfg)
                w r put rest old Hnet Hstatus Hold) as (evs & Hrun & Hreq).
    exists evs. split; [exact Hrun|]. split; [|exact I].
    rewrite Hreq. unfold requests_in, write_of, fetch_of. now rewrite Hold.
Qed.

(** The rules of a line one after the other, the remote answering
    every update. *)
Section Exchanges.

Variable base64 : codec.
Variable cfg : settings.
Variable text : str.            (* the line that is matched  *)
Variable message : str.         (* the line that is uploaded *)
Variable step : detector -> M unit.

Hypothesis step_skips : forall d w,
  rule_matches text d = false -> step d w = (Ok tt, w).

Hypothesis step_reacts : forall d w,
  rule_matches text d = true -> reacts d = true ->
  dict_get (key_upload d) false = false ->
  exists w' evs,
    step d w = (Ok tt, w') /\ network w' = network w
    /\ output w' = output w ++ evs /\ requests_of evs = [].

Hypothesis step_forwards : forall d w x rest,
  rule_matches text d = true -> reacts d = true ->
  dict_get (key_upload d) false = true ->
  network w = answers_of x ++ rest -> goes base64 x = true ->
  exists w' evs,
    step d w = (Ok tt, w') /\ network w' = rest
    /\ output w' = output w ++ evs
    /\ requests_of evs = requests_in base64 cfg message x
    /\ warned evs x.

Lemma warned_app (a b : list event) (x : exchange) :
  warned a x \/ warned b x -> warned (a ++ b) x.
Proof.
  destruct x; cbn [warned]; [|tauto]. intros H. now apply in_or_app.
Qed.

Lemma rules_through_exchanges (rules : list detector) :
  forall (exchanges : list exchange) (rest : list (result response)) (w : world),
    network w = flat_map answers_of exchanges ++ rest ->
    forallb (goes base64) exchanges = true ->
    length exchanges = length (filter (forwards text) rules) ->
    forallb reacts (filter (rule_matches text) rules) = true ->
    exists w' evs,
      for_each rules step w = (Ok tt, w') /\ network w' = rest
      /\ output w' = output w ++ evs
      /\ requests_of evs = flat_map (requests_in base64 cfg message) exchanges
      /\ Forall (warned evs) exchanges.
Proof.
  induction rules as [|d rules IH];
    intros exchanges rest w Hnet Hgo Hlen Hreacts.
  - destruct exchanges; [|discriminate Hlen].
    exists w, []. cbn [for_each ret flat_map]. rewrite app_nil_r.
    repeat split; [exact Hnet | constructor].
  - cbn [for_each filter] in *. unfold forwards in Hlen at 1.
    destruct (rule_matches text d) eqn:Hm; cbn [andb] in Hlen.
    + cbn [forallb] in Hreacts. apply andb_prop in Hreacts as [Hd Hreacts].
      destruct (dict_get (key_upload d) false) eqn:Hu.
      * destruct exchanges as [|x exchanges]; [discriminate Hlen|].
        cbn [flat_map forallb length] in *. rewrite <- app_assoc in Hnet.
        apply andb_prop in Hgo as [Hx Hgo]. injection Hlen as Hlen.
        destruct (step_forwards d w x (flat_map answers_of exchanges ++ rest)
                    Hm Hd Hu Hnet Hx)
          as (w1 & e1 & H1 & N1 & O1 & R1 & W1).
        destruct (IH exchanges rest w1 N1 Hgo Hlen Hreacts)
          as (w2 & e2 & H2 & N2 & O2 & R2 & W2).
        exists w2, (e1 ++ e2). split; [|split; [|split; [|split]]].
        -- erewrite bind_ok by exact H1. exact H2.
        -- exact N2.
        -- now rewrite O2, O1, app_assoc.
        -- now rewrite requests_of_app, R1, R2.
        -- constructor; [apply warned_app; now left|].
           eapply Forall_impl; [|exact W2]. intros x' Hin.
           apply warned_app. now right.
      * destruct (step_reacts d w Hm Hd Hu) as (w1 & e1 & H1 & N1 & O1 & R1).
        rewrite <- N1 in Hnet.
        destruct (IH exchanges rest w1 Hnet Hgo Hlen Hreacts)
          as (w2 & e2 & H2 & N2 & O2 & R2 & W2).
        exists w2, (e1 ++ e2). split; [|split; [|split; [|split]]].
        -- erewrite bind_ok by exact H1. exact H2.
        -- exact N2.
        -- now rewrite O2, O1, app_assoc.
        -- now rewrite requests_of_app, R1, R2.
        -- eapply Forall_impl; [|exact W2]. intros x' Hin.
           apply warned_app. now right.
    + destruct (IH exchanges rest w Hnet Hgo Hlen Hreacts)
        as (w2 & e2 & H2 & N2 & O2 & R2 & W2).
      exists w2, e2. split; [|now repeat split].
      erewrite bind_ok by (now apply step_skips). exact H2.
Qed.

End Exchanges.

Lemma detect_skips (base64 : codec) (cfg : settings) (text : str)
    (d : detector) (w : world) :
  rule_matches text d = false ->
  detect_windows base64 cfg text d w = (Ok tt, w)
  /\ detect_unix base64 cfg text d w = (Ok tt, w).
Proof.
  intros Hm. unfold detect_windows, detect_unix.
  change (keyword_in (dict_get (key_match d) None) text)
    with (rule_matches text d).
  now rewrite Hm.
Qed.

Lemma detect_windows_reacts (base64 : codec) (cfg : settings) (text : str)
    (d : detector) (w : world) :
  rule_matches text d = true -> reacts d = true ->
  dict_get (key_upload d) false = false ->
  exists w' evs,
    detect_windows base64 cfg text d w = (Ok tt, w')
    /\ network w' = network w
    /\ output w' = output w ++ evs /\ requests_of evs = [].
Proof.
  intros Hm Hd Hu. unfold detect_windows.
  change (keyword_in (dict_get (key_match d) None) text)
    with (rule_matches text d).
  rewrite Hm. unfold apply_windows. cbv zeta. rewrite Hu.
  erewrite bind_ok by apply print_run.
  erewrite bind_ok by apply debug_print_run.
  erewrite bind_ok by reflexivity.
  rewrite log_log.
  match goal with
  | |- context [for_each _ _ ?w1] =>
    destruct (for_each_returns sendable (react_windows cfg)
                (react_windows_returns cfg) (dict_get (key_action d) []) w1 Hd)
      as (evs & Hrun & Hreq)
  end.
  rewrite Hrun, log_log. eexists. eexists.
  split; [reflexivity|]. split; [reflexivity|]. split; [reflexivity|].
  now rewrite !requests_of_app, requests_of_debug, Hreq.
Qed.

Lemma detect_windows_forwards (base64 : codec) (cfg : settings) (text : str)
    (d : detector) (w : world) (x : exchange) (rest : list (result response)) :
  rule_matches text d = true -> reacts d = true ->
  dict_get (key_upload d) false = true ->
  network w = answers_of x ++ rest -> goes base64 x = true ->
  exists w' evs,
    detect_windows base64 cfg text d w = (Ok tt, w') /\ network w' = rest
    /\ output w' = output w ++ evs
    /\ requests_of evs = requests_in base64 cfg text x
    /\ warned evs x.
Proof.
  intros Hm Hd Hu Hnet Hgo. unfold detect_windows.
  change (keyword_in (dict_get (key_match d) None) text)
    with (rule_matches text d).
  rewrite Hm. unfold apply_windows. cbv zeta. rewrite Hu.
  erewrite bind_ok by apply print_run.
  erewrite bind_ok by apply debug_print_run.
  rewrite log_log.
  match goal with
  | |- context [bind _ _ ?w1] =>
    destruct (upload_line_exchange base64 cfg text w1 x rest Hnet Hgo)
      as (sent & Hsent & Rsent & Wsent)
  end.
  erewrite bind_ok by exact Hsent.
  match goal with
  | |- context [for_each _ _ ?w1] =>
    destruct (for_each_returns sendable (react_windows cfg)
                (react_windows_returns cfg) (dict_get (key_action d) []) w1 Hd)
      as (evs & Hrun & Hreq)
  end.
  rewrite Hrun. unfold log. cbn [network output]. rewrite <- !app_assoc.
  eexists. eexists.
  split; [reflexivity|]. cbn [network output].
  split; [reflexivity|]. split; [reflexivity|]. split.
  - rewrite !requests_of_app, !requests_of_debug, Hreq, Rsent.
    cbn [app]. now rewrite app_nil_r.
  - apply warned_app. right. apply warned_app. right.
    apply warned_app. now left.
Qed.

Lemma detect_unix_reacts (base64 : codec) (cfg : settings) (line : str)
    (d : detector) (w : world) :
  rule_matches line d = true -> reacts d = true ->
  dict_get (key_upload d) false = false ->
  exists w' evs,
    detect_unix base64 cfg line d w = (Ok tt, w')
    /\ network w' = network w
    /\ output w' = output w ++ evs /\ requests_of evs = [].
Proof.
  intros Hm Hd Hu. unfold detect_unix.
  change (keyword_in (dict_get (key_match d) None) line)
    with (rule_matches line d).
  rewrite Hm. unfold apply_unix. cbv zeta. rewrite Hu.
  erewrite bind_ok by apply print_run.
  erewrite bind_ok by apply debug_print_run.
  erewrite bind_ok by reflexivity.
  rewrite log_log.
  match goal with
  | |- context [for_each _ _ ?w1] =>
    destruct (for_each_returns sendable (react_unix cfg)
                (react_unix_returns cfg) (dict_get (key_action d) []) w1 Hd)
      as (evs & Hrun & Hreq)
  end.
  rewrite Hrun, log_log. eexists. eexists.
  split; [reflexivity|]. split; [reflexivity|]. split; [reflexivity|].
  now rewrite !requests_of_app, requests_of_debug, Hreq.
Qed.

Lemma requests_of_cleanup (cfg : settings) (line : str) :
  requests_of (if Py.startswith (lit "^[[B") (strip_ansi_codes line)
               then debug_events cfg (lit "Debug cleaned line: " ++ cleaned_of line)
               else []) = [].
Proof.
  destruct (Py.startswith _ _); [apply requests_of_debug | reflexivity].
Qed.

Lemma detect_unix_forwards (base64 : codec) (cfg : settings) (line : str)
    (d : detector) (w : world) (x : exchange) (rest : list (result response)) :
  rule_matches line d = true -> reacts d = true ->
  dict_get (key_upload d) false = true ->
  network w = answers_of x ++ rest -> goes base64 x = true ->
  exists w' evs,
    detect_unix base64 cfg line d w = (Ok tt, w') /\ network w' = rest
    /\ output w' = output w ++ evs
    /\ requests_of evs = requests_in base64 cfg (cleaned_of line) x
    /\ warned evs x.
Proof.
  intros Hm Hd Hu Hnet Hgo. unfold detect_unix.
  change (keyword_in (dict_get (key_match d) None) line)
    with (rule_matches line d).
  rewrite Hm. unfold apply_unix. cbv zeta. rewrite Hu.
  erewrite bind_ok by apply print_run.
  erewrite bind_ok by apply debug_print_run.
  rewrite log_log. unfold bind at 1. unfold bind at 1.
  rewrite clean_line_run. rewrite log_log.
  match goal with
  | |- context [upload_line _ _ _ ?w1] =>
    destruct (upload_line_exchange base64 cfg (cleaned_of line) w1 x rest
                Hnet Hgo)
      as (sent & Hsent & Rsent & Wsent)
  end.
  rewrite Hsent.
  match goal with
  | |- context [for_each _ _ ?w1] =>
    destruct (for_each_returns sendable (react_unix cfg)
                (react_unix_returns cfg) (dict_get (key_action d) []) w1 Hd)
      as (evs & Hrun & Hreq)
  end.
  rewrite Hrun. unfold log. cbn [network output]. rewrite <- !app_assoc.
  eexists. eexists.
  split; [reflexivity|]. cbn [network output].
  split; [reflexivity|]. split; [reflexivity|]. split.
  - rewrite !requests_of_app, !requests_of_debug, requests_of_cleanup,
      Hreq, Rsent.
    cbn [app]. now rewrite app_nil_r.
  - apply warned_app. right. apply warned_app. right.
    apply warned_app. right. apply warned_app. now left.
Qed.

Lemma loop_windows_through_exchanges (base64 : codec) (cfg : settings)
    (rules : rule_set) (read : str) (more : list (result str)) (w : world)
    (exchanges : list exchange) (rest : list (result response)) :
  let cleaned := strip_ansi_codes (Py.strip read) in
  let rule_list := dict_get (key_detect rules) [] in
  Py.is_empty read = false ->
  network w = flat_map answers_of exchanges ++ rest ->
  forallb (goes base64) exchanges = true ->
  length exchanges = length (filter (forwards cleaned) rule_list) ->
  forallb reacts (filter (rule_matches cleaned) rule_list) = true ->
  exists w',
    loop_windows base64 cfg rules (Ok read :: more) w
    = loop_windows base64 cfg rules more w'
    /\ network w' = rest
    /\ requests_of (output w')
       = requests_of (output w)
         ++ flat_map (requests_in base64 cfg cleaned) exchanges
    /\ Forall (warned (output w')) exchanges.
Proof.
  intros cleaned rule_list Hread Hnet Hgo Hlen Hreacts.
  cbn [loop_windows]. unfold lift. unfold bind at 1. rewrite Hread.
  cbv zeta. fold cleaned rule_list.
  erewrite bind_ok by apply print_run.
  destruct (rules_through_exchanges base64 cfg cleaned cleaned
              (detect_windows base64 cfg cleaned)
              (fun d w0 Hm => proj1 (detect_skips base64 cfg cleaned d w0 Hm))
              (detect_windows_reacts base64 cfg cleaned)
              (detect_windows_forwards base64 cfg cleaned)
              rule_list exchanges rest
              (log [Print (lit "[>] " ++ cleaned)] w)
              Hnet Hgo Hlen Hreacts)
    as (w2 & evs & Hrun & N & O & R & W).
  erewrite bind_ok by exact Hrun.
  exists w2. split; [reflexivity|]. split; [exact N|]. split.
  - rewrite O. cbn [log output]. rewrite !requests_of_app, R.
    cbn. now rewrite app_nil_r.
  - eapply Forall_impl; [|exact W]. intros x Hx. rewrite O.
    apply warned_app. now right.
Qed.

Lemma loop_unix_through_exchanges (base64 : codec) (cfg : settings)
    (rules : rule_set) (read : str) (more : list (result str)) (w : world)
    (exchanges : list exchange) (rest : list (result response)) :
  let line := Py.strip read in
  let rule_list := dict_get (key_detect rules) [] in
  Py.is_empty line = false ->
  network w = flat_map answers_of exchanges ++ rest ->
  forallb (goes base64) exchanges = true ->
  length exchanges = length (filter (forwards line) rule_list) ->
  forallb reacts (filter (rule_matches line) rule_list) = true ->
  exists w',
    loop_unix base64 cfg rules (Ok read :: more) w
    = loop_unix base64 cfg rules more w'
    /\ network w' = rest
    /\ requests_of (output w')
       = requests_of (output w)
         ++ flat_map (requests_in base64 cfg (cleaned_of line)) exchanges
    /\ Forall (warned (output w')) exchanges.
Proof.
  intros line rule_list Hline Hnet Hgo Hlen Hreacts.
  cbn [loop_unix]. unfold iteration_unix, lift. unfold bind at 1.
  fold line rule_list.
  erewrite bind_ok by apply clean_line_run. rewrite Hline.
  erewrite bind_ok by apply print_run. rewrite log_log.
  destruct (rules_through_exchanges base64 cfg line (cleaned_of line)
              (detect_unix base64 cfg line)
              (fun d w0 Hm => proj2 (detect_skips base64 cfg line d w0 Hm))
              (detect_unix_reacts base64 cfg line)
              (detect_unix_forwards base64 cfg line)
              rule_list exchanges rest
              (log ((if Py.startswith (lit "^[[B") (strip_ansi_codes line)
                     then debug_events cfg
                            (lit "Debug cleaned line: " ++ cleaned_of line)
                     else [])
                    ++ [Print (lit "[>] " ++ cleaned_of line)]) w)
              Hnet Hgo Hlen Hreacts)
    as (w2 & evs & Hrun & N & O & R & W).
  rewrite Hrun.
  exists w2. split; [reflexivity|]. split; [exact N|]. split.
  - rewrite O. cbn [log output].
    rewrite !requests_of_app, requests_of_cleanup, R.
    cbn. now rewrite app_nil_r.
  - eapply Forall_impl; [|exact W]. intros x Hx. rewrite O.
    apply warned_app. now right.
Qed.

(** C6: when the fetch answers with a status other than 200 (as every
    non-success status is), the update makes no write, reports the
    failure with a printed warning, and returns without raising.  In
    both drivers the loop goes on: on a line whose updates the remote
    answers, each rule that forwards the line makes its fetch, a
    refused fetch is followed by the warning and by no write, the
    reactions of the matching rules are carried out, and the driver
    reads the next output. *)
Theorem fetch_failure_is_contained (base64 : codec) (cfg : settings) :
  (forall (message token owner name br file : str) (w : world)
          (r : response) (rest : list (result response)),
     network w = Ok r :: rest ->
     status_code r <> 200%Z ->
     let url := api_url owner name br file in
     let warning := Print (lit "[!] GitHub GET failed: "
                           ++ Py.str_of_int (status_code r)) in
     let w' := {| network := rest;
                  output := output w
                    ++ debug_events cfg (lit "Fetching file from GitHub: " ++ url)
                    ++ [HttpGet url (api_headers token); warning] |} in
     update_github_file base64 cfg message token owner name br file w
     = (Ok tt, w')
     /\ requests_of (output w')
        = requests_of (output w) ++ [HttpGet url (api_headers token)])
  /\
  (forall (rules : rule_set) (read : str) (more : list (result str))
          (w : world) (exchanges : list exchange)
          (rest : list (result response)),
     let cleaned := strip_ansi_codes (Py.strip read) in
     let rule_list := dict_get (key_detect rules) [] in
     Py.is_empty read = false ->
     network w = flat_map answers_of exchanges ++ rest ->
     forallb (goes base64) exchanges = true ->
     length exchanges = length (filter (forwards cleaned) rule_list) ->
     forallb reacts (filter (rule_matches cleaned) rule_list) = true ->
     exists w',
       loop_windows base64 cfg rules (Ok read :: more) w
       = loop_windows base64 cfg rules more w'
       /\ network w' = rest
       /\ requests_of (output w')
          = requests_of (output w)
            ++ flat_map (requests_in base64 cfg cleaned) exchanges
       /\ Forall (warned (output w')) exchanges)
  /\
  (forall (rules : rule_set) (read : str) (more : list (result str))
          (w : world) (exchanges : list exchange)
          (rest : list (result response)),
     let line := Py.strip read in
     let rule_list := dict_get (key_detect rules) [] in
     Py.is_empty line = false ->
     network w = flat_map answers_of exchanges ++ rest ->
     forallb (goes base64) exchanges = true ->
     length exchanges = length (filter (forwards line) rule_list) ->
     forallb reacts (filter (rule_matches line) rule_list) = true ->
     exists w',
       loop_unix base64 cfg rules (Ok read :: more) w
       = loop_unix base64 cfg rules more w'
       /\ network w' = rest
       /\ requests_of (output w')
          = requests_of (output w)
            ++ flat_map (requests_in base64 cfg (cleaned_of line)) exchanges
       /\ Forall (warned (output w')) exchanges).
Proof.
  split; [|split].
  - intros message token owner name br file w r rest Hnet Hstatus url warning w'.
    split.
    + now apply fetch_failed_run.
    + unfold w'. cbn [output]. rewrite !requests_of_app, requests_of_debug.
      reflexivity.
  - intros rules read more w exchanges rest.
    apply loop_windows_through_exchanges.
  - intros rules read more w exchanges rest.
    apply loop_unix_through_exchanges.
Qed.

Lemma fetch_failure_is_contained_witness :
  let rules := {| key_detect :=
                    Some [rule (lit "login with code") true [lit "enter"];
                          rule (lit "denied") true [];
                          rule (lit "code") true []] |} in
  let first := lit "Please login with code ABC-123" in
  let second := lit "Open this link in your browser" in
  let missing := {| status_code := 404; json_sha := []; json_content := [] |} in
  let found := {| status_code := 200; json_sha := lit "v1";
                  json_content := lit "log" |} in
  let written := {| status_code := 201; json_sha := lit "v2";
                    json_content := [] |} in
  let w := {| network := [Ok missing; Ok found; Ok written]; output := [] |} in
  (exists w',
     loop_windows plain quiet rules [Ok first; Ok second] w
     = loop_windows plain quiet rules [Ok second] w'
     /\ network w' = []
     /\ requests_of (output w')
        = [fetch_of quiet; fetch_of quiet; write_of plain quiet first found]
     /\ In (warning_of missing) (output w'))
  /\ In (Print (lit "[>] Open this link in your browser"))
       (output (snd (loop_windows plain quiet rules [Ok first; Ok second] w)))
  /\ In (Print (lit "[>] Open this link in your browser"))
       (output (snd (loop_unix plain quiet rules [Ok first; Ok second] w))).
Proof.
  intros rules first second missing found written w.
  destruct (fetch_failure_is_contained plain quiet) as (_ & Hpipe & Hpty).
  split; [|split].
  - destruct (Hpipe rules first [Ok second] w
                [Refused missing; Fetched found written] []
                eq_refl eq_refl eq_refl eq_refl eq_refl)
      as (w' & Hloop & Hnet & Hreq & Hwarned).
    exists w'. split; [exact Hloop|]. split; [exact Hnet|].
    split; [exact Hreq|].
    now inversion Hwarned.
  - vm_compute. repeat first [left; reflexivity | right].
  - destruct (Hpty rules first [Ok second] w
                [Refused missing; Fetched found written] []
                eq_refl eq_refl eq_refl eq_refl eq_refl) as (w' & _ & Hnet & _).
    vm_compute. repeat first [left; reflexivity | right].
Defined.

(** *** The line that is matched *)

(** C1 at the failing input: the child writes "login with code
    ABC-123" with "login" in bold.  The cleaned line contains the match
    text and the pipe driver detects it; the pseudo-terminal driver
    looks for it in the line as read, control sequences included, and
    detects nothing. *)
Theorem pty_driver_matches_line_as_read :
  let rules := {| key_detect := Some [rule (lit "login with code") false []] |} in
  let read := ESC :: lit "[1mlogin" ++ ESC :: lit "[0m with code ABC-123" in
  strip_ansi_codes (Py.strip read) = lit "login with code ABC-123"
  /\ Py.contains (lit "login with code") (strip_ansi_codes (Py.strip read)) = true
  /\ Py.contains (lit "login with code") (Py.strip read) = false
  /\ run_and_detect_windows plain quiet rules (lit "code") None [Ok read] offline
     = (Ok tt,
        log [Print (lit "[+] Starting VSCode tunnel...");
             Popen [lit "code"; lit "tunnel"];
             Print (lit "[>] login with code ABC-123");
             Print (lit "[✓] Detected match: login with code")] offline)
  /\ run_and_detect_unix plain quiet rules (lit "code") None [Ok read] offline
     = (Ok tt,
        log [Spawn (lit "code tunnel");
             Print (lit "[+] Starting VSCode tunnel...");
             Print (lit "[>] login with code ABC-123");
             Print (lit "[!] Process ended")] offline).
Proof. cbv zeta. repeat split; vm_compute; reflexivity. Qed.

(** *** The cursor-movement artifact *)

(** C8 at the failing input: the cleaned line is "^[[BBack to branch B".
    Taking the artifact off its front leaves "Back to branch B"; the
    driver prints, and forwards, "ack to branch ": [strip] takes the
    characters of "^[[B" off both ends, as many as there are. *)
Theorem artifact_trim_takes_text_too :
  let read := lit "^[[BBack to branch B" in
  let rules := {| key_detect := Some [rule (lit "branch") true []] |} in
  let fetched := {| status_code := 200; json_sha := lit "v1";
                    json_content := lit "log" |} in
  let written := {| status_code := 200; json_sha := lit "v2";
                    json_content := [] |} in
  let w := {| network := [Ok fetched; Ok written]; output := [] |} in
  let url := api_url (lit "owner") (lit "repo") (lit "main") (lit "log.txt") in
  strip_ansi_codes (Py.strip read) = lit "^[[B" ++ lit "Back to branch B"
  /\ cleaned_of (Py.strip read) = lit "ack to branch "
  /\ run_and_detect_unix plain quiet rules (lit "code") None [Ok read] w
     = (Ok tt,
        log [Spawn (lit "code tunnel");
             Print (lit "[+] Starting VSCode tunnel...");
             Print (lit "[>] ack to branch ");
             Print (lit "[✓] Detected match: branch");
             HttpGet url (api_headers (lit "t0ken"));
             Print (lit "[+] Updating GitHub file: " ++ url);
             HttpPut url (api_headers (lit "t0ken"))
               {| data_message := lit "Auto-detected: ack to branch";
                  data_content := lit "log" ++ [LF] ++ lit "ack to branch" ++ [LF];
                  data_sha := lit "v1";
                  data_branch := lit "main" |};
             Print (lit "[✓] GitHub file updated successfully.");
             Print (lit "[!] Process ended")] offline).
Proof. cbv zeta. repeat split; vm_compute; reflexivity. Qed.

(** ** Further properties *)

(** *** The stripper (lines 83-87) *)

Lemma sub_skip_ext (r1 r2 : Re.regex) :
  (forall s, Re.match_len r1 s = Re.match_len r2 s) ->
  forall s n, Re.sub_skip r1 n s = Re.sub_skip r2 n s.
Proof.
  intros H. induction s as [|c t IH]; intros n; cbn [Re.sub_skip]; [reflexivity|].
  destruct n as [|n]; [|apply IH].
  rewrite H. destruct (Re.match_len r2 (c :: t)) as [[|m]|]; now rewrite IH.
Qed.

Lemma sub_skip_skipn (r : Re.regex) (s : str) :
  forall n, Re.sub_skip r n s = Re.sub_skip r 0 (skipn n s).
Proof.
  induction s as [|c t IH]; intros [|n]; try reflexivity.
  cbn [Re.sub_skip skipn]. apply IH.
Qed.

(** Where the pattern matches, the match is dropped and the rest is
    stripped. *)
Lemma strip_after_match (m rest : str) :
  Re.rmatch Ansi.ansi_escape Some (m ++ rest) = Some rest ->
  m <> [] ->
  strip_ansi_codes (m ++ rest) = strip_ansi_codes rest.
Proof.
  intros Hm Hne. destruct m as [|c m]; [congruence|].
  unfold strip_ansi_codes, Re.sub_empty. cbn [app Re.sub_skip].
  unfold Re.match_len. cbn [app] in Hm. rewrite Hm.
  cbn [length]. rewrite length_app.
  replace (S (length m + length rest) - length rest) with (S (length m)) by lia.
  rewrite sub_skip_skipn. now rewrite skipn_length_app.
Qed.

Lemma two_char_match (c : ascii) (t : str) :
  two_char_final c = true ->
  Re.rmatch Ansi.ansi_escape Some (ESC :: c :: t) = Some t.
Proof.
  intros Hc. unfold Ansi.ansi_escape, Ansi.two_char, Ansi.lit1.
  cbn [Re.rmatch]. unfold two_char_final in Hc.
  rewrite (Ascii.eqb_refl ESC : Re.accepts (Re.Char ESC) ESC = true).
  now rewrite Hc.
Qed.

Lemma two_char_excludes (c : ascii) :
  two_char_final c = false ->
  Re.accepts (Re.Char "]") c = false
  /\ Re.accepts (Re.Union (Re.Char "P") (Re.Union (Re.Char "^") (Re.Char "_"))) c
     = false.
Proof.
  intros Hc. cbn [Re.accepts].
  destruct (Ascii.eqb_spec c "]") as [->|_]; [discriminate Hc|].
  destruct (Ascii.eqb_spec c "P") as [->|_]; [discriminate Hc|].
  destruct (Ascii.eqb_spec c "^") as [->|_]; [discriminate Hc|].
  destruct (Ascii.eqb_spec c "_") as [->|_]; [discriminate Hc|].
  now split.
Qed.

Lemma rmatch_without_osc_dcs (s : str) :
  Re.rmatch Ansi.ansi_escape Some s
  = Re.rmatch (Re.Alt Ansi.two_char Ansi.csi) Some s.
Proof.
  destruct s as [|c0 [|c1 t]]; try reflexivity.
  - destruct (Ascii.eqb_spec c0 ESC) as [->|Hc]; [reflexivity|].
    rewrite match_starts_with_ESC by exact Hc.
    apply Ascii.eqb_neq in Hc. cbn [Re.rmatch Ansi.two_char Ansi.csi Ansi.lit1 Re.accepts].
    now rewrite Hc.
  - destruct (Ascii.eqb_spec c0 ESC) as [->|Hc].
    + destruct (two_char_final c1) eqn:Hfin.
      * rewrite two_char_match by exact Hfin.
        unfold Ansi.two_char, Ansi.lit1. cbn [Re.rmatch].
        rewrite (Ascii.eqb_refl ESC : Re.accepts (Re.Char ESC) ESC = true).
        unfold two_char_final in Hfin. now rewrite Hfin.
      * destruct (two_char_excludes c1 Hfin) as [Hosc Hdcs].
        unfold Ansi.ansi_escape, Ansi.osc, Ansi.dcs, Ansi.lit1.
        cbn [Re.rmatch].
        rewrite (Ascii.eqb_refl ESC : Re.accepts (Re.Char ESC) ESC = true).
        rewrite Hosc, Hdcs. unfold Re.orelse.
        destruct (Re.rmatch Ansi.two_char Some (ESC :: c1 :: t));
          [reflexivity|].
        now destruct (Re.rmatch Ansi.csi Some (ESC :: c1 :: t)).
    + rewrite match_starts_with_ESC by exact Hc.
      apply Ascii.eqb_neq in Hc.
      cbn [Re.rmatch Ansi.two_char Ansi.csi Ansi.lit1 Re.accepts].
      now rewrite Hc.
Qed.

(** X1: the third and the fourth alternative of the pattern (the
    sequences ended by BEL or by ESC \) never decide a match: the
    stripper removes what the first two alternatives alone remove. *)
Theorem osc_dcs_alternatives_never_match (s : str) :
  strip_ansi_codes s = Re.sub_empty (Re.Alt Ansi.two_char Ansi.csi) s.
Proof.
  unfold strip_ansi_codes, Re.sub_empty. apply sub_skip_ext.
  intros s'. unfold Re.match_len. now rewrite rmatch_without_osc_dcs.
Qed.

(** A character other than ESC starts no match and is kept. *)
Lemma strip_cons_clean (c : ascii) (rest : str) :
  c <> ESC -> strip_ansi_codes (c :: rest) = c :: strip_ansi_codes rest.
Proof.
  intros Hc. unfold strip_ansi_codes, Re.sub_empty. cbn [Re.sub_skip].
  unfold Re.match_len. now rewrite match_starts_with_ESC.
Qed.

Lemma strip_app_clean (before rest : str) :
  ~ In ESC before ->
  strip_ansi_codes (before ++ rest) = before ++ strip_ansi_codes rest.
Proof.
  induction before as [|c t IH]; intros Hclean; [reflexivity|].
  cbn [app]. rewrite strip_cons_clean.
  - f_equal. apply IH. intros Hin. apply Hclean. now right.
  - intros ->. apply Hclean. now left.
Qed.

(** X2: the text before the first ESC is left as it is. *)
Theorem strip_keeps_text_before_ESC (before rest : str)
    (Hclean : ~ In ESC before) :
  strip_ansi_codes (before ++ rest) = before ++ strip_ansi_codes rest.
Proof.
  induction before as [|c before IH]; cbn [app].
  - reflexivity.
  - assert (Hc : c <> ESC) by (intros ->; apply Hclean; now left).
    rewrite (strip_cons_clean c (before ++ rest) Hc).
    f_equal. apply IH. intros Hin. apply Hclean. now right.
Qed.

Lemma strip_keeps_text_before_ESC_witness :
  strip_ansi_codes (lit "ready " ++ ESC :: lit "[0m")
  = lit "ready " ++ strip_ansi_codes (ESC :: lit "[0m").
Proof.
  apply (strip_keeps_text_before_ESC (lit "ready ") (ESC :: lit "[0m")).
  cbn. intros H. repeat (destruct H as [H|H]; [discriminate H|]). exact H.
Defined.

(** X3: ESC and a character of [@-Z\-_] are removed, and no more: of
    a title sequence ESC ] text BEL only the two characters at its
    front go, the text and the BEL stay. *)
Theorem osc_payload_survives (payload rest : str)
    (Hclean : ~ In ESC payload) :
  strip_ansi_codes (ESC :: "]"%char :: payload ++ BEL :: rest)
  = payload ++ BEL :: strip_ansi_codes rest.
Proof.
  change (ESC :: "]"%char :: payload ++ BEL :: rest)
    with ([ESC; "]"%char] ++ (payload ++ BEL :: rest)).
  rewrite strip_after_match.
  - rewrite strip_app_clean by exact Hclean.
    change (BEL :: rest) with ([BEL] ++ rest).
    rewrite (strip_app_clean [BEL] rest); [reflexivity|].
    intros [H|[]]; discriminate H.
  - now apply two_char_match.
  - discriminate.
Qed.

Lemma osc_payload_survives_witness :
  strip_ansi_codes (ESC :: "]"%char :: lit "0;title" ++ BEL :: lit "$ ")
  = lit "0;title" ++ BEL :: lit "$ ".
Proof.
  rewrite (osc_payload_survives (lit "0;title") (lit "$ ")).
  - reflexivity.
  - cbn. intros H. repeat (destruct H as [H|H]; [discriminate H|]). exact H.
Defined.

Lemma star_takes_all (cs : Re.cset) (k : str -> option str)
    (params : str) (c : ascii) (t r : str) :
  forallb (Re.accepts cs) params = true ->
  Re.accepts cs c = false ->
  k (c :: t) = Some r ->
  Re.star cs k (params ++ c :: t) = Some r.
Proof.
  intros Hp Hc Hk. induction params as [|p ps IH]; cbn [app Re.star].
  - now rewrite Hc.
  - cbn [forallb] in Hp. apply andb_prop in Hp as [Hp Hps].
    rewrite Hp, (IH Hps). reflexivity.
Qed.

(** A letter is no parameter character. *)
Lemma csi_final_no_parameter (c : ascii) :
  csi_final c = true -> csi_parameter c = false /\ Ascii.eqb c "0" = false.
Proof.
  unfold csi_final, csi_parameter. cbn [Re.accepts]. unfold Py.between.
  change (ord "a") with 97%N. change (ord "z") with 122%N.
  change (ord "A") with 65%N. change (ord "Z") with 90%N.
  change (ord "0") with 48%N. change (ord "9") with 57%N.
  intros H.
  destruct (Ascii.eqb_spec c ";") as [->|_]; [discriminate H|].
  destruct (Ascii.eqb_spec c "0") as [->|_]; [discriminate H|].
  split; [|reflexivity]. rewrite orb_false_r.
  apply orb_prop in H as [H|H]; apply andb_prop in H as [H1 H2];
    apply N.leb_le in H1, H2; apply andb_false_iff;
    right; apply N.leb_gt; lia.
Qed.

Lemma csi_tail_match (params : str) (final : ascii) (rest : str) :
  forallb csi_parameter params = true ->
  csi_final final = true ->
  Re.rmatch (Re.Seq (Re.Star (Re.Union (Re.Range "0" "9") (Re.Char ";")))
               (Re.One (Re.Union (Re.Range "a" "z") (Re.Range "A" "Z"))))
    Some (params ++ final :: rest)
  = Some rest.
Proof.
  intros Hp Hf. destruct (csi_final_no_parameter final Hf) as [Hnp _].
  cbn [Re.rmatch]. apply star_takes_all; [exact Hp | exact Hnp |].
  unfold csi_final in Hf. now rewrite Hf.
Qed.

Lemma opt_then (cs : Re.cset) (k : str -> option str) (s r : str) :
  k s = Some r ->
  (forall c t, s = c :: t -> Re.accepts cs c = true -> k t = Some r) ->
  Re.rmatch (Re.Opt cs) k s = Some r.
Proof.
  intros Hk Hskip. cbn [Re.rmatch]. destruct s as [|c t]; [exact Hk|].
  destruct (Re.accepts cs c) eqn:E; [|exact Hk].
  now rewrite (Hskip c t eq_refl E).
Qed.

Lemma csi_match (params : str) (final : ascii) (rest : str) :
  forallb csi_parameter params = true ->
  csi_final final = true ->
  Re.rmatch Ansi.ansi_escape Some (ESC :: "["%char :: params ++ final :: rest)
  = Some rest.
Proof.
  intros Hp Hf. destruct (csi_final_no_parameter final Hf) as [_ Hn0].
  assert (Hcsi : Re.rmatch Ansi.csi Some
                   (ESC :: "["%char :: params ++ final :: rest) = Some rest).
  { change (Re.rmatch Ansi.csi Some (ESC :: "["%char :: params ++ final :: rest))
      with (Re.rmatch (Re.Opt (Re.Char "0"))
              (Re.rmatch
                 (Re.Seq (Re.Star (Re.Union (Re.Range "0" "9") (Re.Char ";")))
                    (Re.One (Re.Union (Re.Range "a" "z") (Re.Range "A" "Z"))))
                 Some)
              (params ++ final :: rest)).
    apply opt_then; [now apply csi_tail_match|].
    intros c t E Hc. destruct params as [|p ps]; cbn [app] in E.
    - injection E as <- <-. cbn [Re.accepts] in Hc. congruence.
    - injection E as <- <-. cbn [forallb] in Hp.
      apply andb_prop in Hp as [_ Hps]. now apply csi_tail_match. }
  change (Re.rmatch Ansi.ansi_escape Some
            (ESC :: "["%char :: params ++ final :: rest))
    with (Re.orelse
            (Re.rmatch Ansi.two_char Some
               (ESC :: "["%char :: params ++ final :: rest))
            (Re.orelse
               (Re.rmatch Ansi.csi Some
                  (ESC :: "["%char :: params ++ final :: rest))
               (Re.rmatch (Re.Alt Ansi.osc Ansi.dcs) Some
                  (ESC :: "["%char :: params ++ final :: rest)))).
  rewrite Hcsi. reflexivity.
Qed.

(** X4: a sequence ESC [ parameters letter, the parameters being
    digits and semicolons, is removed whole and the stripping goes on
    behind it. *)
Theorem strip_removes_csi (params : str) (final : ascii) (rest : str)
    (Hparams : forallb csi_parameter params = true)
    (Hfinal : csi_final final = true) :
  strip_ansi_codes (ESC :: "["%char :: params ++ final :: rest)
  = strip_ansi_codes rest.
Proof.
  replace (ESC :: "["%char :: params ++ final :: rest)
    with ((ESC :: "["%char :: params ++ [final]) ++ rest).
  - apply strip_after_match; [|discriminate].
    cbn [app]. rewrite <- app_assoc. cbn [app]. now apply csi_match.
  - cbn [app]. rewrite <- app_assoc. reflexivity.
Qed.

Lemma strip_removes_csi_witness :
  strip_ansi_codes (ESC :: "["%char :: lit "1;31" ++ "m"%char :: lit "error")
  = lit "error".
Proof.
  rewrite (strip_removes_csi (lit "1;31") "m" (lit "error")); reflexivity.
Defined.

Lemma thinned_refl (s : str) : thinned s s.
Proof. induction s; constructor; assumption. Qed.

Lemma sub_skip_thins (r : Re.regex) (s : str) :
  forall n, thinned (Re.sub_skip r n s) s.
Proof.
  induction s as [|c t IH]; intros n; cbn [Re.sub_skip]; [constructor|].
  destruct n as [|n]; [|constructor; apply IH].
  destruct (Re.match_len r (c :: t)) as [[|m]|]; constructor; apply IH.
Qed.

(** X5: the stripper only takes characters out: what it returns is the
    text with some characters removed, none added, none moved, and is
    never longer than the text. *)
Theorem strip_only_removes (s : str) :
  thinned (strip_ansi_codes s) s
  /\ length (strip_ansi_codes s) <= length s.
Proof.
  split.
  - apply sub_skip_thins.
  - pose proof (sub_skip_length Ansi.ansi_escape s 0) as H.
    unfold strip_ansi_codes, Re.sub_empty. cbn in H. lia.
Qed.

(** *** Stripping twice *)

Lemma star_accepted (cs : Re.cset) (k : str -> option str) (s rest : str) :
  Re.star cs k s = Some rest ->
  exists p s', s = p ++ s' /\ forallb (Re.accepts cs) p = true
               /\ k s' = Some rest.
Proof.
  revert rest. induction s as [|c t IH]; intros rest; cbn [Re.star].
  - intros H. now exists [], [].
  - destruct (Re.accepts cs c) eqn:Hc.
    + unfold Re.orelse. destruct (Re.star cs k t) as [r|] eqn:E.
      * intros [= <-]. destruct (IH r eq_refl) as (p & s' & -> & Hp & Hk).
        exists (c :: p), s'. cbn [forallb app]. now rewrite Hc.
      * intros H. now exists [], (c :: t).
    + intros H. now exists [], (c :: t).
Qed.

(** What [csi] matches behind ESC and the bracket. *)
Lemma csi_tail_shape (t rest : str) :
  Re.rmatch (Re.Opt (Re.Char "0"))
    (Re.rmatch
       (Re.Seq (Re.Star (Re.Union (Re.Range "0" "9") (Re.Char ";")))
          (Re.One (Re.Union (Re.Range "a" "z") (Re.Range "A" "Z"))))
       Some) t = Some rest ->
  exists params final,
    t = params ++ final :: rest
    /\ forallb csi_parameter params = true /\ csi_final final = true.
Proof.
  set (K := Re.rmatch
              (Re.Seq (Re.Star (Re.Union (Re.Range "0" "9") (Re.Char ";")))
                 (Re.One (Re.Union (Re.Range "a" "z") (Re.Range "A" "Z"))))
              Some).
  assert (Htail : forall u,
            K u = Some rest ->
            exists params final,
              u = params ++ final :: rest
              /\ forallb csi_parameter params = true /\ csi_final final = true).
  { intros u H. unfold K in H. cbn [Re.rmatch] in H.
    apply star_accepted in H as (p & s' & -> & Hp & Hone).
    destruct s' as [|final s']; [discriminate Hone|].
    destruct (Re.accepts (Re.Union (Re.Range "a" "z") (Re.Range "A" "Z")) final)
      eqn:Hfinal; [|discriminate Hone].
    injection Hone as ->. now exists p, final. }
  cbn [Re.rmatch]. destruct t as [|c t]; [apply Htail|].
  destruct (Re.accepts (Re.Char "0") c) eqn:Hzero; [|apply Htail].
  unfold Re.orelse. destruct (K t) as [r|] eqn:E.
  - intros [= <-].
    destruct (Htail t E) as (params & final & -> & Hp & Hf).
    exists (c :: params), final. cbn [app forallb]. rewrite Hp.
    cbn [Re.accepts] in Hzero. apply Ascii.eqb_eq in Hzero. subst c.
    now repeat split.
  - apply Htail.
Qed.

(** The pattern matches at the front of a text exactly when a control
    sequence of one of the two shapes stands there. *)
Lemma sequence_here_at (s : str) : sequence_here s = true <-> sequence_at s.
Proof.
  unfold sequence_here, Re.match_len. split.
  - destruct (Re.rmatch Ansi.ansi_escape Some s) as [rest|] eqn:E;
      [intros _ | discriminate].
    destruct s as [|c0 [|c1 t]]; [discriminate E | |].
    { destruct (Ascii.eqb_spec c0 ESC) as [->|Hc]; [discriminate E|].
      now rewrite match_starts_with_ESC in E. }
    destruct (Ascii.eqb_spec c0 ESC) as [->|Hc];
      [|now rewrite match_starts_with_ESC in E].
    destruct (two_char_final c1) eqn:Hfin; [now constructor|].
    rewrite rmatch_without_osc_dcs in E.
    unfold Ansi.two_char, Ansi.lit1 in E. cbn [Re.rmatch] in E.
    rewrite (Ascii.eqb_refl ESC : Re.accepts (Re.Char ESC) ESC = true) in E.
    unfold two_char_final in Hfin. rewrite Hfin in E.
    cbn [Re.orelse] in E.
    change (Re.rmatch Ansi.csi Some (ESC :: c1 :: t))
      with (if Re.accepts (Re.Char "[") c1
            then Re.rmatch (Re.Opt (Re.Char "0"))
                   (Re.rmatch
                      (Re.Seq (Re.Star (Re.Union (Re.Range "0" "9") (Re.Char ";")))
                         (Re.One (Re.Union (Re.Range "a" "z") (Re.Range "A" "Z"))))
                      Some) t
            else None) in E.
    destruct (Re.accepts (Re.Char "[") c1) eqn:Hbracket; [|discriminate E].
    cbn [Re.accepts] in Hbracket. apply Ascii.eqb_eq in Hbracket. subst c1.
    apply csi_tail_shape in E as (params & final & -> & Hp & Hf).
    now constructor.
  - intros [c rest Hc | params final rest Hp Hf].
    + now rewrite two_char_match.
    + now rewrite csi_match.
Qed.

Lemma has_sequence_iff (s : str) :
  has_sequence s = true
  <-> exists before from, s = before ++ from /\ sequence_at from.
Proof.
  split.
  - induction s as [|c t IH]; cbn [has_sequence]; intros H.
    + rewrite orb_false_r in H. exists [], []. split; [reflexivity|].
      now apply sequence_here_at.
    + apply orb_prop in H as [H|H].
      * exists [], (c :: t). split; [reflexivity|]. now apply sequence_here_at.
      * destruct (IH H) as (before & from & -> & Hat).
        now exists (c :: before), from.
  - intros (before & from & -> & Hat).
    induction before as [|c before IH]; cbn [app].
    + apply sequence_here_at in Hat.
      destruct from; cbn [has_sequence]; now rewrite Hat.
    + cbn [has_sequence]. rewrite IH. apply orb_true_r.
Qed.

Lemma sequence_free_iff (s : str) : sequence_free s <-> has_sequence s = false.
Proof.
  unfold sequence_free. split.
  - intros H. destruct (has_sequence s) eqn:E; [|reflexivity].
    apply has_sequence_iff in E as (before & from & -> & Hat).
    apply sequence_here_at in Hat. unfold sequence_here in Hat.
    now rewrite (H before from eq_refl) in Hat.
  - intros H before from ->.
    destruct (Re.match_len Ansi.ansi_escape from) as [n|] eqn:E; [|reflexivity].
    assert (Hhas : has_sequence (before ++ from) = true).
    { apply has_sequence_iff. exists before, from. split; [reflexivity|].
      apply sequence_here_at. unfold sequence_here. now rewrite E. }
    congruence.
Qed.

(** C2, amended: stripping twice is stripping once exactly on the
    inputs whose stripped form holds no control sequence: no ESC
    followed by a character of [@-Z\-_], and no ESC followed by an
    opening bracket, digits and semicolons, and a letter.  So it is on
    every input whose stripped form has no ESC, and a text without ESC
    is left as it is. *)
Theorem strip_idempotent_exactly (x : str) :
  (strip_ansi_codes (strip_ansi_codes x) = strip_ansi_codes x
   <-> ~ exists before from,
           strip_ansi_codes x = before ++ from /\ sequence_at from)
  /\ (~ In ESC (strip_ansi_codes x) ->
      strip_ansi_codes (strip_ansi_codes x) = strip_ansi_codes x)
  /\ (~ In ESC x -> strip_ansi_codes x = x).
Proof.
  split; [|split].
  - rewrite strip_twice_iff, sequence_free_iff. split.
    + intros H Hex. apply has_sequence_iff in Hex. congruence.
    + intros H. destruct (has_sequence (strip_ansi_codes x)) eqn:E;
        [|reflexivity].
      exfalso. apply H. now apply has_sequence_iff.
  - apply strip_clean_text.
  - apply strip_clean_text.
Qed.

Lemma strip_idempotent_exactly_witness :
  let x := lit "a" ++ ESC :: lit "[?25l b" in
  In ESC (strip_ansi_codes x)
  /\ strip_ansi_codes (strip_ansi_codes x) = strip_ansi_codes x.
Proof.
  intros x. split; [vm_compute; tauto|].
  apply (proj1 (strip_idempotent_exactly x)).
  intros Hex. apply has_sequence_iff in Hex. vm_compute in Hex.
  discriminate Hex.
Defined.

(** *** The remote log updater (lines 135-168) *)

(** X6: whatever the remote answers to the write, the update returns
    normally after that one write: a status 200 or 201 is printed as
    success, any other status as the failure of the PUT; nothing is
    tried again. *)
Theorem write_outcome_is_reported (base64 : codec) (cfg : settings)
    (message token owner name br file : str) (w : world)
    (r put : response) (rest : list (result response)) (old : str)
    (Hnet : network w = Ok r :: Ok put :: rest)
    (Hstatus : status_code r = 200%Z)
    (Hdecode : b64decode_text base64 (json_content r) = Ok old) :
  let url := api_url owner name br file in
  let data := {| data_message := lit "Auto-detected: " ++ Py.strip message;
                 data_content :=
                   b64encode_text base64 (old ++ [LF] ++ Py.strip message ++ [LF]);
                 data_sha := json_sha r;
                 data_branch := br |} in
  let accepted := ((status_code put =? 200) || (status_code put =? 201))%Z in
  update_github_file base64 cfg message token owner name br file w
  = (Ok tt,
     {| network := rest;
        output := output w
          ++ debug_events cfg (lit "Fetching file from GitHub: " ++ url)
          ++ [HttpGet url (api_headers token)]
          ++ debug_events cfg (lit "Updating GitHub file with new content")
          ++ [Print (lit "[+] Updating GitHub file: " ++ url);
              HttpPut url (api_headers token) data]
          ++ (if accepted
              then [Print (lit "[✓] GitHub file updated successfully.")]
                   ++ debug_events cfg
                        (lit "GitHub file updated successfully at " ++ url)
              else [Print (lit "[!] GitHub PUT failed: "
                           ++ Py.str_of_int (status_code put))]
                   ++ debug_events cfg
                        (lit "GitHub PUT failed with status: "
                         ++ Py.str_of_int (status_code put))) |}).
Proof.
  intros url data accepted. unfold update_github_file.
  erewrite bind_ok by apply debug_print_run.
  erewrite bind_ok by (apply request_run; cbn [log network]; exact Hnet).
  rewrite Hstatus. cbn [Z.eqb Pos.eqb negb].
  erewrite bind_ok by (unfold lift; rewrite Hdecode; reflexivity).
  erewrite bind_ok by apply debug_print_run.
  erewrite bind_ok by apply print_run.
  erewrite bind_ok by (apply request_run; reflexivity).
  fold url data accepted. unfold log. cbn [network output].
  destruct accepted; run; unfold log; cbn [network output];
    rewrite <- !app_assoc; reflexivity.
Qed.

Lemma write_outcome_is_reported_witness :
  let fetched := {| status_code := 200; json_sha := lit "v1";
                    json_content := lit "log" |} in
  let conflict := {| status_code := 409; json_sha := []; json_content := [] |} in
  let w := {| network := [Ok fetched; Ok conflict]; output := [] |} in
  fst (update_github_file plain quiet (lit "line") (lit "t0ken") (lit "owner")
         (lit "repo") (lit "main") (lit "log.txt") w) = Ok tt.
Proof.
  intros fetched conflict w.
  rewrite (write_outcome_is_reported plain quiet (lit "line") (lit "t0ken")
             (lit "owner") (lit "repo") (lit "main") (lit "log.txt") w
             fetched conflict [] (lit "log") eq_refl eq_refl eq_refl).
  reflexivity.
Defined.

(** X7: the update does not catch what a request raises.  When the
    fetch raises, the update raises the same after that one request,
    and writes nothing; when the write raises, the update raises the
    same after the fetch and the write. *)
Theorem request_failure_leaves_update (base64 : codec) (cfg : settings)
    (message token owner name br file : str) (w : world) (e : exn) :
  (forall rest, network w = Raise e :: rest ->
     let w' := snd (update_github_file base64 cfg message token owner name
                      br file w) in
     fst (update_github_file base64 cfg message token owner name br file w)
     = Raise e
     /\ requests_of (output w')
        = requests_of (output w)
          ++ [HttpGet (api_url owner name br file) (api_headers token)])
  /\
  (forall r rest old,
     network w = Ok r :: Raise e :: rest ->
     status_code r = 200%Z ->
     b64decode_text base64 (json_content r) = Ok old ->
     fst (update_github_file base64 cfg message token owner name br file w)
     = Raise e).
Proof.
  split.
  - intros rest Hnet. unfold update_github_file.
    erewrite bind_ok by apply debug_print_run.
    erewrite bind_raise by (apply request_run; cbn [log network]; exact Hnet).
    cbn [fst snd output log]. split; [reflexivity|].
    rewrite !requests_of_app, requests_of_debug, app_nil_r. reflexivity.
  - intros r rest old Hnet Hstatus Hdecode. unfold update_github_file.
    erewrite bind_ok by apply debug_print_run.
    erewrite bind_ok by (apply request_run; cbn [log network]; exact Hnet).
    rewrite Hstatus. cbn [Z.eqb Pos.eqb negb].
    erewrite bind_ok by (unfold lift; rewrite Hdecode; reflexivity).
    erewrite bind_ok by apply debug_print_run.
    erewrite bind_ok by apply print_run.
    erewrite bind_raise by (apply request_run; reflexivity).
    reflexivity.
Qed.

Lemma request_failure_leaves_update_witness :
  let timeout := Error (lit "Read timed out.") in
  let w := {| network := [Raise timeout]; output := [] |} in
  fst (update_github_file plain quiet (lit "line") (lit "t0ken") (lit "owner")
         (lit "repo") (lit "main") (lit "log.txt") w) = Raise timeout.
Proof.
  intros timeout w.
  destruct (request_failure_leaves_update plain quiet (lit "line") (lit "t0ken")
              (lit "owner") (lit "repo") (lit "main") (lit "log.txt") w timeout)
    as [H _].
  exact (proj1 (H [] eq_refl)).
Defined.

(** *** The drivers (lines 171-291) *)

Lemma offline_ret {A} (a : A) : stays_offline (ret a).
Proof. intros w. now split. Qed.

Lemma offline_lift {A} (r : result A) : stays_offline (lift r).
Proof. intros w. now split. Qed.

Lemma offline_raise {A} (e : exn) : stays_offline (@raise A e).
Proof. intros w. now split. Qed.

Lemma offline_bind {A B} (m : M A) (f : A -> M B) :
  stays_offline m -> (forall a, stays_offline (f a)) -> stays_offline (bind m f).
Proof.
  intros Hm Hf w. unfold bind. destruct (Hm w) as [Hn Hr].
  destruct (m w) as [[a|e] w1]; cbn [snd] in *.
  - destruct (Hf a w1) as [Hn' Hr']. split; congruence.
  - now split.
Qed.

Lemma offline_emit (ev : event) : is_request ev = false -> stays_offline (emit ev).
Proof.
  intros Hev w. cbn. split; [reflexivity|].
  rewrite requests_of_app. cbn. rewrite Hev. apply app_nil_r.
Qed.

Lemma offline_debug_print (cfg : settings) (message : str) :
  stays_offline (debug_print cfg message).
Proof.
  unfold debug_print. destruct (dict_get (debug cfg) false);
    [now apply offline_emit | apply offline_ret].
Qed.

Lemma offline_item {A} (l : list A) (i : nat) : stays_offline (item l i).
Proof.
  unfold item. destruct (nth_error l i); [apply offline_ret | apply offline_raise].
Qed.

Lemma offline_for_each {A} (l : list A) (body : A -> M unit) :
  Forall (fun x => stays_offline (body x)) l -> stays_offline (for_each l body).
Proof.
  induction 1 as [|x l Hx Hl IH]; cbn [for_each].
  - apply offline_ret.
  - apply offline_bind; [exact Hx | intros _; exact IH].
Qed.

Lemma offline_launch (failure : option str) : stays_offline (launch failure).
Proof. destruct failure; [apply offline_raise | apply offline_ret]. Qed.

Create HintDb offline.
#[local] Hint Resolve offline_ret offline_lift offline_raise offline_debug_print
  offline_item offline_launch : offline.
#[local] Hint Extern 1 (stays_offline (emit _)) =>
  apply offline_emit; reflexivity : offline.
#[local] Hint Extern 1 (stays_offline (print _)) =>
  apply offline_emit; reflexivity : offline.

Ltac offline_steps :=
  repeat first
    [ solve [auto with offline]
    | match goal with
      | |- stays_offline (if ?b then _ else _) => destruct b
      | |- stays_offline (bind _ _) => apply offline_bind; [|intros ?]
      end ].

Lemma offline_react_windows (cfg : settings) (action : str) :
  stays_offline (react_windows cfg action).
Proof. unfold react_windows. offline_steps. Qed.

Lemma offline_react_unix (cfg : settings) (action : str) :
  stays_offline (react_unix cfg action).
Proof. unfold react_unix. offline_steps. Qed.

Lemma offline_reactions (cfg : settings) (actions : list str) :
  stays_offline (for_each actions (react_windows cfg))
  /\ stays_offline (for_each actions (react_unix cfg)).
Proof.
  split; apply offline_for_each, Forall_forall; intros a _;
    [apply offline_react_windows | apply offline_react_unix].
Qed.

Lemma offline_detect (base64 : codec) (cfg : settings) (text : str)
    (d : detector) :
  dict_get (key_upload d) false = false ->
  stays_offline (detect_windows base64 cfg text d)
  /\ stays_offline (detect_unix base64 cfg text d).
Proof.
  intros Hd. unfold detect_windows, detect_unix, apply_windows, apply_unix.
  rewrite Hd.
  destruct (offline_reactions cfg (dict_get (key_action d) [])) as [Hw Hu].
  split; offline_steps; assumption.
Qed.

Lemma offline_rules (base64 : codec) (cfg : settings) (text : str)
    (rules : list detector) :
  never_forwards rules ->
  stays_offline (for_each rules (detect_windows base64 cfg text))
  /\ stays_offline (for_each rules (detect_unix base64 cfg text)).
Proof.
  intros Hrules. split; apply offline_for_each;
    (eapply Forall_impl; [|exact Hrules]); intros d Hd;
    now apply offline_detect.
Qed.

Lemma offline_clean_line (cfg : settings) (line : str) :
  stays_offline (clean_line cfg line).
Proof. unfold clean_line. offline_steps. Qed.

Lemma offline_loop_windows (base64 : codec) (cfg : settings) (rules : rule_set)
    (stdout : list (result str)) :
  never_forwards (dict_get (key_detect rules) []) ->
  stays_offline (loop_windows base64 cfg rules stdout).
Proof.
  intros Hrules. induction stdout as [|read rest IH]; cbn [loop_windows].
  - apply offline_ret.
  - offline_steps. now apply offline_rules.
Qed.

Lemma offline_except_unix (e : exn) : stays_offline (except_unix e).
Proof. destruct e; now apply offline_emit. Qed.

Lemma offline_loop_unix (base64 : codec) (cfg : settings) (rules : rule_set)
    (expects : list (result str)) :
  never_forwards (dict_get (key_detect rules) []) ->
  stays_offline (loop_unix base64 cfg rules expects).
Proof.
  intros Hrules. induction expects as [|expect rest IH]; cbn [loop_unix].
  - apply offline_except_unix.
  - assert (Hit : stays_offline (iteration_unix base64 cfg rules expect)).
    { unfold iteration_unix. pose proof (offline_clean_line cfg) as Hc.
      offline_steps. now apply offline_rules. }
    intros w. destruct (Hit w) as [Hn Hr].
    destruct (iteration_unix base64 cfg rules expect w) as [[[]|e] w1];
      cbn [snd] in *.
    + destruct (IH w1) as [Hn' Hr']. split; congruence.
    + destruct (offline_except_unix e w1) as [Hn' Hr']. split; congruence.
Qed.

(** X8: a rule set none of whose rules has [upload] set never reaches
    the remote: over a whole session of either driver no request is
    made and no answer of the remote is used, whatever the child
    writes. *)
Theorem rules_without_upload_stay_offline (base64 : codec) (cfg : settings)
    (rules : rule_set) (cli_bin : str) (failure : option str)
    (child : list (result str))
    (Hrules : never_forwards (dict_get (key_detect rules) [])) :
  stays_offline (run_and_detect_windows base64 cfg rules cli_bin failure child)
  /\ stays_offline (run_and_detect_unix base64 cfg rules cli_bin failure child).
Proof.
  unfold run_and_detect_windows, run_and_detect_unix. split; offline_steps.
  - now apply offline_loop_windows.
  - now apply offline_loop_unix.
Qed.

Lemma rules_without_upload_stay_offline_witness :
  let rules := {| key_detect :=
                    Some [rule (lit "Allow") false [lit "string:y"; lit "enter"];
                          {| key_match := Some (Some (lit "code"));
                             key_upload := None; key_action := None |}] |} in
  let answer := {| status_code := 200; json_sha := lit "v1"; json_content := [] |} in
  let w := {| network := [Ok answer]; output := [] |} in
  network (snd (run_and_detect_unix plain quiet rules (lit "code") None
                  [Ok (lit "Allow code?")] w)) = [Ok answer].
Proof.
  intros rules answer w.
  destruct (rules_without_upload_stay_offline plain quiet rules (lit "code")
              None [Ok (lit "Allow code?")]) as [_ H].
  - repeat constructor.
  - exact (proj1 (H w)).
Defined.


Lemma except_unix_run (e : exn) (w : world) :
  except_unix e w = (Ok tt, log [Print (ending e)] w).
Proof. destruct e; reflexivity. Qed.

Lemma loop_unix_first_failure (base64 : codec) (cfg : settings)
    (rules : rule_set) (before : list (result str)) :
  forall (expect : result str) (later : list (result str))
         (w w0 w1 : world) (e : exn),
    for_each before (iteration_unix base64 cfg rules) w = (Ok tt, w0) ->
    iteration_unix base64 cfg rules expect w0 = (Raise e, w1) ->
    loop_unix base64 cfg rules (before ++ expect :: later) w
    = (Ok tt, log [Print (ending e)] w1).
Proof.
  induction before as [|read before IH]; intros expect later w w0 w1 e Hbefore Hit;
    cbn [app loop_unix for_each] in *.
  - injection Hbefore as <-. rewrite Hit. apply except_unix_run.
  - unfold bind in Hbefore.
    destruct (iteration_unix base64 cfg rules read w) as [[[]|e'] w'];
      [|discriminate Hbefore].
    now apply (IH expect later w' w0 w1 e).
Qed.

Lemma loop_unix_reads_all (base64 : codec) (cfg : settings)
    (rules : rule_set) (child : list (result str)) :
  forall (w w0 : world),
    for_each child (iteration_unix base64 cfg rules) w = (Ok tt, w0) ->
    loop_unix base64 cfg rules child w
    = (Ok tt, log [Print (lit "[!] Process ended")] w0).
Proof.
  induction child as [|read child IH]; intros w w0 Hall;
    cbn [loop_unix for_each] in *.
  - injection Hall as <-. reflexivity.
  - unfold bind in Hall.
    destruct (iteration_unix base64 cfg rules read w) as [[[]|e'] w'];
      [|discriminate Hall].
    now apply IH.
Qed.

Lemma run_and_detect_unix_started (base64 : codec) (cfg : settings)
    (rules : rule_set) (cli_bin : str) (child : list (result str)) (w : world) :
  run_and_detect_unix base64 cfg rules cli_bin None child w
  = loop_unix base64 cfg rules child
      (log (debug_events cfg
              (lit "Starting VSCode tunnel with binary " ++ cli_bin)
            ++ [Spawn (cli_bin ++ lit " tunnel");
                Print (lit "[+] Starting VSCode tunnel...")]) w).
Proof.
  unfold run_and_detect_unix, launch. run. reflexivity.
Qed.


Lemma run_and_detect_unix_not_started (base64 : codec) (cfg : settings)
    (rules : rule_set) (cli_bin msg : str) (child : list (result str))
    (w : world) :
  run_and_detect_unix base64 cfg rules cli_bin (Some msg) child w
  = (Raise (Error msg),
     log (debug_events cfg
            (lit "Starting VSCode tunnel with binary " ++ cli_bin)
          ++ [Spawn (cli_bin ++ lit " tunnel")]) w).
Proof. unfold run_and_detect_unix, launch. run. reflexivity. Qed.

(** X9: what ends the pseudo-terminal driver.  When the child cannot
    be started, what [pexpect.spawn] raises leaves the function, before
    anything is read.  Once the child runs, the first round of the loop
    that raises (the end of the child's output, an interrupt, a failing
    reaction or request) ends the loop: nothing more is read, the
    driver prints which it was and returns.  A child whose output is
    used up without a round raising ends the loop as [pexpect.EOF]
    does. *)
Theorem pty_driver_ends_at_first_failure (base64 : codec) (cfg : settings)
    (rules : rule_set) (cli_bin : str) (w : world) :
  let started :=
    log (debug_events cfg (lit "Starting VSCode tunnel with binary " ++ cli_bin)
         ++ [Spawn (cli_bin ++ lit " tunnel");
             Print (lit "[+] Starting VSCode tunnel...")]) w in
  (forall (msg : str) (child : list (result str)),
     run_and_detect_unix base64 cfg rules cli_bin (Some msg) child w
     = (Raise (Error msg),
        log (debug_events cfg
               (lit "Starting VSCode tunnel with binary " ++ cli_bin)
             ++ [Spawn (cli_bin ++ lit " tunnel")]) w))
  /\
  (forall (before : list (result str)) (expect : result str)
          (later : list (result str)) (w0 w1 : world) (e : exn),
     for_each before (iteration_unix base64 cfg rules) started = (Ok tt, w0) ->
     iteration_unix base64 cfg rules expect w0 = (Raise e, w1) ->
     run_and_detect_unix base64 cfg rules cli_bin None
       (before ++ expect :: later) w
     = (Ok tt, log [Print (ending e)] w1))
  /\
  (forall (child : list (result str)) (w0 : world),
     for_each child (iteration_unix base64 cfg rules) started = (Ok tt, w0) ->
     run_and_detect_unix base64 cfg rules cli_bin None child w
     = (Ok tt, log [Print (lit "[!] Process ended")] w0)).
Proof.
  cbv zeta. split; [|split].
  - intros msg child. apply run_and_detect_unix_not_started.
  - intros before expect later w0 w1 e Hbefore Hit.
    rewrite run_and_detect_unix_started.
    now apply (loop_unix_first_failure base64 cfg rules before expect later
                 _ w0 w1 e).
  - intros child w0 Hall. rewrite run_and_detect_unix_started.
    now apply loop_unix_reads_all.
Qed.

Lemma pty_driver_ends_at_first_failure_witness :
  run_and_detect_unix plain quiet {| key_detect := None |} (lit "code") None
    [Ok (lit "Open this link"); Raise KeyboardInterrupt; Ok (lit "never read")]
    offline
  = (Ok tt,
     log [Spawn (lit "code tunnel");
          Print (lit "[+] Starting VSCode tunnel...");
          Print (lit "[>] Open this link");
          Print (lit "[X] Interrupted by user")] offline).
Proof.
  destruct (pty_driver_ends_at_first_failure plain quiet {| key_detect := None |}
              (lit "code") offline) as (_ & Hfirst & _).
  set (read := log [Spawn (lit "code tunnel");
                    Print (lit "[+] Starting VSCode tunnel...");
                    Print (lit "[>] Open this link")] offline).
  apply (Hfirst [Ok (lit "Open this link")] (Raise KeyboardInterrupt)
           [Ok (lit "never read")] read read KeyboardInterrupt).
  - vm_compute. reflexivity.
  - reflexivity.
Defined.

Lemma no_rule_matches_nothing (d : detector) : rule_matches [] d = false.
Proof.
  unfold rule_matches. destruct (dict_get (key_match d) None) as [[|c k]|];
    reflexivity.
Qed.

Lemma filter_none {A} (p : A -> bool) (l : list A) :
  (forall x, p x = false) -> filter p l = [].
Proof.
  intros H. induction l as [|x l IH]; [reflexivity|].
  cbn [filter]. now rewrite H.
Qed.

(** X10: no rule fires on a blank line.  The pipe driver prints the
    empty cleaned line and reads on; the pseudo-terminal driver skips
    output that is all white space without printing anything. *)
Theorem blank_output_fires_nothing (base64 : codec) (cfg : settings)
    (rules : rule_set) (read : str) (more : list (result str)) (w : world)
    (Hblank : Py.strip read = []) :
  (Py.is_empty read = false ->
   loop_windows base64 cfg rules (Ok read :: more) w
   = loop_windows base64 cfg rules more (log [Print (lit "[>] ")] w))
  /\
  loop_unix base64 cfg rules (Ok read :: more) w
  = loop_unix base64 cfg rules more w.
Proof.
  split.
  - intros Hread. rewrite pipe_driver_evaluates_cleaned_line by exact Hread.
    cbv zeta. rewrite Hblank.
    rewrite (filter_none _ _ no_rule_matches_nothing).
    change (strip_ansi_codes []) with (@nil ascii). cbn [for_each].
    run. rewrite app_nil_r. reflexivity.
  - cbn [loop_unix]. unfold iteration_unix, lift. unfold bind at 1.
    rewrite Hblank. reflexivity.
Qed.

Lemma blank_output_fires_nothing_witness :
  let rules := {| key_detect := Some [rule (lit " ") true [lit "enter"]] |} in
  loop_unix plain quiet rules [Ok (lit "  " ++ [CR; LF])] offline
  = (Ok tt, log [Print (lit "[!] Process ended")] offline).
Proof.
  intros rules.
  destruct (blank_output_fires_nothing plain quiet rules (lit "  " ++ [CR; LF])
              [] offline eq_refl) as [_ H].
  exact (eq_trans H eq_refl).
Defined.

(** What one reaction adds to the output: events without a pause and,
    unless it raises, the pause at the end. *)
Lemma pauses_app (a b : list event) : pauses (a ++ b) = pauses a + pauses b.
Proof. unfold pauses. now rewrite filter_app, length_app. Qed.

Lemma pauses_debug (cfg : settings) (m : str) : pauses (debug_events cfg m) = 0.
Proof. unfold debug_events. now destruct (dict_get (debug cfg) false). Qed.

Ltac pause_case evs :=
  exists evs; split;
  [ rewrite ?pauses_app, ?pauses_debug; reflexivity
  | first [ left; rewrite <- ?app_assoc; reflexivity
          | right; eexists; reflexivity ] ].

Lemma reaction_then_pause_unix (cfg : settings) (action : str) (w : world) :
  exists evs,
    pauses evs = 0
    /\ (react_unix cfg action w = (Ok tt, log (evs ++ [Sleep]) w)
        \/ exists e, react_unix cfg action w = (Raise e, log evs w)).
Proof.
  destruct (Py.startswith (lit "string:") (Py.lower action)) eqn:Hs.
  { destruct (react_string_run cfg action w Hs) as [Hu _]. rewrite Hu.
    destruct (Py.partition (lit "string:") action) as [[before text]|].
    - pause_case (debug_events cfg (lit "Processing action: " ++ action)
                  ++ [Print (lit "[>] Sending string: " ++ text); Send text]
                  ++ debug_events cfg (lit "Sent string: " ++ text)).
    - pause_case (debug_events cfg (lit "Processing action: " ++ action)). }
  destruct (recognised_unix action) eqn:Hr.
  - unfold recognised_unix in Hr. rewrite Hs, orb_false_r in Hr.
    assert (Hkey : exists line keys sent,
               In (Py.lower action, (line, keys, sent)) named_keys).
    { unfold named_keys.
      repeat (apply orb_prop in Hr as [Hr|Hr]);
        apply str_eqb_eq in Hr; rewrite Hr; do 3 eexists; cbn [In];
        [ left | do 1 right; left | do 2 right; left | do 3 right; left
        | do 4 right; left ]; reflexivity. }
    destruct Hkey as (line & keys & sent & Hin).
    rewrite (named_key_run cfg action w _ _ _ _ Hin eq_refl).
    pause_case (debug_events cfg (lit "Processing action: " ++ action)
                ++ [Print line; Send keys] ++ debug_events cfg sent).
  - rewrite (unknown_reaction_unix cfg action w Hr).
    pause_case (debug_events cfg (lit "Processing action: " ++ action)
                ++ [Print (lit "[!] Unknown action: " ++ action)]
                ++ debug_events cfg (lit "Unknown action: " ++ action)).
Qed.

Lemma reaction_then_pause_windows (cfg : settings) (action : str) (w : world) :
  exists evs,
    pauses evs = 0
    /\ (react_windows cfg action w = (Ok tt, log (evs ++ [Sleep]) w)
        \/ exists e, react_windows cfg action w = (Raise e, log evs w)).
Proof.
  destruct (Py.startswith (lit "string:") (Py.lower action)) eqn:Hs.
  { destruct (react_string_run cfg action w Hs) as [_ Hw]. rewrite Hw.
    destruct (Py.partition (lit "string:") action) as [[before text]|].
    - pause_case (debug_events cfg (lit "Processing action: " ++ action)
                  ++ [StdinWrite text; StdinFlush]
                  ++ debug_events cfg (lit "Sent string: " ++ text)).
    - pause_case (debug_events cfg (lit "Processing action: " ++ action)). }
  destruct (recognised_windows action) eqn:Hr.
  - unfold recognised_windows in Hr. rewrite Hs, orb_false_r in Hr.
    apply str_eqb_eq in Hr. rewrite (enter_run_windows cfg action w Hr).
    pause_case (debug_events cfg (lit "Processing action: " ++ action)
                ++ [StdinWrite [LF]; StdinFlush]
                ++ debug_events cfg (lit "Sent Enter")).
  - rewrite (unknown_reaction_windows cfg action w Hr).
    pause_case (debug_events cfg (lit "Processing action: " ++ action)).
Qed.

Lemma pauses_of_reactions (react : str -> M unit) (actions : list str) :
  (forall action w,
     exists evs,
       pauses evs = 0
       /\ (react action w = (Ok tt, log (evs ++ [Sleep]) w)
           \/ exists e, react action w = (Raise e, log evs w))) ->
  forall w w',
    for_each actions react w = (Ok tt, w') ->
    pauses (output w') = pauses (output w) + length actions.
Proof.
  intros Hreact. induction actions as [|a rest IH]; intros w w';
    cbn [for_each length].
  - intros [= <-]. lia.
  - unfold bind. destruct (Hreact a w) as (evs & Hev & [H|[e H]]); rewrite H.
    + intros Hrest. apply IH in Hrest. rewrite Hrest.
      unfold log. cbn [output]. rewrite !pauses_app, Hev. cbn. lia.
    + discriminate.
Qed.

(** X11: one pause for each reaction.  When the reactions of a rule
    have all been carried out, the driver has paused exactly as many
    times as the rule has reactions, unrecognised ones included. *)
Theorem one_pause_per_reaction (cfg : settings) (actions : list str)
    (w w' : world) :
  (for_each actions (react_unix cfg) w = (Ok tt, w') ->
   pauses (output w') = pauses (output w) + length actions)
  /\
  (for_each actions (react_windows cfg) w = (Ok tt, w') ->
   pauses (output w') = pauses (output w) + length actions).
Proof.
  split; apply pauses_of_reactions; intros action w0;
    [apply reaction_then_pause_unix | apply reaction_then_pause_windows].
Qed.

Lemma one_pause_per_reaction_witness :
  pauses (output (snd (for_each [lit "teleport"; lit "string:y"; lit "Enter"]
                         (react_unix quiet) offline))) = 3.
Proof.
  destruct (one_pause_per_reaction quiet
              [lit "teleport"; lit "string:y"; lit "Enter"] offline
              (snd (for_each [lit "teleport"; lit "string:y"; lit "Enter"]
                      (react_unix quiet) offline))) as [H _].
  exact (H eq_refl).
Defined.

(** *** Binary resolution (lines 41-132) *)

Ltac published :=
  unfold published_paths; cbn [In];
  repeat first [ left; reflexivity | right ].

(** X12: the platform path is one of the six published names, and the
    resolver finds one exactly on the platforms it supports: Windows
    and Darwin whatever the machine, Linux on x86_64, amd64, arm64,
    aarch64, armv7l and armv8l in any case of letters.  Elsewhere it
    raises, naming the machine on Linux and the system otherwise. *)
Theorem platform_path_by_platform (cfg : settings) (p : Resolver.platform)
    (w : world) :
  match fst (Resolver.get_platform_download_path cfg p w) with
  | Ok name => supported p = true /\ In name published_paths
  | Raise e =>
    supported p = false
    /\ e = Error (if Py.eqb (Resolver.system p) (lit "Linux")
                  then lit "Unsupported Linux architecture: "
                       ++ Py.lower (Resolver.machine p)
                  else lit "Unsupported OS: " ++ Resolver.system p)
  end.
Proof.
  unfold Resolver.get_platform_download_path, supported.
  erewrite bind_ok by apply debug_print_run.
  cbn [existsb]. rewrite !orb_false_r.
  destruct (Py.eqb (Resolver.system p) (lit "Windows")).
  { cbn [fst ret orb]. split; [reflexivity | published]. }
  destruct (Py.eqb (Resolver.system p) (lit "Linux")) eqn:Linux.
  - apply str_eqb_eq in Linux. rewrite Linux.
    change (Py.eqb (lit "Linux") (lit "Darwin")) with false.
    cbn [orb andb].
    repeat match goal with
           | |- context [Py.eqb (Py.lower (Resolver.machine p)) ?name] =>
             destruct (Py.eqb (Py.lower (Resolver.machine p)) name);
             [ cbn [fst ret orb]; split; [reflexivity|];
               try destruct (Py.contains (lit "64") (Resolver.bitness p));
               published |]
           end.
    cbn [fst raise orb]. split; reflexivity.
  - destruct (Py.eqb (Resolver.system p) (lit "Darwin")); cbn [fst ret raise orb andb].
    + split; [reflexivity|].
      destruct (Py.contains (lit "arm") (Py.lower (Resolver.machine p)));
        published.
    + split; reflexivity.
Qed.

(** X13: on every supported platform [get_paths] returns its three
    paths, so that its own failure cannot follow a platform path that
    was found.  The binary lies in the base directory, with the suffix
    .exe on Windows; the archive lies in the temporary directory under
    the name of the commit, a .zip on Windows and a .tar.gz elsewhere;
    on Darwin the base directory is fixed and the configured
    [extracted_path] is not used. *)
Theorem paths_on_supported_platform (cfg : settings)
    (ps : Resolver.paths_settings) (lib : Resolver.library)
    (p : Resolver.platform) (commit_id : str) (w : world)
    (Hsupported : supported p = true) :
  let windows := Py.eqb (Resolver.system p) (lit "Windows") in
  let linux := Py.eqb (Resolver.system p) (lit "Linux") in
  let base_dir :=
    Resolver.expanduser lib
      (if windows || linux then Resolver.extracted_path ps
       else lit "~/Library/Application Support/vscode-server") in
  Resolver.get_paths cfg ps lib p commit_id w
  = (Ok (base_dir,
         Resolver.join lib base_dir
           (if windows then Resolver.extracted_bin ps ++ lit ".exe"
            else Resolver.extracted_bin ps),
         Resolver.join lib (Resolver.gettempdir lib)
           (lit "vscode-cli-" ++ commit_id
            ++ (if windows then lit ".zip" else lit ".tar.gz"))),
     log (debug_events cfg (lit "Resolving paths for commit " ++ commit_id
                            ++ lit " on " ++ Resolver.system p)) w).
Proof.
  cbv zeta. unfold Resolver.get_paths.
  erewrite bind_ok by apply debug_print_run.
  unfold supported in Hsupported. cbn [existsb]. rewrite orb_false_r.
  destruct (Py.eqb (Resolver.system p) (lit "Windows")); [reflexivity|].
  destruct (Py.eqb (Resolver.system p) (lit "Linux")) eqn:Linux;
    [reflexivity|].
  cbn [orb andb] in Hsupported. rewrite orb_false_r in Hsupported.
  rewrite Hsupported. reflexivity.
Qed.

Lemma paths_on_supported_platform_witness :
  let mac := {| Resolver.system := lit "Darwin"; Resolver.machine := lit "arm64";
                Resolver.bitness := lit "64bit" |} in
  let ps := {| Resolver.extracted_path := lit "~/.vscode-cli";
               Resolver.extracted_bin := lit "code";
               Resolver.download_url_format := lit "{commit_id}" |} in
  let posix := {| Resolver.expanduser := fun path => lit "/Users/me" ++ skipn 1 path;
                  Resolver.join := fun a b => a ++ lit "/" ++ b;
                  Resolver.gettempdir := lit "/tmp";
                  Resolver.format_url := fun fmt c pp q => Ok (c ++ pp ++ q);
                  Resolver.new_file_mode := 420;
                  Resolver.no_such_file := fun path => path;
                  Resolver.unpack := fun _ _ _ => Ok [] |} in
  fst (Resolver.get_paths quiet ps posix mac (lit "abc123") offline)
  = Ok (lit "/Users/me/Library/Application Support/vscode-server",
        lit "/Users/me/Library/Application Support/vscode-server/code",
        lit "/tmp/vscode-cli-abc123.tar.gz").
Proof.
  intros mac ps posix.
  rewrite (paths_on_supported_platform quiet ps posix mac (lit "abc123") offline
             eq_refl).
  reflexivity.
Defined.

(** *** Running the resolver *)

Lemma rbind_ok {A B} (m : Resolver.R A) (f : A -> Resolver.R B)
    (s s1 : Resolver.site) (a : A) :
  m s = (Ok a, s1) -> Resolver.rbind m f s = f a s1.
Proof. intros H. unfold Resolver.rbind. now rewrite H. Qed.

Lemma rbind_raise {A B} (m : Resolver.R A) (f : A -> Resolver.R B)
    (s s1 : Resolver.site) (e : exn) :
  m s = (Raise e, s1) -> Resolver.rbind m f s = (Raise e, s1).
Proof. intros H. unfold Resolver.rbind. now rewrite H. Qed.

Lemma rbind_returns {A B} (m : Resolver.R A) (f : A -> Resolver.R B)
    (s s' : Resolver.site) (b : B) :
  Resolver.rbind m f s = (Ok b, s') ->
  exists a s1, m s = (Ok a, s1) /\ f a s1 = (Ok b, s').
Proof.
  unfold Resolver.rbind. destruct (m s) as [[a|e] s1]; [|discriminate].
  intros H. now exists a, s1.
Qed.

Lemma on_console_run {A} (m : M A) (s : Resolver.site) (r : result A)
    (w : world) :
  m (Resolver.console s) = (r, w) ->
  Resolver.on_console m s = (r, with_console w s).
Proof. intros H. unfold Resolver.on_console. now rewrite H. Qed.

Lemma on_console_disk {A} (m : M A) (s : Resolver.site) :
  Resolver.disk (snd (Resolver.on_console m s)) = Resolver.disk s
  /\ Resolver.requested (snd (Resolver.on_console m s)) = Resolver.requested s
  /\ Resolver.made_dirs (snd (Resolver.on_console m s)) = Resolver.made_dirs s.
Proof.
  unfold Resolver.on_console. now destruct (m (Resolver.console s)).
Qed.

Lemma isfile_store (path : str) (f : Resolver.file) (d : Resolver.files) :
  Resolver.isfile path (Resolver.store path f d) = true.
Proof.
  unfold Resolver.isfile, Resolver.store. cbn [Resolver.lookup].
  now rewrite str_eqb_refl.
Qed.

Lemma lookup_store (path : str) (f : Resolver.file) (d : Resolver.files) :
  Resolver.lookup path (Resolver.store path f d) = Some f.
Proof.
  unfold Resolver.store. cbn [Resolver.lookup]. now rewrite str_eqb_refl.
Qed.

Lemma lookup_store_other (p path : str) (f : Resolver.file) (d : Resolver.files) :
  Py.eqb p path = false ->
  Resolver.lookup path (Resolver.store p f d) = Resolver.lookup path d.
Proof.
  intros H. unfold Resolver.store. cbn [Resolver.lookup]. now rewrite H.
Qed.

Lemma platform_console (cfg : settings) (p : Resolver.platform) (w : world) :
  snd (Resolver.get_platform_download_path cfg p w)
  = log (debug_events cfg
           (lit "Resolving platform download path: " ++ Resolver.system p
            ++ lit " " ++ Py.lower (Resolver.machine p) ++ lit " "
            ++ Resolver.bitness p)) w.
Proof.
  unfold Resolver.get_platform_download_path.
  erewrite bind_ok by apply debug_print_run.
  repeat match goal with
         | |- context [if ?b then _ else _] => destruct b
         end; reflexivity.
Qed.

Lemma platform_result (cfg : settings) (p : Resolver.platform) (w : world) :
  match fst (Resolver.get_platform_download_path cfg p w) with
  | Ok _ => supported p = true
  | Raise e =>
    supported p = false
    /\ e = Error (if Py.eqb (Resolver.system p) (lit "Linux")
                  then lit "Unsupported Linux architecture: "
                       ++ Py.lower (Resolver.machine p)
                  else lit "Unsupported OS: " ++ Resolver.system p)
  end.
Proof.
  unfold Resolver.get_platform_download_path, supported.
  erewrite bind_ok by apply debug_print_run.
  cbn [existsb]. rewrite !orb_false_r.
  destruct (Py.eqb (Resolver.system p) (lit "Windows")); [reflexivity|].
  destruct (Py.eqb (Resolver.system p) (lit "Linux")) eqn:Linux.
  - apply str_eqb_eq in Linux. rewrite Linux.
    change (Py.eqb (lit "Linux") (lit "Darwin")) with false.
    cbn [orb andb].
    repeat match goal with
           | |- context [Py.eqb (Py.lower (Resolver.machine p)) ?name] =>
             destruct (Py.eqb (Py.lower (Resolver.machine p)) name);
             [ reflexivity |]
           end.
    cbn [fst raise orb]. split; reflexivity.
  - destruct (Py.eqb (Resolver.system p) (lit "Darwin")); cbn [fst ret raise orb andb].
    + reflexivity.
    + split; reflexivity.
Qed.

Lemma get_paths_returns (cfg : settings) (ps : Resolver.paths_settings)
    (lib : Resolver.library) (p : Resolver.platform) (commit_id : str)
    (w : world) :
  supported p = true ->
  Resolver.get_paths cfg ps lib p commit_id w
  = (Ok (base_dir_of lib ps p, cli_bin_of lib ps p, archive_of lib p commit_id),
     log (debug_events cfg (lit "Resolving paths for commit " ++ commit_id
                            ++ lit " on " ++ Resolver.system p)) w).
Proof.
  intros Hsupported. unfold Resolver.get_paths, cli_bin_of, base_dir_of, archive_of.
  erewrite bind_ok by apply debug_print_run.
  unfold supported in Hsupported. cbn [existsb]. rewrite orb_false_r.
  destruct (Py.eqb (Resolver.system p) (lit "Windows")); [reflexivity|].
  destruct (Py.eqb (Resolver.system p) (lit "Linux")) eqn:Linux;
    [reflexivity|].
  cbn [orb andb] in Hsupported. rewrite orb_false_r in Hsupported.
  rewrite Hsupported. reflexivity.
Qed.

(** What the resolver has printed when it looks for the binary. *)
Lemma download_prelude (cfg : settings) (ps : Resolver.paths_settings)
    (lib : Resolver.library) (p : Resolver.platform)
    (commit_id quality name : str) (s : Resolver.site) :
  fst (Resolver.get_platform_download_path cfg p (Resolver.console s)) = Ok name ->
  Resolver.download_vscode_server cfg ps lib p commit_id quality s
  = (if Resolver.isfile (cli_bin_of lib ps p) (Resolver.disk s)
     then Resolver.rbind
            (Resolver.on_console
               (print (lit "[✓] VSCode CLI already exists at "
                       ++ cli_bin_of lib ps p)))
            (fun _ => Resolver.rret (cli_bin_of lib ps p))
     else Resolver.fetch_and_extract cfg ps lib p name (base_dir_of lib ps p)
            (cli_bin_of lib ps p) (archive_of lib p commit_id)
            commit_id quality)
      (with_console (log (prelude_events cfg lib ps p commit_id)
                       (Resolver.console s)) s).
Proof.
  intros Hname.
  pose proof (platform_result cfg p (Resolver.console s)) as Hsup.
  pose proof (platform_console cfg p (Resolver.console s)) as Hw.
  rewrite Hname in Hsup.
  destruct (Resolver.get_platform_download_path cfg p (Resolver.console s))
    as [r w1] eqn:Hplat. cbn [fst snd] in *. subst r w1.
  unfold Resolver.download_vscode_server.
  erewrite rbind_ok by (apply on_console_run; exact Hplat).
  erewrite rbind_ok
    by (apply on_console_run; apply get_paths_returns; exact Hsup).
  cbv beta iota.
  erewrite rbind_ok by (apply on_console_run; apply debug_print_run).
  unfold Resolver.rbind at 1, Resolver.os_path_isfile.
  cbn [with_console Resolver.disk Resolver.console Resolver.made_dirs
       Resolver.requested Resolver.server].
  rewrite !log_log. unfold prelude_events, with_console.
  cbn [Resolver.disk Resolver.console Resolver.made_dirs
       Resolver.requested Resolver.server].
  rewrite <- ?app_assoc. reflexivity.
Qed.

(** X14: a binary that is already there is used as it is: the
    resolver returns its path after saying so, and makes no directory,
    no request and no change to any file. *)
Theorem cached_binary_is_reused (cfg : settings) (ps : Resolver.paths_settings)
    (lib : Resolver.library) (p : Resolver.platform)
    (commit_id quality name : str) (s : Resolver.site)
    (Hname : fst (Resolver.get_platform_download_path cfg p (Resolver.console s))
             = Ok name)
    (Hcached : Resolver.isfile (cli_bin_of lib ps p) (Resolver.disk s) = true) :
  Resolver.download_vscode_server cfg ps lib p commit_id quality s
  = (Ok (cli_bin_of lib ps p),
     with_console
       (log (prelude_events cfg lib ps p commit_id
             ++ [Print (lit "[✓] VSCode CLI already exists at "
                        ++ cli_bin_of lib ps p)])
          (Resolver.console s)) s).
Proof.
  rewrite (download_prelude cfg ps lib p commit_id quality name s Hname).
  rewrite Hcached.
  erewrite rbind_ok by (apply on_console_run; apply print_run).
  unfold Resolver.rret, with_console.
  cbn [Resolver.disk Resolver.console Resolver.made_dirs Resolver.requested
       Resolver.server].
  now rewrite log_log.
Qed.

Lemma isfile_lookup (path : str) (d : Resolver.files) :
  Resolver.isfile path d = true <-> exists f, Resolver.lookup path d = Some f.
Proof.
  unfold Resolver.isfile. destruct (Resolver.lookup path d) as [f|].
  - split; [intros _; now exists f | reflexivity].
  - split; [discriminate | intros [f H]; discriminate H].
Qed.

(** What ends well in [extract_and_check] ends with the binary in
    place, executable where it was made so. *)
Lemma extract_and_check_returns (cfg : settings)
    (lib : Resolver.library) (p : Resolver.platform)
    (base_dir cli_bin archive_path path : str) (s s' : Resolver.site) :
  Resolver.extract_and_check cfg lib p base_dir cli_bin archive_path s
  = (Ok path, s') ->
  path = cli_bin
  /\ Resolver.isfile cli_bin (Resolver.disk s') = true
  /\ (Py.eqb (Resolver.system p) (lit "Windows") = false ->
      exists f, Resolver.lookup cli_bin (Resolver.disk s') = Some f
                /\ Resolver.mode f = 493%N).
Proof.
  unfold Resolver.extract_and_check. intros H.
  do 4 (apply rbind_returns in H as (? & ? & _ & H)).
  apply rbind_returns in H as ([] & s0 & _ & H).
  apply rbind_returns in H as (extracted & s1 & Hfile & H).
  unfold Resolver.os_path_isfile in Hfile. injection Hfile as <- <-.
  destruct (Resolver.isfile cli_bin (Resolver.disk s0)) eqn:Hthere;
    cbn [negb] in H; [|discriminate H].
  apply rbind_returns in H as ([] & s2 & Hchmod & H).
  apply rbind_returns in H as ([] & s3 & Hp1 & H).
  apply rbind_returns in H as ([] & s4 & Hp2 & H).
  injection H as <- <-.
  pose proof (on_console_disk
                (print (lit "[✓] VSCode CLI ready at " ++ cli_bin)) s2) as (D1 & _).
  rewrite Hp1 in D1. cbn [snd] in D1.
  pose proof (on_console_disk
                (debug_print cfg (lit "VSCode CLI extracted to: " ++ cli_bin)) s3)
    as (D2 & _).
  rewrite Hp2 in D2. cbn [snd] in D2. rewrite D2, D1.
  split; [reflexivity|].
  destruct (Py.eqb (Resolver.system p) (lit "Windows")); cbn [negb] in Hchmod.
  - injection Hchmod as <-. split; [exact Hthere | discriminate].
  - unfold Resolver.os_chmod in Hchmod.
    destruct (Resolver.lookup cli_bin (Resolver.disk s0)) as [f|];
      [|discriminate Hchmod].
    injection Hchmod as <-. cbn [Resolver.with_disk Resolver.disk].
    split; [apply isfile_store|]. intros _. eexists.
    split; [apply lookup_store | reflexivity].
Qed.

Lemma fetch_and_extract_returns (cfg : settings) (ps : Resolver.paths_settings)
    (lib : Resolver.library) (p : Resolver.platform)
    (name base_dir cli_bin archive_path commit_id quality path : str)
    (s s' : Resolver.site) :
  Resolver.fetch_and_extract cfg ps lib p name base_dir cli_bin archive_path
    commit_id quality s = (Ok path, s') ->
  exists s1,
    Resolver.extract_and_check cfg lib p base_dir cli_bin archive_path s1
    = (Ok path, s').
Proof.
  unfold Resolver.fetch_and_extract. intros H.
  do 8 (apply rbind_returns in H as (? & ? & _ & H)).
  eexists. exact H.
Qed.

(** X15: the path that the resolver returns is the path of a regular
    file: the binary it found, or the one the archive brought. *)
Theorem returned_binary_is_a_file (cfg : settings) (ps : Resolver.paths_settings)
    (lib : Resolver.library) (p : Resolver.platform)
    (commit_id quality path : str) (s s' : Resolver.site)
    (Hreturns : Resolver.download_vscode_server cfg ps lib p commit_id quality s
                = (Ok path, s')) :
  path = cli_bin_of lib ps p
  /\ Resolver.isfile path (Resolver.disk s') = true.
Proof.
  destruct (fst (Resolver.get_platform_download_path cfg p (Resolver.console s)))
    as [name|e] eqn:Hname.
  - rewrite (download_prelude cfg ps lib p commit_id quality name s Hname)
      in Hreturns.
    destruct (Resolver.isfile (cli_bin_of lib ps p) (Resolver.disk s)) eqn:Hthere.
    + erewrite rbind_ok in Hreturns by (apply on_console_run; apply print_run).
      injection Hreturns as <- <-. split; [reflexivity | exact Hthere].
    + apply fetch_and_extract_returns in Hreturns as (s1 & Hreturns).
      apply extract_and_check_returns in Hreturns as (-> & Hfile & _).
      split; [reflexivity | exact Hfile].
  - unfold Resolver.download_vscode_server in Hreturns.
    apply rbind_returns in Hreturns as (name & s1 & Hplat & _).
    unfold Resolver.on_console in Hplat.
    destruct (Resolver.get_platform_download_path cfg p (Resolver.console s))
      as [r w]. cbn [fst] in Hname. subst r. discriminate Hplat.
Qed.

(** X16: off Windows a binary that the resolver had to fetch is
    returned with the permission bits 0o755. *)
Theorem fetched_binary_is_executable (cfg : settings)
    (ps : Resolver.paths_settings) (lib : Resolver.library)
    (p : Resolver.platform) (commit_id quality path : str)
    (s s' : Resolver.site)
    (Hreturns : Resolver.download_vscode_server cfg ps lib p commit_id quality s
                = (Ok path, s'))
    (Hfresh : Resolver.isfile (cli_bin_of lib ps p) (Resolver.disk s) = false)
    (Hsystem : Py.eqb (Resolver.system p) (lit "Windows") = false) :
  exists f, Resolver.lookup path (Resolver.disk s') = Some f
            /\ Resolver.mode f = 493%N.
Proof.
  destruct (fst (Resolver.get_platform_download_path cfg p (Resolver.console s)))
    as [name|e] eqn:Hname.
  - rewrite (download_prelude cfg ps lib p commit_id quality name s Hname)
      in Hreturns.
    rewrite Hfresh in Hreturns.
    apply fetch_and_extract_returns in Hreturns as (s1 & Hreturns).
    apply extract_and_check_returns in Hreturns as (-> & _ & Hmode).
    exact (Hmode Hsystem).
  - unfold Resolver.download_vscode_server in Hreturns.
    apply rbind_returns in Hreturns as (name & s1 & Hplat & _).
    unfold Resolver.on_console in Hplat.
    destruct (Resolver.get_platform_download_path cfg p (Resolver.console s))
      as [r w]. cbn [fst] in Hname. subst r. discriminate Hplat.
Qed.

Lemma isfile_store_any (p path : str) (f : Resolver.file) (d : Resolver.files) :
  Resolver.isfile path (Resolver.store p f d)
  = Py.eqb p path || Resolver.isfile path d.
Proof.
  unfold Resolver.isfile, Resolver.store. cbn [Resolver.lookup].
  now destruct (Py.eqb p path).
Qed.

Lemma isfile_extracted (path : str) (members : list (str * Resolver.file))
    (d : Resolver.files) :
  Resolver.isfile path
    (fold_left (fun d m => Resolver.store (fst m) (snd m) d) members d)
  = existsb (fun m => Py.eqb (fst m) path) members || Resolver.isfile path d.
Proof.
  revert d. induction members as [|m ms IH]; intros d; cbn [fold_left existsb].
  - reflexivity.
  - rewrite IH, isfile_store_any.
    destruct (Py.eqb (fst m) path), (existsb _ ms); reflexivity.
Qed.

Lemma rfor_each_app {A} (got : list A) (later : list (result A))
    (body : A -> Resolver.R unit) (s : Resolver.site) :
  Resolver.rfor_each (map Ok got ++ later) body s
  = Resolver.rbind (Resolver.rfor_each (map Ok got) body)
      (fun _ => Resolver.rfor_each later body) s.
Proof.
  revert s. induction got as [|x got IH]; intros s;
    cbn [map app Resolver.rfor_each].
  - reflexivity.
  - unfold Resolver.rbind in *.
    destruct (body x s) as [[[]|e] s1]; [|reflexivity].
    apply IH.
Qed.

(** What the chunks written leave: the archive holds them one after
    the other, and no other file has changed. *)
Lemma chunks_written (lib : Resolver.library) (archive_path : str)
    (chunks : list str) :
  forall (s : Resolver.site) (f0 : Resolver.file),
    Resolver.lookup archive_path (Resolver.disk s) = Some f0 ->
    exists d,
      Resolver.rfor_each (map Ok chunks) (Resolver.write lib archive_path) s
      = (Ok tt, Resolver.with_disk d s)
      /\ Resolver.lookup archive_path d
         = Some {| Resolver.content := Resolver.content f0 ++ concat chunks;
                   Resolver.mode := Resolver.mode f0 |}
      /\ forall path, Py.eqb archive_path path = false ->
           Resolver.lookup path d = Resolver.lookup path (Resolver.disk s).
Proof.
  induction chunks as [|c chunks IH]; intros s f0 Hf0;
    cbn [map Resolver.rfor_each concat].
  - exists (Resolver.disk s). split; [now destruct s|]. split; [|reflexivity].
    rewrite Hf0, app_nil_r. now destruct f0.
  - unfold Resolver.rbind, Resolver.write at 1.
    unfold Resolver.current. rewrite Hf0.
    set (s1 := Resolver.with_disk _ s).
    destruct (IH s1 {| Resolver.content := Resolver.content f0 ++ c;
                       Resolver.mode := Resolver.mode f0 |})
      as (d & Hrun & Hlook & Hother).
    { apply lookup_store. }
    exists d. split; [exact Hrun|]. split.
    + rewrite Hlook. cbn [Resolver.content Resolver.mode].
      now rewrite app_assoc.
    + intros path Hpath. rewrite (Hother path Hpath).
      unfold s1. cbn [Resolver.with_disk Resolver.disk].
      now apply lookup_store_other.
Qed.

Lemma status_passes (r : Resolver.download) (s : Resolver.site) :
  error_status (Resolver.dl_status r) = false ->
  Resolver.raise_for_status r s = (Ok tt, s).
Proof.
  unfold error_status, Resolver.raise_for_status. intros H.
  destruct (400 <=? Resolver.dl_status r)%Z eqn:E1;
    destruct (Resolver.dl_status r <? 500)%Z eqn:E2;
    destruct (500 <=? Resolver.dl_status r)%Z eqn:E3;
    destruct (Resolver.dl_status r <? 600)%Z eqn:E4;
    cbn [andb] in *; try reflexivity; try discriminate H; lia.
Qed.

Lemma status_fails (r : Resolver.download) (s : Resolver.site) :
  error_status (Resolver.dl_status r) = true ->
  Resolver.raise_for_status r s
  = (Raise (Error (Py.str_of_int (Resolver.dl_status r)
                   ++ (if (Resolver.dl_status r <? 500)%Z
                       then lit " Client Error: " else lit " Server Error: ")
                   ++ Resolver.dl_reason r ++ lit " for url: "
                   ++ Resolver.dl_url r)), s).
Proof.
  unfold error_status, Resolver.raise_for_status. intros H.
  destruct (400 <=? Resolver.dl_status r)%Z eqn:E1;
    destruct (Resolver.dl_status r <? 500)%Z eqn:E2;
    destruct (500 <=? Resolver.dl_status r)%Z eqn:E3;
    destruct (Resolver.dl_status r <? 600)%Z eqn:E4;
    cbn [andb] in *; try reflexivity; try discriminate H; lia.
Qed.

(** The state when the answer of the server has come. *)
Lemma fetch_answered (cfg : settings) (ps : Resolver.paths_settings)
    (lib : Resolver.library) (p : Resolver.platform)
    (name base_dir cli_bin archive_path commit_id quality url : str)
    (r : Resolver.download) (s : Resolver.site) :
  Resolver.format_url lib (Resolver.download_url_format ps) commit_id name quality
  = Ok url ->
  Resolver.server s = Ok r ->
  exists s1,
    Resolver.fetch_and_extract cfg ps lib p name base_dir cli_bin archive_path
      commit_id quality s
    = Resolver.rbind (Resolver.raise_for_status r)
        (fun _ =>
           Resolver.rbind (Resolver.open_wb lib archive_path)
             (fun _ =>
                Resolver.rbind
                  (Resolver.rfor_each (Resolver.dl_chunks r)
                     (Resolver.write lib archive_path))
                  (fun _ => Resolver.extract_and_check cfg lib p base_dir
                              cli_bin archive_path))) s1
    /\ Resolver.disk s1 = Resolver.disk s
    /\ Resolver.requested s1 = Resolver.requested s ++ [url]
    /\ Resolver.made_dirs s1 = Resolver.made_dirs s ++ [base_dir].
Proof.
  intros Hurl Hserver. unfold Resolver.fetch_and_extract.
  erewrite rbind_ok by reflexivity.
  erewrite rbind_ok by (cbv beta; rewrite Hurl; reflexivity).
  erewrite rbind_ok by (apply on_console_run; apply debug_print_run).
  erewrite rbind_ok by (apply on_console_run; apply print_run).
  erewrite rbind_ok
    by (unfold Resolver.requests_get;
        cbn [with_console Resolver.server]; rewrite Hserver; reflexivity).
  eexists. split; [reflexivity|].
  cbn [with_console Resolver.disk Resolver.requested Resolver.made_dirs].
  repeat split.
Qed.

Lemma cached_binary_is_reused_witness :
  let s := site_of [(lit "/home/user/.vscode-server/code",
                     {| Resolver.content := lit "ELF"; Resolver.mode := 493 |})]
             (Raise (Error (lit "no network"))) in
  Resolver.download_vscode_server quiet user_paths posix linux_x64
    (lit "abc") (lit "stable") s
  = (Ok (lit "/home/user/.vscode-server/code"),
     with_console
       (log [Print (lit "[✓] VSCode CLI already exists at /home/user/.vscode-server/code")]
          offline) s).
Proof.
  exact (cached_binary_is_reused quiet user_paths posix linux_x64
           (lit "abc") (lit "stable") (lit "cli-alpine-x64")
           (site_of [(lit "/home/user/.vscode-server/code",
                      {| Resolver.content := lit "ELF"; Resolver.mode := 493 |})]
              (Raise (Error (lit "no network"))))
           eq_refl eq_refl).
Defined.

Lemma returned_binary_is_a_file_witness :
  exists s',
    lit "/home/user/.vscode-server/code" = cli_bin_of posix user_paths linux_x64
    /\ Resolver.isfile (lit "/home/user/.vscode-server/code") (Resolver.disk s')
       = true.
Proof.
  eexists.
  apply (returned_binary_is_a_file quiet user_paths posix linux_x64
           (lit "abc") (lit "stable") (lit "/home/user/.vscode-server/code")
           (site_of [] (Ok (answer 200 (lit "OK") [Ok (lit "AR"); Ok (lit "CH")])))).
  vm_compute. reflexivity.
Defined.

Lemma fetched_binary_is_executable_witness :
  exists s' f,
    Resolver.lookup (lit "/home/user/.vscode-server/code") (Resolver.disk s')
    = Some f
    /\ Resolver.mode f = 493%N.
Proof.
  eexists.
  apply (fetched_binary_is_executable quiet user_paths posix linux_x64
           (lit "abc") (lit "stable") (lit "/home/user/.vscode-server/code")
           (site_of [] (Ok (answer 200 (lit "OK") [Ok (lit "AR"); Ok (lit "CH")])))).
  - vm_compute. reflexivity.
  - reflexivity.
  - reflexivity.
Defined.

(** What [extract_and_check] gives when the archive unpacks. *)
Lemma extract_and_check_result (cfg : settings) (lib : Resolver.library)
    (p : Resolver.platform) (base_dir cli_bin archive_path : str)
    (members : list (str * Resolver.file)) (s : Resolver.site) :
  Resolver.unpack lib (Py.eqb (Resolver.system p) (lit "Windows"))
    (option_map Resolver.content
       (Resolver.lookup archive_path (Resolver.disk s))) base_dir
  = Ok members ->
  fst (Resolver.extract_and_check cfg lib p base_dir cli_bin archive_path s)
  = if existsb (fun m => Py.eqb (fst m) cli_bin) members
       || Resolver.isfile cli_bin (Resolver.disk s)
    then Ok cli_bin
    else Raise (Error (lit "[!] Extraction failed: " ++ cli_bin
                       ++ lit " not found")).
Proof.
  intros Hunpack. unfold Resolver.extract_and_check.
  erewrite rbind_ok by (apply on_console_run; apply print_run).
  erewrite rbind_ok by (apply on_console_run; apply debug_print_run).
  erewrite rbind_ok by (apply on_console_run; apply debug_print_run).
  erewrite rbind_ok by (apply on_console_run; apply print_run).
  erewrite rbind_ok
    by (unfold Resolver.extractall; cbn [with_console Resolver.disk];
        rewrite Hunpack; reflexivity).
  erewrite rbind_ok by reflexivity.
  cbn [with_console Resolver.with_disk Resolver.disk].
  rewrite <- isfile_extracted.
  destruct (Resolver.isfile cli_bin _) eqn:Hthere; cbn [negb];
    [|reflexivity].
  apply isfile_lookup in Hthere as [f Hf].
  destruct (Py.eqb (Resolver.system p) (lit "Windows")); cbn [negb].
  - erewrite rbind_ok by reflexivity.
    erewrite rbind_ok by (apply on_console_run; apply print_run).
    erewrite rbind_ok by (apply on_console_run; apply debug_print_run).
    reflexivity.
  - erewrite rbind_ok
      by (unfold Resolver.os_chmod; cbn [Resolver.with_disk Resolver.disk];
          rewrite Hf; reflexivity).
    erewrite rbind_ok by (apply on_console_run; apply print_run).
    erewrite rbind_ok by (apply on_console_run; apply debug_print_run).
    reflexivity.
Qed.

(** X17: when the server answers with an error status (400 to 599)
    the resolver raises the error of [raise_for_status], which names
    the status, the reason and the URL; the request has been made and
    the base directory too, but no file is written: neither archive
    nor binary. *)
Theorem failed_download_writes_nothing (cfg : settings)
    (ps : Resolver.paths_settings) (lib : Resolver.library)
    (p : Resolver.platform) (commit_id quality name url : str)
    (r : Resolver.download) (s : Resolver.site)
    (Hname : fst (Resolver.get_platform_download_path cfg p (Resolver.console s))
             = Ok name)
    (Hfresh : Resolver.isfile (cli_bin_of lib ps p) (Resolver.disk s) = false)
    (Hurl : Resolver.format_url lib (Resolver.download_url_format ps)
              commit_id name quality = Ok url)
    (Hserver : Resolver.server s = Ok r)
    (Hstatus : error_status (Resolver.dl_status r) = true) :
  let done := Resolver.download_vscode_server cfg ps lib p commit_id quality s in
  fst done
  = Raise (Error (Py.str_of_int (Resolver.dl_status r)
                  ++ (if (Resolver.dl_status r <? 500)%Z
                      then lit " Client Error: " else lit " Server Error: ")
                  ++ Resolver.dl_reason r ++ lit " for url: "
                  ++ Resolver.dl_url r))
  /\ Resolver.disk (snd done) = Resolver.disk s
  /\ Resolver.requested (snd done) = Resolver.requested s ++ [url]
  /\ Resolver.made_dirs (snd done)
     = Resolver.made_dirs s ++ [base_dir_of lib ps p].
Proof.
  cbv zeta.
  rewrite (download_prelude cfg ps lib p commit_id quality name s Hname).
  rewrite Hfresh.
  destruct (fetch_answered cfg ps lib p name (base_dir_of lib ps p)
              (cli_bin_of lib ps p) (archive_of lib p commit_id)
              commit_id quality url r
              (with_console (log (prelude_events cfg lib ps p commit_id)
                               (Resolver.console s)) s) Hurl Hserver)
    as (s1 & -> & Hdisk & Hreq & Hdirs).
  erewrite rbind_raise by (apply status_fails; exact Hstatus).
  cbn [fst snd]. rewrite Hdisk, Hreq, Hdirs. repeat split.
Qed.

Lemma failed_download_writes_nothing_witness :
  let s := site_of [] (Ok (answer 404 (lit "Not Found") [Ok (lit "<html>")])) in
  let done := Resolver.download_vscode_server quiet user_paths posix linux_x64
                (lit "abc") (lit "stable") s in
  fst done
  = Raise (Error (lit "404 Client Error: Not Found for url: https://update.code.visualstudio.com/commit:abc/cli-alpine-x64/stable"))
  /\ Resolver.disk (snd done) = []
  /\ Resolver.requested (snd done)
     = [lit "https://update.code.visualstudio.com/commit:abc/cli-alpine-x64/stable"]
  /\ Resolver.made_dirs (snd done) = [lit "/home/user/.vscode-server"].
Proof.
  exact (failed_download_writes_nothing quiet user_paths posix linux_x64
           (lit "abc") (lit "stable") (lit "cli-alpine-x64")
           (lit "https://update.code.visualstudio.com/commit:abc/cli-alpine-x64/stable")
           (answer 404 (lit "Not Found") [Ok (lit "<html>")])
           (site_of [] (Ok (answer 404 (lit "Not Found") [Ok (lit "<html>")])))
           eq_refl eq_refl eq_refl eq_refl eq_refl).
Defined.

(** The state when the chunks of a good answer are being written. *)
Lemma fetch_writing (cfg : settings) (ps : Resolver.paths_settings)
    (lib : Resolver.library) (p : Resolver.platform)
    (name base_dir cli_bin archive_path commit_id quality url : str)
    (r : Resolver.download) (s : Resolver.site) :
  Resolver.format_url lib (Resolver.download_url_format ps) commit_id name quality
  = Ok url ->
  Resolver.server s = Ok r ->
  error_status (Resolver.dl_status r) = false ->
  exists s2 f0,
    Resolver.fetch_and_extract cfg ps lib p name base_dir cli_bin archive_path
      commit_id quality s
    = Resolver.rbind
        (Resolver.rfor_each (Resolver.dl_chunks r)
           (Resolver.write lib archive_path))
        (fun _ => Resolver.extract_and_check cfg lib p base_dir
                    cli_bin archive_path) s2
    /\ Resolver.lookup archive_path (Resolver.disk s2) = Some f0
    /\ Resolver.content f0 = []
    /\ forall path, Py.eqb archive_path path = false ->
         Resolver.lookup path (Resolver.disk s2)
         = Resolver.lookup path (Resolver.disk s).
Proof.
  intros Hurl Hserver Hstatus.
  destruct (fetch_answered cfg ps lib p name base_dir cli_bin archive_path
              commit_id quality url r s Hurl Hserver)
    as (s1 & -> & Hdisk & _).
  erewrite rbind_ok by (apply status_passes; exact Hstatus).
  erewrite rbind_ok by reflexivity.
  eexists. eexists. split; [reflexivity|].
  cbn [Resolver.with_disk Resolver.disk]. split; [apply lookup_store|].
  split; [reflexivity|].
  intros path Hpath. rewrite <- Hdisk. now apply lookup_store_other.
Qed.

(** X18: when the download goes through, the archive holds the chunks
    of the answer one after the other, and the result is decided by
    what the archive unpacks to: the path of the binary when one of the
    members is the binary, the failure of the extraction otherwise. *)
Theorem extraction_decides_the_result (cfg : settings)
    (ps : Resolver.paths_settings) (lib : Resolver.library)
    (p : Resolver.platform) (commit_id quality name url : str)
    (r : Resolver.download) (chunks : list str)
    (members : list (str * Resolver.file)) (s : Resolver.site)
    (Hname : fst (Resolver.get_platform_download_path cfg p (Resolver.console s))
             = Ok name)
    (Hfresh : Resolver.isfile (cli_bin_of lib ps p) (Resolver.disk s) = false)
    (Hurl : Resolver.format_url lib (Resolver.download_url_format ps)
              commit_id name quality = Ok url)
    (Hserver : Resolver.server s = Ok r)
    (Hstatus : error_status (Resolver.dl_status r) = false)
    (Hchunks : Resolver.dl_chunks r = map Ok chunks)
    (Hdistinct : Py.eqb (archive_of lib p commit_id) (cli_bin_of lib ps p) = false)
    (Hunpack : Resolver.unpack lib (Py.eqb (Resolver.system p) (lit "Windows"))
                 (Some (concat chunks)) (base_dir_of lib ps p)
               = Ok members) :
  fst (Resolver.download_vscode_server cfg ps lib p commit_id quality s)
  = if existsb (fun m => Py.eqb (fst m) (cli_bin_of lib ps p)) members
    then Ok (cli_bin_of lib ps p)
    else Raise (Error (lit "[!] Extraction failed: " ++ cli_bin_of lib ps p
                       ++ lit " not found")).
Proof.
  rewrite (download_prelude cfg ps lib p commit_id quality name s Hname).
  rewrite Hfresh.
  destruct (fetch_writing cfg ps lib p name (base_dir_of lib ps p)
              (cli_bin_of lib ps p) (archive_of lib p commit_id)
              commit_id quality url r
              (with_console (log (prelude_events cfg lib ps p commit_id)
                               (Resolver.console s)) s) Hurl Hserver Hstatus)
    as (s2 & f0 & -> & Hopen & Hempty & Hrest).
  rewrite Hchunks.
  destruct (chunks_written lib (archive_of lib p commit_id) chunks s2 f0 Hopen)
    as (d & Hrun & Harchive & Hother).
  erewrite rbind_ok by exact Hrun.
  rewrite (extract_and_check_result cfg lib p (base_dir_of lib ps p)
             (cli_bin_of lib ps p) (archive_of lib p commit_id) members).
  - cbn [Resolver.with_disk Resolver.disk]. unfold Resolver.isfile.
    rewrite (Hother _ Hdistinct), (Hrest _ Hdistinct).
    cbn [with_console Resolver.disk].
    unfold Resolver.isfile in Hfresh. rewrite Hfresh.
    now rewrite orb_false_r.
  - cbn [Resolver.with_disk Resolver.disk]. rewrite Harchive.
    cbn [option_map Resolver.content]. rewrite Hempty. exact Hunpack.
Qed.

Lemma extraction_decides_the_result_witness :
  fst (Resolver.download_vscode_server quiet user_paths posix linux_x64
         (lit "abc") (lit "stable")
         (site_of [] (Ok (answer 200 (lit "OK") [Ok (lit "AR"); Ok (lit "CH")]))))
  = Ok (lit "/home/user/.vscode-server/code").
Proof.
  exact (extraction_decides_the_result quiet user_paths posix linux_x64
           (lit "abc") (lit "stable") (lit "cli-alpine-x64")
           (lit "https://update.code.visualstudio.com/commit:abc/cli-alpine-x64/stable")
           (answer 200 (lit "OK") [Ok (lit "AR"); Ok (lit "CH")])
           [lit "AR"; lit "CH"]
           [(lit "/home/user/.vscode-server/code",
             {| Resolver.content := lit "ARCH"; Resolver.mode := 420 |})]
           (site_of [] (Ok (answer 200 (lit "OK") [Ok (lit "AR"); Ok (lit "CH")])))
           eq_refl eq_refl eq_refl eq_refl eq_refl eq_refl eq_refl eq_refl).
Defined.

(** X19: when the stream of the answer breaks, the resolver raises
    what the stream raised; the archive stays behind with the chunks
    that came before, nothing is extracted, and the binary is as absent
    as it was. *)
Theorem broken_stream_leaves_partial_archive (cfg : settings)
    (ps : Resolver.paths_settings) (lib : Resolver.library)
    (p : Resolver.platform) (commit_id quality name url : str)
    (r : Resolver.download) (got : list str) (e : exn)
    (later : list (result str)) (s : Resolver.site)
    (Hname : fst (Resolver.get_platform_download_path cfg p (Resolver.console s))
             = Ok name)
    (Hfresh : Resolver.isfile (cli_bin_of lib ps p) (Resolver.disk s) = false)
    (Hurl : Resolver.format_url lib (Resolver.download_url_format ps)
              commit_id name quality = Ok url)
    (Hserver : Resolver.server s = Ok r)
    (Hstatus : error_status (Resolver.dl_status r) = false)
    (Hchunks : Resolver.dl_chunks r = map Ok got ++ Raise e :: later)
    (Hdistinct : Py.eqb (archive_of lib p commit_id) (cli_bin_of lib ps p) = false) :
  let done := Resolver.download_vscode_server cfg ps lib p commit_id quality s in
  fst done = Raise e
  /\ option_map Resolver.content
       (Resolver.lookup (archive_of lib p commit_id) (Resolver.disk (snd done)))
     = Some (concat got)
  /\ Resolver.isfile (cli_bin_of lib ps p) (Resolver.disk (snd done)) = false.
Proof.
  cbv zeta.
  rewrite (download_prelude cfg ps lib p commit_id quality name s Hname).
  rewrite Hfresh.
  destruct (fetch_writing cfg ps lib p name (base_dir_of lib ps p)
              (cli_bin_of lib ps p) (archive_of lib p commit_id)
              commit_id quality url r
              (with_console (log (prelude_events cfg lib ps p commit_id)
                               (Resolver.console s)) s) Hurl Hserver Hstatus)
    as (s2 & f0 & -> & Hopen & Hempty & Hrest).
  rewrite Hchunks.
  destruct (chunks_written lib (archive_of lib p commit_id) got s2 f0 Hopen)
    as (d & Hrun & Harchive & Hother).
  erewrite rbind_raise
    by (rewrite rfor_each_app; erewrite rbind_ok by exact Hrun; reflexivity).
  cbn [fst snd Resolver.with_disk Resolver.disk].
  split; [reflexivity|]. split.
  - rewrite Harchive. cbn [option_map Resolver.content].
    now rewrite Hempty.
  - unfold Resolver.isfile.
    rewrite (Hother _ Hdistinct), (Hrest _ Hdistinct).
    cbn [with_console Resolver.disk]. exact Hfresh.
Qed.

Lemma broken_stream_leaves_partial_archive_witness :
  let s := site_of []
             (Ok (answer 200 (lit "OK")
                    [Ok (lit "AR"); Raise (Error (lit "Connection broken"));
                     Ok (lit "CH")])) in
  let done := Resolver.download_vscode_server quiet user_paths posix linux_x64
                (lit "abc") (lit "stable") s in
  fst done = Raise (Error (lit "Connection broken"))
  /\ option_map Resolver.content
       (Resolver.lookup (lit "/tmp/vscode-cli-abc.tar.gz")
          (Resolver.disk (snd done)))
     = Some (lit "AR")
  /\ Resolver.isfile (lit "/home/user/.vscode-server/code")
       (Resolver.disk (snd done)) = false.
Proof.
  exact (broken_stream_leaves_partial_archive quiet user_paths posix linux_x64
           (lit "abc") (lit "stable") (lit "cli-alpine-x64")
           (lit "https://update.code.visualstudio.com/commit:abc/cli-alpine-x64/stable")
           (answer 200 (lit "OK")
              [Ok (lit "AR"); Raise (Error (lit "Connection broken"));
               Ok (lit "CH")])
           [lit "AR"] (Error (lit "Connection broken")) [Ok (lit "CH")]
           (site_of []
              (Ok (answer 200 (lit "OK")
                     [Ok (lit "AR"); Raise (Error (lit "Connection broken"));
                      Ok (lit "CH")])))
           eq_refl eq_refl eq_refl eq_refl eq_refl eq_refl eq_refl).
Defined.

(** X20: on a platform that the resolver does not support it raises
    before it touches anything: no file is looked for or written, no
    directory made and no request sent. *)
Theorem unsupported_platform_touches_nothing (cfg : settings)
    (ps : Resolver.paths_settings) (lib : Resolver.library)
    (p : Resolver.platform) (commit_id quality : str) (s : Resolver.site)
    (Hunsupported : supported p = false) :
  let done := Resolver.download_vscode_server cfg ps lib p commit_id quality s in
  fst done
  = Raise (Error (if Py.eqb (Resolver.system p) (lit "Linux")
                  then lit "Unsupported Linux architecture: "
                       ++ Py.lower (Resolver.machine p)
                  else lit "Unsupported OS: " ++ Resolver.system p))
  /\ Resolver.disk (snd done) = Resolver.disk s
  /\ Resolver.made_dirs (snd done) = Resolver.made_dirs s
  /\ Resolver.requested (snd done) = Resolver.requested s.
Proof.
  cbv zeta.
  pose proof (platform_result cfg p (Resolver.console s)) as Hresult.
  destruct (Resolver.get_platform_download_path cfg p (Resolver.console s))
    as [[name|e] w] eqn:Hplat; cbn [fst] in Hresult.
  - rewrite Hresult in Hunsupported. discriminate Hunsupported.
  - destruct Hresult as [_ ->].
    unfold Resolver.download_vscode_server.
    erewrite rbind_raise by (apply on_console_run; exact Hplat).
    repeat split.
Qed.

Lemma unsupported_platform_touches_nothing_witness :
  let s := site_of [] (Raise (Error (lit "no network"))) in
  let done := Resolver.download_vscode_server quiet user_paths posix riscv
                (lit "abc") (lit "stable") s in
  fst done = Raise (Error (lit "Unsupported Linux architecture: riscv64"))
  /\ Resolver.disk (snd done) = []
  /\ Resolver.made_dirs (snd done) = []
  /\ Resolver.requested (snd done) = [].
Proof.
  exact (unsupported_platform_touches_nothing quiet user_paths posix riscv
           (lit "abc") (lit "stable")
           (site_of [] (Raise (Error (lit "no network")))) eq_refl).
Defined.

(** ** The entry point (lines 294-303) *)

(** *** What is raised, and by whom *)

Lemma contained_ret {A} (a : A) : contained (ret a).
Proof. intros w Hw. now split. Qed.

Lemma contained_lift {A} (r : result A) : no_interrupt r -> contained (lift r).
Proof. intros Hr w Hw. now split. Qed.

Lemma contained_raise {A} (e : exn) :
  is_Exception e = true -> contained (@raise A e).
Proof. intros He w Hw. now split. Qed.

Lemma contained_bind {A B} (m : M A) (f : A -> M B) :
  contained m -> (forall a, contained (f a)) -> contained (bind m f).
Proof.
  intros Hm Hf w Hw. unfold bind. destruct (Hm w Hw) as [Hr Hn].
  destruct (m w) as [[a|e] w1]; cbn [fst snd] in *.
  - now apply Hf.
  - now split.
Qed.

Lemma contained_emit (ev : event) : contained (emit ev).
Proof. intros w Hw. now split. Qed.

Lemma contained_debug_print (cfg : settings) (message : str) :
  contained (debug_print cfg message).
Proof.
  unfold debug_print. destruct (dict_get (debug cfg) false);
    [apply contained_emit | apply contained_ret].
Qed.

Lemma contained_request (ev : event) : contained (request ev).
Proof.
  intros w Hw. unfold request. destruct (network w) as [|r rest].
  - now split.
  - inversion Hw; subst. now split.
Qed.

Lemma contained_item {A} (l : list A) (i : nat) : contained (item l i).
Proof.
  unfold item. destruct (nth_error l i);
    [apply contained_ret | now apply contained_raise].
Qed.

Lemma contained_for_each {A} (l : list A) (body : A -> M unit) :
  (forall x, contained (body x)) -> contained (for_each l body).
Proof.
  intros Hb. induction l as [|x l IH]; cbn [for_each].
  - apply contained_ret.
  - apply contained_bind; [apply Hb | intros _; exact IH].
Qed.

Create HintDb contained.
Lemma contained_launch (failure : option str) : contained (launch failure).
Proof.
  destruct failure; [now apply contained_raise | apply contained_ret].
Qed.

#[local] Hint Resolve contained_launch : contained.
#[local] Hint Resolve contained_ret contained_emit contained_debug_print
  contained_request contained_item : contained.
#[local] Hint Extern 1 (contained (print _)) => apply contained_emit : contained.

(** Splits a piece of the program into its statements. *)
Ltac contained_steps :=
  repeat first
    [ solve [auto with contained]
    | match goal with
      | |- contained (if ?b then _ else _) => destruct b
      | |- contained (bind _ _) => apply contained_bind; [|intros ?]
      end ].

Lemma contained_update (base64 : codec) (cfg : settings)
    (message token owner name br file : str) :
  (forall s, no_interrupt (b64decode_text base64 s)) ->
  contained (update_github_file base64 cfg message token owner name br file).
Proof.
  intros Hdec. unfold update_github_file. contained_steps.
  now apply contained_lift.
Qed.

Lemma contained_upload_line (base64 : codec) (cfg : settings) (message : str) :
  (forall s, no_interrupt (b64decode_text base64 s)) ->
  contained (upload_line base64 cfg message).
Proof. intros Hdec. now apply contained_update. Qed.

Lemma contained_react_windows (cfg : settings) (action : str) :
  contained (react_windows cfg action).
Proof. unfold react_windows. contained_steps. Qed.

Lemma contained_react_unix (cfg : settings) (action : str) :
  contained (react_unix cfg action).
Proof. unfold react_unix. contained_steps. Qed.

Lemma contained_clean_line (cfg : settings) (line : str) :
  contained (clean_line cfg line).
Proof. unfold clean_line. contained_steps. Qed.

#[local] Hint Resolve contained_upload_line contained_react_windows
  contained_react_unix contained_clean_line contained_for_each
  contained_lift : contained.

Lemma contained_detect_windows (base64 : codec) (cfg : settings) (text : str)
    (d : detector) :
  (forall s, no_interrupt (b64decode_text base64 s)) ->
  contained (detect_windows base64 cfg text d).
Proof. intros Hdec. unfold detect_windows, apply_windows. contained_steps. Qed.

Lemma contained_detect_unix (base64 : codec) (cfg : settings) (text : str)
    (d : detector) :
  (forall s, no_interrupt (b64decode_text base64 s)) ->
  contained (detect_unix base64 cfg text d).
Proof. intros Hdec. unfold detect_unix, apply_unix. contained_steps. Qed.

#[local] Hint Resolve contained_detect_windows contained_detect_unix : contained.

Lemma contained_loop_windows (base64 : codec) (cfg : settings) (rules : rule_set)
    (stdout : list (result str)) :
  (forall s, no_interrupt (b64decode_text base64 s)) ->
  Forall no_interrupt stdout ->
  contained (loop_windows base64 cfg rules stdout).
Proof.
  intros Hdec Hout. induction Hout as [|read rest Hread Hrest IH];
    cbn [loop_windows]; contained_steps.
Qed.

Lemma contained_except_unix (e : exn) : contained (except_unix e).
Proof. destruct e; apply contained_emit. Qed.

Lemma contained_iteration_unix (base64 : codec) (cfg : settings)
    (rules : rule_set) (expect : result str) :
  (forall s, no_interrupt (b64decode_text base64 s)) ->
  no_interrupt expect ->
  contained (iteration_unix base64 cfg rules expect).
Proof. intros Hdec Hexp. unfold iteration_unix. contained_steps. Qed.

Lemma contained_loop_unix (base64 : codec) (cfg : settings) (rules : rule_set)
    (expects : list (result str)) :
  (forall s, no_interrupt (b64decode_text base64 s)) ->
  Forall no_interrupt expects ->
  contained (loop_unix base64 cfg rules expects).
Proof.
  intros Hdec Hout. induction Hout as [|expect rest Hexp Hrest IH];
    cbn [loop_unix].
  - apply contained_except_unix.
  - intros w Hw.
    destruct (contained_iteration_unix base64 cfg rules expect Hdec Hexp w Hw) as [Hr Hn].
    destruct (iteration_unix base64 cfg rules expect w) as [[[]|e] w1];
      cbn [fst snd] in *.
    + now apply IH.
    + now apply contained_except_unix.
Qed.

#[local] Hint Resolve contained_loop_windows contained_loop_unix : contained.

(** *** The resolver on the console *)

Lemma forallb_is_print_app (a b : list event) :
  forallb is_print a = true -> forallb is_print b = true ->
  forallb is_print (a ++ b) = true.
Proof. intros Ha Hb. now rewrite forallb_app, Ha, Hb. Qed.

Lemma prints_only_ret {A} (a : A) : prints_only (ret a).
Proof. intros w. exists []. now rewrite log_nil. Qed.

Lemma prints_only_raise {A} (e : exn) : prints_only (@raise A e).
Proof. intros w. exists []. now rewrite log_nil. Qed.

Lemma prints_only_bind {A B} (m : M A) (f : A -> M B) :
  prints_only m -> (forall a, prints_only (f a)) -> prints_only (bind m f).
Proof.
  intros Hm Hf w. unfold bind. destruct (Hm w) as (e1 & H1 & P1).
  destruct (m w) as [[a|e] w1]; cbn [snd] in *.
  - destruct (Hf a w1) as (e2 & H2 & P2). exists (e1 ++ e2).
    rewrite H2, H1, log_log. split; [reflexivity|].
    now apply forallb_is_print_app.
  - now exists e1.
Qed.

Lemma prints_only_print (line : str) : prints_only (print line).
Proof. intros w. now exists [Print line]. Qed.

Lemma prints_only_debug_print (cfg : settings) (message : str) :
  prints_only (debug_print cfg message).
Proof.
  intros w. exists (debug_events cfg message). rewrite debug_print_run.
  split; [reflexivity|]. unfold debug_events.
  now destruct (dict_get (debug cfg) false).
Qed.

Create HintDb prints.
#[local] Hint Resolve prints_only_ret prints_only_raise prints_only_print
  prints_only_debug_print : prints.

Ltac prints_steps :=
  repeat first
    [ solve [auto with prints]
    | match goal with
      | |- prints_only (if ?b then _ else _) => destruct b
      | |- prints_only (bind _ _) => apply prints_only_bind; [|intros ?]
      end ].

Lemma prints_only_platform (cfg : settings) (p : Resolver.platform) :
  prints_only (Resolver.get_platform_download_path cfg p).
Proof. unfold Resolver.get_platform_download_path. cbv zeta. prints_steps. Qed.

Lemma prints_only_paths (cfg : settings) (ps : Resolver.paths_settings)
    (lib : Resolver.library) (p : Resolver.platform) (commit : str) :
  prints_only (Resolver.get_paths cfg ps lib p commit).
Proof. unfold Resolver.get_paths. cbv zeta. prints_steps. Qed.

Lemma console_rbind {A B} (m : Resolver.R A) (f : A -> Resolver.R B) :
  prints_only_on_console m -> (forall a, prints_only_on_console (f a)) ->
  prints_only_on_console (Resolver.rbind m f).
Proof.
  intros Hm Hf s. unfold Resolver.rbind. destruct (Hm s) as (e1 & H1 & P1).
  destruct (m s) as [[a|e] s1]; cbn [snd] in *.
  - destruct (Hf a s1) as (e2 & H2 & P2). exists (e1 ++ e2).
    rewrite H2, H1, log_log. split; [reflexivity|].
    now apply forallb_is_print_app.
  - now exists e1.
Qed.

(** What leaves the console as it is prints nothing. *)
Lemma console_kept {A} (m : Resolver.R A) :
  (forall s, Resolver.console (snd (m s)) = Resolver.console s) ->
  prints_only_on_console m.
Proof. intros H s. exists []. now rewrite H, log_nil. Qed.

Lemma console_on_console {A} (m : M A) :
  prints_only m -> prints_only_on_console (Resolver.on_console m).
Proof.
  intros Hm s. unfold Resolver.on_console. destruct (Hm (Resolver.console s))
    as (evs & H & P).
  destruct (m (Resolver.console s)) as [r w]. cbn [snd Resolver.console] in *.
  now exists evs.
Qed.

Lemma console_rfor_each {A} (l : list (result A)) (body : A -> Resolver.R unit) :
  (forall x, prints_only_on_console (body x)) ->
  prints_only_on_console (Resolver.rfor_each l body).
Proof.
  intros Hb. induction l as [|[x|e] l IH]; cbn [Resolver.rfor_each].
  - now apply console_kept.
  - apply console_rbind; [apply Hb | intros _; exact IH].
  - now apply console_kept.
Qed.

Lemma console_extractall (lib : Resolver.library) (zip : bool)
    (archive base : str) :
  prints_only_on_console (Resolver.extractall lib zip archive base).
Proof.
  apply console_kept. intros s. unfold Resolver.extractall.
  now destruct (Resolver.unpack lib zip _ base).
Qed.

Lemma console_os_chmod (lib : Resolver.library) (path : str) (bits : N) :
  prints_only_on_console (Resolver.os_chmod lib path bits).
Proof.
  apply console_kept. intros s. unfold Resolver.os_chmod.
  now destruct (Resolver.lookup path (Resolver.disk s)).
Qed.

Lemma console_raise_for_status (r : Resolver.download) :
  prints_only_on_console (Resolver.raise_for_status r).
Proof.
  apply console_kept. intros s. unfold Resolver.raise_for_status.
  destruct (_ && _); [reflexivity|]. now destruct (_ && _).
Qed.

Create HintDb console.
#[local] Hint Resolve console_extractall console_os_chmod
  console_raise_for_status : console.
#[local] Hint Extern 1 (prints_only_on_console (Resolver.on_console _)) =>
  apply console_on_console; auto with prints : console.
#[local] Hint Extern 2 (prints_only_on_console _) =>
  apply console_kept; reflexivity : console.

Ltac console_steps :=
  repeat first
    [ solve [auto with console]
    | match goal with
      | |- prints_only_on_console (if ?b then _ else _) => destruct b
      | |- prints_only_on_console (Resolver.rbind _ _) =>
        apply console_rbind; [|intros ?]
      | |- prints_only_on_console (let '(_, _) := ?x in _) => destruct x
      end ].

Lemma console_extract_and_check (cfg : settings) (lib : Resolver.library)
    (p : Resolver.platform) (base cli archive : str) :
  prints_only_on_console (Resolver.extract_and_check cfg lib p base cli archive).
Proof. unfold Resolver.extract_and_check. console_steps. Qed.

(** The resolver does nothing on the console but print: it starts no
    child, sends nothing to one, and does not reach the remote log. *)
Lemma resolver_prints_only (cfg : settings) (ps : Resolver.paths_settings)
    (lib : Resolver.library) (p : Resolver.platform) (commit quality : str) :
  prints_only_on_console
    (Resolver.download_vscode_server cfg ps lib p commit quality).
Proof.
  pose proof (prints_only_platform cfg p) as Hplatform.
  pose proof (prints_only_paths cfg ps lib p commit) as Hpaths.
  pose proof (console_extract_and_check cfg lib p) as Hextract.
  unfold Resolver.download_vscode_server, Resolver.fetch_and_extract.
  console_steps.
  apply console_rfor_each. intros chunk. console_steps.
Qed.

Lemma resolver_keeps_network (cfg : settings) (ps : Resolver.paths_settings)
    (lib : Resolver.library) (p : Resolver.platform) (commit quality : str)
    (s : Resolver.site) :
  network (Resolver.console
             (snd (Resolver.download_vscode_server cfg ps lib p commit quality s)))
  = network (Resolver.console s).
Proof.
  destruct (resolver_prints_only cfg ps lib p commit quality s) as (evs & -> & _).
  reflexivity.
Qed.

(** *** Exit code *)

Lemma contained_driver (base64 : codec) (h : host) (cfg : settings)
    (rules : rule_set) (cli : str) :
  (forall t, no_interrupt (b64decode_text base64 t)) ->
  Forall no_interrupt (child_output h) ->
  contained (if on_windows h
             then run_and_detect_windows base64 cfg rules cli
                    (start_error h) (child_output h)
             else run_and_detect_unix base64 cfg rules cli
                    (start_error h) (child_output h)).
Proof.
  intros Hdec Hout. destruct (on_windows h).
  - unfold run_and_detect_windows. contained_steps.
  - unfold run_and_detect_unix. contained_steps.
Qed.

(** What the [try] of the entry point comes to, by what the resolver
    gives. *)
Lemma main_try_run (base64 : codec) (h : host) (cfg : settings)
    (ps : Resolver.paths_settings) (rules : rule_set) (s : Resolver.site) :
  main_try base64 h cfg ps rules s
  = match resolve h cfg ps s with
    | (Ok cli, s1) =>
      Resolver.on_console
        (if on_windows h
         then run_and_detect_windows base64 cfg rules cli
                (start_error h) (child_output h)
         else run_and_detect_unix base64 cfg rules cli
                (start_error h) (child_output h)) s1
    | (Raise e, s1) => (Raise e, s1)
    end.
Proof. reflexivity. Qed.

Lemma fst_on_console {A} (m : M A) (s : Resolver.site) :
  fst (Resolver.on_console m s) = fst (m (Resolver.console s)).
Proof.
  unfold Resolver.on_console. now destruct (m (Resolver.console s)).
Qed.

Lemma contained_main_try (base64 : codec) (h : host) (cfg : settings)
    (ps : Resolver.paths_settings) (rules : rule_set) (s : Resolver.site) :
  (forall t, no_interrupt (b64decode_text base64 t)) ->
  no_interrupt (fst (resolve h cfg ps s)) ->
  Forall no_interrupt (child_output h) ->
  Forall no_interrupt (network (Resolver.console s)) ->
  no_interrupt (fst (main_try base64 h cfg ps rules s)).
Proof.
  intros Hdec Hdl Hout Hnet. rewrite main_try_run.
  pose proof (resolver_keeps_network cfg ps (library h) (platform h)
                (commit_id cfg) (dict_get (quality cfg) (lit "stable")) s)
    as Hkept.
  fold (resolve h cfg ps) in Hkept.
  destruct (resolve h cfg ps s) as [[cli|e] s1]; cbn [fst snd] in *.
  - rewrite fst_on_console.
    apply (contained_driver base64 h cfg rules cli Hdec Hout).
    now rewrite Hkept.
  - exact Hdl.
Qed.

(** The handler of the entry point returns. *)
Lemma main_except_returns (cfg : settings) (e : exn) (w : world) :
  fst (main_except cfg e w) = Ok tt.
Proof. unfold main_except. run. reflexivity. Qed.

(** C7, as stated, fails: the configuration loads, the binary cannot
    be resolved (the download is answered with 404); the failure is
    printed and the process exits with code 0. *)
Lemma unresolved_binary_exits_zero :
  let url := lit "https://update.code.visualstudio.com/commit:abc123/cli-alpine-x64/stable" in
  let h := linux_host {| key_detect := None |} None [] in
  let s := site_of []
             (Ok {| Resolver.dl_status := 404;
                    Resolver.dl_reason := lit "Not Found";
                    Resolver.dl_url := url;
                    Resolver.dl_chunks := [] |}) in
  fst (run plain h s) = ExitZero
  /\ output (Resolver.console (snd (run plain h s)))
     = [Print (lit "[+] Downloading CLI from: " ++ url);
        Print (lit "[X] Fatal Error: 404 Client Error: Not Found for url: "
               ++ url)].
Proof. cbv zeta. split; vm_compute; reflexivity. Qed.

(** When the binary cannot be resolved the driver is not started. *)
Lemma main_try_without_binary (base64 : codec) (h : host) (cfg : settings)
    (ps : Resolver.paths_settings) (rules : rule_set) (s s1 : Resolver.site)
    (e : exn) :
  resolve h cfg ps s = (Raise e, s1) ->
  main_try base64 h cfg ps rules s = (Raise e, s1).
Proof. intros H. rewrite main_try_run. now rewrite H. Qed.

(** What [is_Exception] decides at the entry point. *)
Lemma try_except_exit (base64 : codec) (h : host) (cfg : settings)
    (ps : Resolver.paths_settings) (rules : rule_set) (s : Resolver.site) :
  load_config h = Ok (cfg, ps) -> load_detectors h = Ok rules ->
  fst (run base64 h s)
  = match fst (main_try base64 h cfg ps rules s) with
    | Ok _ => ExitZero
    | Raise e => if is_Exception e then ExitZero else ExitNonZero
    end.
Proof.
  intros Hc Hd. unfold run, main, Resolver.rlift, Resolver.rbind,
    Resolver.rtry_except.
  rewrite Hc, Hd. cbn [fst snd].
  destruct (main_try base64 h cfg ps rules s) as [[[]|e] s1]; cbn [fst].
  - reflexivity.
  - destruct (is_Exception e); [|reflexivity].
    pose proof (fst_on_console (main_except cfg e) s1) as Hx.
    rewrite main_except_returns in Hx.
    destruct (Resolver.on_console (main_except cfg e) s1) as [r s2].
    cbn [fst] in *. now subst r.
Qed.

(** C7, amended: the process exits with code 0 on normal termination
    and also when binary resolution or the driver fails with an
    Exception, which the entry point catches and prints as a fatal
    error; it exits with a code other than 0 when a configuration
    document cannot be loaded, or when a failure that is no Exception
    (a keyboard interrupt) leaves the entry point.  Unless the
    environment interrupts, no such failure arises. *)
Theorem exit_code_of_run (base64 : codec) (h : host) (s : Resolver.site) :
  ((exists e, load_config h = Raise e) \/ (exists e, load_detectors h = Raise e) ->
   fst (run base64 h s) = ExitNonZero)
  /\
  (forall cfg ps rules,
     load_config h = Ok (cfg, ps) -> load_detectors h = Ok rules ->
     (forall e,
        fst (resolve h cfg ps s) = Raise e ->
        is_Exception e = true ->
        fst (run base64 h s) = ExitZero)
     /\
     ((forall t, no_interrupt (b64decode_text base64 t)) ->
      no_interrupt (fst (resolve h cfg ps s)) ->
      Forall no_interrupt (child_output h) ->
      Forall no_interrupt (network (Resolver.console s)) ->
      fst (run base64 h s) = ExitZero)
     /\
     (forall e,
        fst (main_try base64 h cfg ps rules s) = Raise e ->
        is_Exception e = false ->
        fst (run base64 h s) = ExitNonZero)).
Proof.
  split.
  - unfold run, main, Resolver.rlift, Resolver.rbind. intros [[e He]|[e He]].
    + now rewrite He.
    + rewrite He. now destruct (load_config h).
  - intros cfg ps rules Hc Hd.
    rewrite (try_except_exit base64 h cfg ps rules s Hc Hd). repeat split.
    + intros e He Hexc. rewrite main_try_run.
      destruct (resolve h cfg ps s) as [[cli|e'] s1]; cbn [fst] in *;
        [discriminate He|].
      injection He as ->. now rewrite Hexc.
    + intros Hdecode Hdownload Hchild Hremote.
      pose proof (contained_main_try base64 h cfg ps rules s Hdecode Hdownload
                    Hchild Hremote) as Hr.
      destruct (fst (main_try base64 h cfg ps rules s)) as [[]|e]; [reflexivity|].
      cbn [no_interrupt] in Hr. now rewrite Hr.
    + intros e He Hexc. now rewrite He, Hexc.
Qed.

Lemma exit_code_of_run_witness :
  let rules := {| key_detect :=
                    Some [rule (lit "Allow") false [lit "String:y"]] |} in
  let pipe := windows_host rules [Ok (lit "Allow extension? (y/n)")] in
  let unread := {| platform := linux_x64; library := posix;
                   load_config := Raise (Error (lit "No such file: config.yaml"));
                   load_detectors := Ok {| key_detect := None |};
                   start_error := None;
                   child_output := [] |} in
  let interrupted := windows_host {| key_detect := None |}
                       [Raise KeyboardInterrupt] in
  let s := site_of (installed (lit "/home/user/.vscode-server/code.exe"))
             (Raise (Error (lit "no network"))) in
  fst (run plain pipe s) = ExitZero
  /\ fst (run plain unread s) = ExitNonZero
  /\ fst (run plain interrupted s) = ExitNonZero.
Proof.
  intros rules pipe unread interrupted s. split; [|split].
  - destruct (exit_code_of_run plain pipe s) as [_ H].
    destruct (H quiet user_paths rules eq_refl eq_refl) as (_ & Hzero & _).
    apply Hzero.
    + intros t. exact I.
    + exact I.
    + repeat constructor.
    + constructor.
  - destruct (exit_code_of_run plain unread s) as [H _].
    apply H. left. eexists. reflexivity.
  - destruct (exit_code_of_run plain interrupted s) as [_ H].
    destruct (H quiet user_paths {| key_detect := None |} eq_refl eq_refl)
      as (_ & _ & Hesc).
    apply (Hesc KeyboardInterrupt); reflexivity.
Defined.

(** *** The session off Windows; the binary that cannot be resolved *)



(** X22: when the binary cannot be resolved the driver is not
    started.  The entry point prints the failure as a fatal error on
    the console as the resolver left it, and ends; and the resolver
    has done nothing on the console but print.  So no child runs,
    nothing is sent to one, and the remote log is not reached; what
    the resolver did to resolve the binary (its request to the
    download server, the directory it made) stays done. *)
Theorem unresolved_binary_starts_nothing (base64 : codec) (h : host)
    (cfg : settings) (ps : Resolver.paths_settings) (rules : rule_set)
    (e : exn) (s s1 : Resolver.site)
    (Hconfig : load_config h = Ok (cfg, ps))
    (Hrules : load_detectors h = Ok rules)
    (Hbinary : resolve h cfg ps s = (Raise e, s1))
    (Hcaught : is_Exception e = true) :
  main base64 h s
  = (Ok tt,
     with_console
       (log ([Print (lit "[X] Fatal Error: " ++ str_exn e)]
             ++ debug_events cfg (lit "Fatal error: " ++ str_exn e))
          (Resolver.console s1)) s1)
  /\ exists evs,
       Resolver.console s1 = log evs (Resolver.console s)
       /\ forallb is_print evs = true.
Proof.
  split.
  - unfold main, Resolver.rlift, Resolver.rbind, Resolver.rtry_except.
    rewrite Hconfig, Hrules. cbn [fst snd].
    rewrite (main_try_without_binary base64 h cfg ps rules s s1 e Hbinary).
    rewrite Hcaught. apply on_console_run.
    unfold main_except. run. reflexivity.
  - pose proof (resolver_prints_only cfg ps (library h) (platform h)
                  (commit_id cfg) (dict_get (quality cfg) (lit "stable")) s)
      as Hprints.
    fold (resolve h cfg ps) in Hprints. now rewrite Hbinary in Hprints.
Qed.

Lemma unresolved_binary_starts_nothing_witness :
  let h := {| platform := riscv; library := posix;
              load_config := Ok (quiet, user_paths);
              load_detectors := Ok {| key_detect := None |};
              start_error := None;
              child_output := [Ok (lit "never read")] |} in
  let s := site_of [] (Raise (Error (lit "no network"))) in
  main plain h s
  = (Ok tt,
     with_console
       (log [Print (lit "[X] Fatal Error: Unsupported Linux architecture: riscv64")]
          offline) s).
Proof.
  intros h s.
  exact (proj1 (unresolved_binary_starts_nothing plain h quiet user_paths
                  {| key_detect := None |}
                  (Error (lit "Unsupported Linux architecture: riscv64")) s s
                  eq_refl eq_refl eq_refl eq_refl)).
Defined.
